(** * FuturIDE: the execution core of the web IDE and of its desktop variant

    A shallow embedding of [src/app.py] (validation, the Python and C
    runners, the form handler and the JSON endpoint) and of the Run action
    of [src/futuride_desktop.py], with the properties the specification
    states about them.

    Conventions of the model.
    - A Python [str] is a [string] whose characters are the code points
      below 256 (Latin-1); [len], [lower], [strip] and [in] are defined on
      them the way CPython defines them on that range.
    - Integers are [Z].
    - The operating system (temporary files, child processes, deletion) is
      an explicit world state, driven by an environment record that fixes
      what each external call answers; Python exceptions are a result type
      and [try]/[except]/[finally] are combinators on it.
    - A child process is given by what it does: how long it runs, the
      files it creates and removes, and what the library captures from
      it, which is text or bytes that cannot be decoded.
    - The body of a JSON request is any decoded value; a value that is not
      a string is given by the name of its type, its truth value and its
      text, the three things the endpoint can observe of it. *)

From Stdlib Require Import ZArith Ascii String List Bool Lia.
From stdpp Require Import base option gmap strings pretty.

Local Open Scope Z_scope.

(** ** Python strings *)

Module PyStr.

Definition code_point (c : ascii) : N := N_of_ascii c.

(** [str.isspace] on one character: TAB..CR, FS..US, SPACE, NEL, NBSP. *)
Definition isspace (c : ascii) : bool :=
  let n := code_point c in
  ((9 <=? n) && (n <=? 13) || (28 <=? n) && (n <=? 32)
   || (n =? 133) || (n =? 160))%N.

(** [str.lower] on one character: A-Z and the Latin-1 capitals
    U+00C0..U+00DE except the multiplication sign U+00D7. *)
Definition lower_char (c : ascii) : ascii :=
  let n := code_point c in
  if ((65 <=? n) && (n <=? 90)
      || (192 <=? n) && (n <=? 222) && negb (n =? 215))%N
  then ascii_of_N (n + 32) else c.

Fixpoint lower (s : string) : string :=
  match s with
  | EmptyString => EmptyString
  | String c s' => String (lower_char c) (lower s')
  end.

Definition len (s : string) : Z := Z.of_nat (String.length s).

Fixpoint lstrip (s : string) : string :=
  match s with
  | EmptyString => EmptyString
  | String c s' => if isspace c then lstrip s' else s
  end.

Fixpoint rstrip (s : string) : string :=
  match s with
  | EmptyString => EmptyString
  | String c s' =>
      match rstrip s' with
      | EmptyString => if isspace c then EmptyString else String c EmptyString
      | r => String c r
      end
  end.

Definition strip (s : string) : string := rstrip (lstrip s).

(** Truth value of a string: non-empty. *)
Definition truthy (s : string) : bool :=
  match s with EmptyString => false | _ => true end.

(** [pat in s]. *)
Fixpoint contains (pat s : string) : bool :=
  String.prefix pat s
  || match s with
     | EmptyString => false
     | String _ s' => contains pat s'
     end.

(** [s[:-2]]. *)
Definition drop_last2 (s : string) : string :=
  String.substring 0 (String.length s - 2) s.

Fixpoint all_space (s : string) : bool :=
  match s with
  | EmptyString => true
  | String c s' => isspace c && all_space s'
  end.

Fixpoint replicate (n : nat) (c : ascii) : string :=
  match n with
  | O => EmptyString
  | S n' => String c (replicate n' c)
  end.

(** [pat] occurs in [s] as a contiguous block. *)
Definition occurs_in (pat s : string) : Prop :=
  exists pre post, s = pre +:+ pat +:+ post.

End PyStr.

(** ** Configuration ([Config] in app.py) *)

Record Config := {
  EXECUTION_TIMEOUT : Z;
  MAX_CODE_LENGTH : Z
}.

Definition default_config : Config :=
  {| EXECUTION_TIMEOUT := 10; MAX_CODE_LENGTH := 50000 |}.

(** ** validate_code *)

Definition dangerous_patterns : list string :=
  [ "import os"; "import sys"; "import subprocess"; "eval("; "exec(";
    "__import__"; "globals()"; "locals()"; "open("; "file(";
    "system("; "popen("; "spawn("; "fork("; "kill(" ].

Definition msg_empty : string := "Code cannot be empty".

Definition msg_too_long (cfg : Config) : string :=
  "Code too long. Maximum " +:+ pretty (MAX_CODE_LENGTH cfg)
  +:+ " characters allowed.".

Definition msg_dangerous (pattern : string) : string :=
  "Potentially dangerous code detected: " +:+ pattern.

(** The [for pattern in dangerous_patterns] loop: the first pattern, in list
    order, that occurs in the lowercased code. *)
Fixpoint first_dangerous (patterns : list string) (code_lower : string)
  : option string :=
  match patterns with
  | [] => None
  | pattern :: rest =>
      if PyStr.contains pattern code_lower then Some pattern
      else first_dangerous rest code_lower
  end.

Definition validate_code (cfg : Config) (code language : string)
  : bool * option string :=
  if negb (PyStr.truthy code) || negb (PyStr.truthy (PyStr.strip code)) then
    (false, Some msg_empty)
  else if PyStr.len code >? MAX_CODE_LENGTH cfg then
    (false, Some (msg_too_long cfg))
  else
    let code_lower := PyStr.lower code in
    match first_dangerous dangerous_patterns code_lower with
    | Some pattern => (false, Some (msg_dangerous pattern))
    | None => (true, None)
    end.


(** ** Exceptions and the state-and-exception monad *)

Inductive exn :=
| TimeoutExpired (msg : string)
| FileNotFoundError (msg : string)
| OSError (msg : string)
| KeyError (msg : string)
| AttributeError (msg : string)
| UnicodeDecodeError (msg : string)
| Exception (msg : string).

(** [str(e)] *)
Definition str_exn (e : exn) : string :=
  match e with
  | TimeoutExpired m | FileNotFoundError m | OSError m | KeyError m
  | AttributeError m | UnicodeDecodeError m | Exception m => m
  end.

(** [FileNotFoundError] is a subclass of [OSError]. *)
Definition is_OSError (e : exn) : bool :=
  match e with FileNotFoundError _ | OSError _ => true | _ => false end.

Definition is_KeyError (e : exn) : bool :=
  match e with KeyError _ => true | _ => false end.

Inductive result (A : Type) :=
| Ok (a : A)
| Raise (e : exn).
Arguments Ok {A} a.
Arguments Raise {A} e.

Definition M (S A : Type) : Type := S -> result A * S.

Definition ret {S A} (a : A) : M S A := fun s => (Ok a, s).

Definition bind {S A B} (m : M S A) (k : A -> M S B) : M S B :=
  fun s => match m s with
           | (Ok a, s') => k a s'
           | (Raise e, s') => (Raise e, s')
           end.

Definition raise {S A} (e : exn) : M S A := fun s => (Raise e, s).

Definition get {S} : M S S := fun s => (Ok s, s).

Definition modify {S} (f : S -> S) : M S unit := fun s => (Ok tt, f s).

(** [try: m  except Exception as e: handler e]; a handler re-raises what
    it does not catch. *)
Definition try_except {S A} (m : M S A) (handler : exn -> M S A) : M S A :=
  fun s => match m s with
           | (Ok a, s') => (Ok a, s')
           | (Raise e, s') => handler e s'
           end.

(** [try: m  finally: fin]; [fin] runs on every exit of [m], and an
    exception of [fin] replaces the outcome of [m]. *)
Definition try_finally {S A} (m : M S A) (fin : M S unit) : M S A :=
  fun s => match m s with
           | (r, s') =>
               match fin s' with
               | (Ok _, s'') => (r, s'')
               | (Raise e, s'') => (Raise e, s'')
               end
           end.

Declare Scope py_scope.
Delimit Scope py_scope with py.
Notation "'let*' x ':=' m 'in' k" := (bind m (fun x => k))
  (at level 10, x name, m at level 100, k at level 200,
   format "'[v' 'let*'  x  ':='  m  'in' '/' k ']'") : py_scope.
Notation "'let*' ' p ':=' m 'in' k" := (bind m (fun p => k))
  (at level 10, p pattern, m at level 100, k at level 200,
   format "'[v' 'let*'  ' p  ':='  m  'in' '/' k ']'") : py_scope.
Notation "m '>>' k" := (bind m (fun _ => k))
  (at level 90, right associativity,
   format "'[v' m  '>>' '/' k ']'") : py_scope.
Local Open Scope py_scope.

(** ** The operating system *)

Inductive event :=
| EvCreate (path : string)
| EvWrite (path content : string)
| EvClose (path : string)
| EvSpawn (argv : list string) (timeout : Z)
| EvKill (argv : list string)
| EvUnlink (path : string) (deleted : bool)
| EvLogError (msg : string).

(** The files that exist and what has happened so far (oldest first). *)
Record World := {
  fs : gset string;
  trace : list event
}.

Record CompletedProcess := {
  returncode : Z;
  stdout : string;
  stderr : string
}.

(** What the library makes of the output it captured from a child that
    has ended ([text=True]): the completed process with both streams as
    text, or the message of the [UnicodeDecodeError] when the bytes the
    child wrote are not text in the encoding of the platform. *)
Inductive captured :=
| Decoded (p : CompletedProcess)
| Undecodable (msg : string).

(** What a command does when it is started: the launch fails, or the child
    runs for [duration] time units ([None]: it never exits by itself),
    creates the files [created], then removes the files [removed], and
    would end with [finished]. *)
Inductive behaviour :=
| LaunchFails (e : exn)
| Runs (duration : option Z) (finished : captured)
       (created removed : list string).

(** Everything the runners ask of the platform and of the libraries. *)
Record Env := {
  os_name : string;
  sys_executable : string;
  (* NamedTemporaryFile: the directory, prefix and random part of the new
     name, or the exception of a failed creation *)
  tmp_stem : string -> gset string -> result string;
  (* f.write(code) *)
  write_error : string -> string -> option exn;
  (* leaving the [with] block closes (and flushes) the file *)
  close_error : string -> option exn;
  (* subprocess.run *)
  child : list string -> gset string -> behaviour;
  timeout_str : list string -> Z -> string;
  (* os.unlink of an existing file: the message of the OSError, if any *)
  unlink_error : string -> option string
}.

Definition log_event (ev : event) (w : World) : World :=
  {| fs := fs w; trace := trace w ++ [ev] |}.

Definition add_file (path : string) (w : World) : World :=
  {| fs := {[path]} ∪ fs w; trace := trace w |}.

Definition add_files (paths : list string) (w : World) : World :=
  {| fs := list_to_set paths ∪ fs w; trace := trace w |}.

Definition del_file (path : string) (w : World) : World :=
  {| fs := fs w ∖ {[path]}; trace := trace w |}.

Definition del_files (paths : list string) (w : World) : World :=
  {| fs := fs w ∖ list_to_set paths; trace := trace w |}.

(** The child is still running when the timeout expires. *)
Definition exceeds (duration : option Z) (timeout : Z) : bool :=
  match duration with
  | Some d => timeout <? d
  | None => true
  end.

(** States that carry the world. *)
Class HasWorld (S : Type) := {
  the_world : S -> World;
  with_world : World -> S -> S
}.

#[global] Instance World_HasWorld : HasWorld World :=
  {| the_world w := w; with_world w _ := w |}.

(** The frame of a running function: the world and the local variables
    that [locals()] shows (the string-valued ones). *)
Record Frame := {
  world : World;
  locals : gmap string string
}.

#[global] Instance Frame_HasWorld : HasWorld Frame :=
  {| the_world := world;
     with_world w f := {| world := w; locals := locals f |} |}.

Fixpoint for_each {S A} (l : list A) (body : A -> M S unit) : M S unit :=
  match l with
  | [] => ret tt
  | x :: rest => body x >> for_each rest body
  end.

Section Platform.
Context (env : Env) {S : Type} `{HasWorld S}.

Definition os_do (f : World -> World) : M S unit :=
  modify (fun s => with_world (f (the_world s)) s).

Definition os_get : M S World := fun s => (Ok (the_world s), s).

(** [tempfile.NamedTemporaryFile(mode='w', suffix=suffix, delete=False)]:
    the file exists from here on, under a name that ends in [suffix]. *)
Definition NamedTemporaryFile (suffix : string) : M S string :=
  let* w := os_get in
  match tmp_stem env suffix (fs w) with
  | Raise e => raise e
  | Ok stem =>
      let name := stem +:+ suffix in
      os_do (add_file name) >> os_do (log_event (EvCreate name)) >> ret name
  end.

Definition file_write (name content : string) : M S unit :=
  match write_error env name content with
  | Some e => raise e
  | None => os_do (log_event (EvWrite name content))
  end.

Definition file_close (name : string) : M S unit :=
  match close_error env name with
  | Some e => raise e
  | None => os_do (log_event (EvClose name))
  end.

(** [subprocess.run(argv, capture_output=True, text=True, timeout=timeout)].
    When the timeout expires the library kills the child, waits for it
    and raises [TimeoutExpired]. When the child ends in time the library
    decodes what it captured, and the [UnicodeDecodeError] of bytes that
    are not text leaves the call. *)
Definition subprocess_run (argv : list string) (timeout : Z)
  : M S CompletedProcess :=
  let* w := os_get in
  match child env argv (fs w) with
  | LaunchFails e => raise e
  | Runs duration finished created removed =>
      os_do (log_event (EvSpawn argv timeout)) >>
      os_do (add_files created) >>
      os_do (del_files removed) >>
      if exceeds duration timeout then
        os_do (log_event (EvKill argv)) >>
        raise (TimeoutExpired (timeout_str env argv timeout))
      else
        match finished with
        | Decoded p => ret p
        | Undecodable msg => raise (UnicodeDecodeError msg)
        end
  end.

(** [os.unlink(path)] *)
Definition os_unlink (path : string) : M S unit :=
  let* w := os_get in
  if decide (path ∈ fs w) then
    match unlink_error env path with
    | Some msg => os_do (log_event (EvUnlink path false)) >> raise (OSError msg)
    | None => os_do (del_file path) >> os_do (log_event (EvUnlink path true))
    end
  else
    os_do (log_event (EvUnlink path false)) >>
    raise (FileNotFoundError ("No such file or directory: " +:+ path)).


(** [logger.error(msg)] *)
Definition logger_error (msg : string) : M S unit :=
  os_do (log_event (EvLogError msg)).

End Platform.

(** Local variables of a frame. *)
Definition assign (var value : string) : M Frame unit :=
  modify (fun f => {| world := world f; locals := <[var := value]> (locals f) |}).

(** [var in locals()] *)
Definition in_locals (var : string) : M Frame bool :=
  fun f => (Ok (bool_decide (is_Some (locals f !! var))), f).

(** [locals()[var]] *)
Definition locals_getitem (var : string) : M Frame string :=
  fun f => match locals f !! var with
           | Some v => (Ok v, f)
           | None => (Raise (KeyError var), f)
           end.

(** Reading the local variable [var]. *)
Definition load (var : string) : M Frame string :=
  fun f => match locals f !! var with
           | Some v => (Ok v, f)
           | None => (Raise (Exception ("UnboundLocalError: " +:+ var)), f)
           end.

(** Calling a function: a fresh frame on the current world. *)
Definition call {A} (body : M Frame A) : M World A :=
  fun w => match body {| world := w; locals := ∅ |} with
           | (r, f) => (r, world f)
           end.

(** ** The runners of app.py *)

Section Runners.
Context (cfg : Config) (env : Env).

(** [with tempfile.NamedTemporaryFile(mode='w', suffix=suffix,
    delete=False) as f: f.write(code); var = f.name] *)
Definition write_scratch (suffix code var : string) : M Frame unit :=
  let* f_name := NamedTemporaryFile env suffix in
  try_finally (file_write env f_name code >> assign var f_name)
              (file_close env f_name).

Definition none_if_empty (s : string) : option string :=
  if PyStr.truthy s then Some s else None.

(** The body of the [try] statement of [execute_python_code]. *)
Definition python_try (code : string)
  : M Frame (option string * option string) :=
  write_scratch ".py" code "temp_file" >>
  let* temp_file := load "temp_file" in
  (* the call also passes cwd=tempfile.gettempdir() and a minimal env *)
  let* result :=
    subprocess_run env ["python"; temp_file] (EXECUTION_TIMEOUT cfg) in
  ret (Some (stdout result), none_if_empty (stderr result)).

(** Its [except] clauses, in order. *)
Definition python_except (e : exn)
  : M Frame (option string * option string) :=
  match e with
  | TimeoutExpired _ => ret (None, Some "Execution timed out")
  | _ =>
      logger_error ("Python execution error: " +:+ str_exn e) >>
      ret (None, Some ("Execution error: " +:+ str_exn e))
  end.

(** Its [finally] clause. *)
Definition python_finally : M Frame unit :=
  let* bound := in_locals "temp_file" in
  if bound then
    let* temp_file := load "temp_file" in
    try_except (os_unlink env temp_file)
               (fun e => if is_OSError e then ret tt else raise e)
  else ret tt.

Definition execute_python_code (code : string)
  : M World (option string * option string) :=
  call (try_finally (try_except (python_try code) python_except)
                    python_finally).

(** The body of the [try] statement of [execute_c_code]. *)
Definition c_try (code : string) : M Frame (option string * option string) :=
  write_scratch ".c" code "c_file" >>
  let* c_file := load "c_file" in
  assign "exe_file"
    (if String.eqb (os_name env) "nt"
     then PyStr.drop_last2 c_file +:+ ".exe"
     else PyStr.drop_last2 c_file) >>
  let* exe_file := load "exe_file" in
  let* compile_result :=
    subprocess_run env ["gcc"; c_file; "-o"; exe_file; "-Wall"; "-Wextra"]
                   (EXECUTION_TIMEOUT cfg) in
  if negb (returncode compile_result =? 0) then
    ret (None, Some (stderr compile_result))
  else
    (* the call also passes cwd=tempfile.gettempdir() *)
    let* run_result := subprocess_run env [exe_file] (EXECUTION_TIMEOUT cfg) in
    ret (Some (stdout run_result), none_if_empty (stderr run_result)).

(** Its [except] clauses, in order. *)
Definition c_except (e : exn) : M Frame (option string * option string) :=
  match e with
  | TimeoutExpired _ => ret (None, Some "Execution timed out")
  | FileNotFoundError _ =>
      ret (None, Some "GCC compiler not found. Please install GCC to run C code.")
  | _ =>
      logger_error ("C execution error: " +:+ str_exn e) >>
      ret (None, Some ("Execution error: " +:+ str_exn e))
  end.

(** The body of the loop of its [finally] clause. *)
Definition unlink_local (file_path : string) : M Frame unit :=
  let* bound := in_locals file_path in
  if bound then
    try_except
      (let* path := locals_getitem file_path in os_unlink env path)
      (fun e => if is_OSError e || is_KeyError e then ret tt else raise e)
  else ret tt.

(** Its [finally] clause. *)
Definition c_finally : M Frame unit :=
  for_each ["c_file"; "exe_file"] unlink_local.

Definition execute_c_code (code : string)
  : M World (option string * option string) :=
  call (try_finally (try_except (c_try code) c_except) c_finally).

(** The world after [os.unlink(path)] inside a [try] that ignores
    [OSError]: the attempt is recorded, and the file is gone unless the
    platform refuses. *)
Definition unlinked (path : string) (w : World) : World :=
  if decide (path ∈ fs w) then
    match unlink_error env path with
    | Some _ => log_event (EvUnlink path false) w
    | None => log_event (EvUnlink path true) (del_file path w)
    end
  else log_event (EvUnlink path false) w.

(** The scratch file of a run that starts in [w]: its name, and whether
    the code was written to it. *)
Definition scratch_name (suffix : string) (w : World) : result string :=
  match tmp_stem env suffix (fs w) with
  | Ok stem => Ok (stem +:+ suffix)
  | Raise e => Raise e
  end.

Definition scratch_written (suffix code : string) (w : World)
    (name : string) : Prop :=
  scratch_name suffix w = Ok name /\ write_error env name code = None.

(** The world once the scratch file has been created, written and
    closed. *)
Definition after_scratch (name code : string) (w : World) : World :=
  log_event (EvClose name)
    (log_event (EvWrite name code)
       (log_event (EvCreate name) (add_file name w))).

(** The world once the library has started the child of [argv] and the
    child has created and removed its files. *)
Definition after_child (argv : list string) (timeout : Z)
    (created removed : list string) (w : World) : World :=
  del_files removed (add_files created (log_event (EvSpawn argv timeout) w)).

(** No program started on the platform removes [path]. *)
Definition spared (path : string) : Prop :=
  forall argv files duration finished created removed,
    child env argv files = Runs duration finished created removed ->
    path ∉ removed.

Definition is_unlink (ev : event) : bool :=
  match ev with EvUnlink _ _ => true | _ => false end.

(** From [w] to [w1] nothing was unlinked and no program removed a file
    it spares. *)
Definition quiet (w w1 : World) : Prop :=
  (forall path, spared path -> path ∈ fs w -> path ∈ fs w1)
  /\ exists evs, trace w1 = trace w ++ evs
                 /\ Forall (fun ev => is_unlink ev = false) evs.

(** The name the C runner gives the binary. *)
Definition exe_name (c_file : string) : string :=
  if String.eqb (os_name env) "nt"
  then PyStr.drop_last2 c_file +:+ ".exe"
  else PyStr.drop_last2 c_file.

Definition gcc_argv (c_file : string) : list string :=
  ["gcc"; c_file; "-o"; exe_name c_file; "-Wall"; "-Wextra"].

End Runners.

(** ** The web layer of app.py *)

Definition nl : string := String "010"%char EmptyString.

(** The keyword arguments of [render_template('index.html', ...)]; an
    argument that is not passed is [None]. The constant [languages]
    argument is left out. *)
Record TemplateArgs := {
  arg_output : option string;
  arg_error : option string;
  arg_html_preview : option string;
  arg_theme : string;
  arg_code : string;
  arg_language : string
}.

Inductive jvalue :=
| JNull
| JBool (b : bool)
| JStr (s : string).

Definition jopt (o : option string) : jvalue :=
  match o with Some s => JStr s | None => JNull end.

Inductive response :=
| Render (template : string) (args : TemplateArgs)
| Jsonify (body : list (string * jvalue)) (status : Z).

(** A value decoded from JSON, as far as the endpoint can tell one from
    another: a [str], or a value of another type ([NoneType], [bool],
    [int], [float], [list] or [dict]) given by the name of its type, its
    truth value and its [str()]. *)
Inductive pyvalue :=
| VStr (s : string)
| VOther (type_name : string) (truth : bool) (text : string).

Definition type_name_of (v : pyvalue) : string :=
  match v with VStr _ => "str" | VOther type_name _ _ => type_name end.

Definition truth_of (v : pyvalue) : bool :=
  match v with VStr s => PyStr.truthy s | VOther _ truth _ => truth end.

(** [str(v)], as an f-string formats it. *)
Definition text_of (v : pyvalue) : string :=
  match v with VStr s => s | VOther _ _ text => text end.

(** [v == s] for a [str] [s]: a value of another type is never equal to
    it. *)
Definition value_is (v : pyvalue) (s : string) : bool :=
  match v with VStr s' => String.eqb s' s | VOther _ _ _ => false end.

(** The JSON values [null], [true]/[false] and the integers. *)
Definition py_none : pyvalue := VOther "NoneType" false "None".

Definition py_bool (b : bool) : pyvalue :=
  VOther "bool" b (if b then "True" else "False").

Definition py_int (n : Z) : pyvalue := VOther "int" (negb (n =? 0)) (pretty n).

Definition squote : string := String "039"%char EmptyString.

(** The text of the [AttributeError] for [obj.attr]. *)
Definition no_attribute (type_name attr : string) : string :=
  squote +:+ type_name +:+ squote +:+ " object has no attribute "
  +:+ squote +:+ attr +:+ squote.

(** What [request.get_json()] gives: an exception, [None], an object (a
    [dict] with string keys), or any other decoded body (a string, a
    number, a boolean, a list). *)
Inductive json_request :=
| JsonRaises (e : exn)
| JsonNone
| JsonObject (data : gmap string pyvalue)
| JsonValue (v : pyvalue).

(** The value [request.get_json()] returns. *)
Inductive decoded :=
| DNone
| DObject (data : gmap string pyvalue)
| DValue (v : pyvalue).

(** Truth value of the body: [None] and an empty object are falsy. *)
Definition decoded_truth (data : decoded) : bool :=
  match data with
  | DNone => false
  | DObject data => negb (bool_decide (data = ∅))
  | DValue v => truth_of v
  end.

(** The state of a form request: the world and the session cookie. *)
Record Web := {
  web_world : World;
  session : gmap string string
}.

#[global] Instance Web_HasWorld : HasWorld Web :=
  {| the_world := web_world;
     with_world w s := {| web_world := w; session := session s |} |}.

Definition session_set (key value : string) : M Web unit :=
  modify (fun s => {| web_world := web_world s;
                      session := <[key := value]> (session s) |}).

(** Running a function of the core from a handler. *)
Definition run_core {S A} `{HasWorld S} (m : M World A) : M S A :=
  fun s => match m (the_world s) with
           | (r, w') => (r, with_world w' s)
           end.

Definition msg_unsupported (language : string) : string :=
  "Unsupported language: " +:+ language.

Definition msg_javascript (code : string) : string :=
  "JavaScript code:" +:+ nl +:+ code +:+ nl +:+ nl
  +:+ "(JavaScript execution in browser console)".

Section WebLayer.
Context (cfg : Config) (env : Env).

(** The body of the form handler; the rate limiter that decorates the
    route belongs to the hosting layer and is not part of it. *)
Definition handle_code_execution (form : gmap string string)
    (theme code language : string) : M Web response :=
  let language := default language (form !! "language") in
  let code := default code (form !! "code") in
  session_set "language" language >>
  session_set "code" code >>
  match validate_code cfg code language with
  | (false, error_msg) =>
      ret (Render "index.html"
             {| arg_output := None; arg_error := error_msg;
                arg_html_preview := None; arg_theme := theme;
                arg_code := code; arg_language := language |})
  | (true, _) =>
      let* '(output, error, html_preview) :=
        if String.eqb language "python" then
          let* '(output, error) := run_core (execute_python_code cfg env code) in
          ret (output, error, None)
        else if String.eqb language "c" then
          let* '(output, error) := run_core (execute_c_code cfg env code) in
          ret (output, error, None)
        else if String.eqb language "html" then
          ret (None, None, Some code)
        else if String.eqb language "javascript" then
          ret (Some (msg_javascript code), None, None)
        else
          ret (None, Some (msg_unsupported language), None) in
      ret (Render "index.html"
             {| arg_output := output; arg_error := error;
                arg_html_preview := html_preview; arg_theme := theme;
                arg_code := code; arg_language := language |})
  end.

Definition get_json (req : json_request) : M World decoded :=
  match req with
  | JsonRaises e => raise e
  | JsonNone => ret DNone
  | JsonObject data => ret (DObject data)
  | JsonValue v => ret (DValue v)
  end.

(** [data.get(key, fallback)]: only a [dict] has the method. *)
Definition data_get (data : decoded) (key fallback : string)
  : M World pyvalue :=
  match data with
  | DObject data => ret (default (VStr fallback) (data !! key))
  | DNone => raise (AttributeError (no_attribute "NoneType" "get"))
  | DValue v => raise (AttributeError (no_attribute (type_name_of v) "get"))
  end.

(** The body of the JSON endpoint. The call of [validate_code] is
    written out by the type of [code]: on a [str] it is [validate_code]
    (which never reads [language], given here as its text); on any other
    value [not code] holds when the value is falsy, and [code.strip]
    raises otherwise. *)
Definition api_execute (req : json_request) : M World response :=
  try_except
    (let* data := get_json req in
     if negb (decoded_truth data) then
       ret (Jsonify [("error", JStr "No JSON data provided")] 400)
     else
       let* code := data_get data "code" "" in
       let* language := data_get data "language" "python" in
       match code with
       | VOther type_name truth _ =>
           if truth then raise (AttributeError (no_attribute type_name "strip"))
           else ret (Jsonify [("error", JStr msg_empty)] 400)
       | VStr code =>
           match validate_code cfg code (text_of language) with
           | (false, error_msg) =>
               ret (Jsonify [("error", jopt error_msg)] 400)
           | (true, _) =>
               let finish '(output, error) :=
                 ret (Jsonify [("output", jopt output);
                               ("error", jopt error);
                               ("success", JBool (bool_decide (error = None)))]
                              200) in
               if value_is language "python" then
                 let* r := execute_python_code cfg env code in finish r
               else if value_is language "c" then
                 let* r := execute_c_code cfg env code in finish r
               else if value_is language "html" then
                 ret (Jsonify [("html_preview", JStr code)] 200)
               else
                 ret (Jsonify
                        [("error", JStr (msg_unsupported (text_of language)))]
                        400)
           end
       end)
    (fun e =>
       logger_error ("API execution error: " +:+ str_exn e) >>
       ret (Jsonify [("error", JStr "Internal server error")] 500)).

End WebLayer.

(** ** The Run action of futuride_desktop.py *)

Module Desktop.

(** The three tabs the window is built with. *)
Inductive Tab := Python | C | HTML.

Record Window := {
  win_world : World;
  current_tab : Tab;
  editors : Tab -> string;
  output_label : string;
  html_view : string
}.

#[global] Instance Window_HasWorld : HasWorld Window :=
  {| the_world := win_world;
     with_world w g :=
       {| win_world := w; current_tab := current_tab g;
          editors := editors g; output_label := output_label g;
          html_view := html_view g |} |}.



Definition timeout : Z := 5.

Section Run.
Context (env : Env).








End Run.

(** Whatever a step does, it only adds events to the trace. *)
Definition growing {A} (m : M Window A) : Prop :=
  forall g, exists rest,
    trace (win_world (m g).2) = trace (win_world g) ++ rest.


End Desktop.

(** ** Sample environments *)

Definition no_files : World := {| fs := ∅; trace := [] |}.

Definition exited (code : Z) (out err : string) : CompletedProcess :=
  {| returncode := code; stdout := out; stderr := err |}.

(** A child that ends with the exit status [code] after printing the
    texts [out] and [err]. *)
Definition prints (code : Z) (out err : string) : captured :=
  Decoded (exited code out err).

(** A platform on which [gcc] behaves as [compiler] and every other
    command as [program]; scratch files are named [/tmp/tmpk3x9qz]. *)
Definition make_env (compiler program : behaviour) (write_err : option exn)
    (unlink_err : string -> option string) : Env :=
  {| os_name := "posix";
     sys_executable := "/usr/bin/python3";
     tmp_stem := fun _ _ => Ok "/tmp/tmpk3x9qz";
     write_error := fun _ _ => write_err;
     close_error := fun _ => None;
     child := fun argv _ =>
       match argv with
       | "gcc" :: _ => compiler
       | _ => program
       end;
     timeout_str := fun _ _ => "Command timed out";
     unlink_error := unlink_err |}.

(** [gcc] succeeds in one time unit and leaves the binary behind. *)
Definition gcc_ok : behaviour :=
  Runs (Some 1) (prints 0 "" "") ["/tmp/tmpk3x9qz"] [].

(** A well-behaved platform on which every program prints [out] and exits
    0 after [secs] time units ([None]: it never exits). *)
Definition plain_env (secs : option Z) (out : string) : Env :=
  make_env gcc_ok (Runs secs (prints 0 out "") [] []) None (fun _ => None).

(** The text cannot be encoded: [f.write(code)] raises. *)
Definition unwritable_env : Env :=
  make_env gcc_ok (Runs (Some 1) (prints 0 "" "") [] [])
    (Some (Exception "'utf-8' codec can't encode character: surrogates not allowed"))
    (fun _ => None).

(** The platform refuses every deletion. *)
Definition refusing_env : Env :=
  make_env gcc_ok (Runs (Some 1) (prints 0 "Hi" "") [] []) None
    (fun _ => Some "Permission denied").

(** The platform refuses to delete C sources only. *)
Definition source_refusing_env : Env :=
  make_env gcc_ok (Runs (Some 1) (prints 0 "Hi" "") [] []) None
    (fun path => if String.eqb path "/tmp/tmpk3x9qz.c"
                 then Some "Permission denied" else None).


(** [gcc] is killed (exit status -9) before it prints anything. *)
Definition killed_gcc_env : Env :=
  make_env (Runs (Some 1) (prints (-9) "" "") [] [])
    (Runs (Some 1) (prints 0 "Hi" "") [] []) None (fun _ => None).

(** [gcc] never finishes. *)
Definition hanging_gcc_env : Env :=
  make_env (Runs None (prints 0 "" "") [] [])
    (Runs (Some 1) (prints 0 "Hi" "") [] []) None (fun _ => None).


(** Every program removes /tmp/draft.txt. *)
Definition shredding_env : Env :=
  {| os_name := "posix";
     sys_executable := "/usr/bin/python3";
     tmp_stem := fun _ _ => Ok "/tmp/tmpk3x9qz";
     write_error := fun _ _ => None;
     close_error := fun _ => None;
     child := fun _ _ => Runs (Some 1) (prints 0 "" "") [] ["/tmp/draft.txt"];
     timeout_str := fun _ _ => "Command timed out";
     unlink_error := fun _ => None |}.

(** Two files that are there before a run. *)
Definition two_notes : World :=
  {| fs := {["/tmp/notes.txt"]} ∪ {["/tmp/draft.txt"]}; trace := [] |}.


(** ** Sample requests *)

(** The JSON body [{"code": code, "language": language}]. *)
Definition json_body (code language : string) : json_request :=
  JsonObject (<["code" := VStr code]> (<["language" := VStr language]> ∅)).

(** The form fields [code] and [language]. *)
Definition form_fields (code language : string) : gmap string string :=
  <["code" := code]> (<["language" := language]> ∅).

Definition fresh_session : Web := {| web_world := no_files; session := ∅ |}.

(** ** Sample submissions *)

(** 50001 spaces. *)
Definition blank_code : string := PyStr.replicate (Z.to_nat 50001) " "%char.

(** [eval(] followed by 49996 letters: 50001 characters. *)
Definition long_eval_code : string :=
  "eval(" +:+ PyStr.replicate (Z.to_nat 49996) "x"%char.

(** ** File names ([pathlib.Path] on a POSIX platform) *)

Module PyPath.

(** [s.split('/')] *)
Fixpoint split_slash (s : string) : list string :=
  match s with
  | EmptyString => [EmptyString]
  | String c s' =>
      if Ascii.eqb c "/" then EmptyString :: split_slash s'
      else match split_slash s' with
           | x :: rest => String c x :: rest
           | [] => [String c EmptyString]
           end
  end.

(** The components of a path below its root: empty components and ["."]
    are dropped when the path is parsed. *)
Definition parts (path : string) : list string :=
  List.filter (fun c => negb (String.eqb c "") && negb (String.eqb c "."))
              (split_slash path).

(** [Path(path).name]: the final component, if any. *)
Definition name (path : string) : string := List.last (parts path) "".

(** [s.rfind(c)], with the index of the first character being [start];
    -1 when [c] does not occur. *)
Fixpoint rfind_from (c : ascii) (s : string) (start : Z) : Z :=
  match s with
  | EmptyString => -1
  | String a s' =>
      let later := rfind_from c s' (start + 1) in
      if 0 <=? later then later
      else if Ascii.eqb a c then start else -1
  end.

Definition rfind (c : ascii) (s : string) : Z := rfind_from c s 0.

(** [s[i:]] for [0 <= i]. *)
Fixpoint slice_from (i : nat) (s : string) : string :=
  match i, s with
  | O, _ => s
  | S i', String _ s' => slice_from i' s'
  | S _, EmptyString => EmptyString
  end.

(** [Path(path).suffix] *)
Definition suffix (path : string) : string :=
  let name := name path in
  let i := rfind "." name in
  if (0 <? i) && (i <? PyStr.len name - 1) then slice_from (Z.to_nat i) name
  else "".

End PyPath.

(** ** Upload filters and languages of app.py *)

(** [Config.ALLOWED_EXTENSIONS] *)
Definition ALLOWED_EXTENSIONS : gset string :=
  list_to_set [".py"; ".c"; ".html"; ".txt"; ".js"; ".css"].

Definition allowed_file (allowed : gset string) (filename : string) : bool :=
  bool_decide (PyStr.lower (PyPath.suffix filename) ∈ allowed).

Definition language_map : gmap string string :=
  <[".py" := "python"]> (<[".c" := "c"]> (<[".html" := "html"]>
    (<[".js" := "javascript"]> ∅))).

Definition get_language_from_filename (filename : string) : string :=
  let ext := PyStr.lower (PyPath.suffix filename) in
  default "python" (language_map !! ext).

Definition dquote : string := String "034"%char EmptyString.

Record LanguageInfo := {
  info_name : string;
  info_extension : string;
  info_syntax : string;
  info_template : string
}.

(** The dictionary of [get_language_info], in its order. *)
Definition get_language_info : list (string * LanguageInfo) :=
  [ ("python",
     {| info_name := "Python"; info_extension := ".py"; info_syntax := "python";
        info_template := "print(" +:+ dquote +:+ "Hello, World!" +:+ dquote +:+ ")" |});
    ("c",
     {| info_name := "C"; info_extension := ".c"; info_syntax := "c";
        info_template :=
          "#include <stdio.h>" +:+ nl +:+ nl +:+ "int main() {" +:+ nl
          +:+ "    printf(" +:+ dquote +:+ "Hello, World!\n" +:+ dquote +:+ ");"
          +:+ nl +:+ "    return 0;" +:+ nl +:+ "}" |});
    ("html",
     {| info_name := "HTML"; info_extension := ".html"; info_syntax := "html";
        info_template :=
          "<!DOCTYPE html>" +:+ nl +:+ "<html>" +:+ nl +:+ "<head>" +:+ nl
          +:+ "    <title>Hello World</title>" +:+ nl +:+ "</head>" +:+ nl
          +:+ "<body>" +:+ nl +:+ "    <h1>Hello, World!</h1>" +:+ nl
          +:+ "</body>" +:+ nl +:+ "</html>" |});
    ("javascript",
     {| info_name := "JavaScript"; info_extension := ".js";
        info_syntax := "javascript";
        info_template :=
          "console.log(" +:+ dquote +:+ "Hello, World!" +:+ dquote +:+ ");" |}) ].

(** ** The IDE page of app.py: [index] and [handle_file_action] *)

(** An uploaded file: its name, and what
    [file.read().decode('utf-8', errors='replace')] gives. *)
Record Upload := {
  upload_filename : string;
  upload_text : result string
}.

Record Request := {
  req_method : string;
  req_form : gmap string string;
  req_files : gmap string Upload
}.

(** What a view returns: a rendered or JSON response, a redirect to an
    endpoint, or a response built by hand from a body and headers. *)
Inductive page :=
| Page (r : response)
| Redirect (endpoint : string)
| Attachment (body : string) (headers : list (string * string)).

(** The state of the site for one browser: the world, the session and the
    flashed messages (message, category), oldest first. *)
Record Site := {
  site_world : World;
  site_session : gmap string string;
  site_flashes : list (string * string)
}.

#[global] Instance Site_HasWorld : HasWorld Site :=
  {| the_world := site_world;
     with_world w s := {| site_world := w; site_session := site_session s;
                          site_flashes := site_flashes s |} |}.

Definition site_session_set (key value : string) : M Site unit :=
  modify (fun s => {| site_world := site_world s;
                      site_session := <[key := value]> (site_session s);
                      site_flashes := site_flashes s |}).

(** [flash(message, category)] *)
Definition flash (message category : string) : M Site unit :=
  modify (fun s => {| site_world := site_world s;
                      site_session := site_session s;
                      site_flashes := site_flashes s ++ [(message, category)] |}).

(** Running a handler that works on the world and the session. *)
Definition with_session {A} (m : M Web A) : M Site A :=
  fun s => match m {| web_world := site_world s; session := site_session s |} with
           | (r, s') => (r, {| site_world := web_world s';
                               site_session := session s';
                               site_flashes := site_flashes s |})
           end.

Definition download_headers : list (string * string) :=
  [("Content-Type", "text/plain");
   ("Content-Disposition", "attachment; filename=code.txt")].

Section IdePage.
Context (cfg : Config) (env : Env) (allowed : gset string).

(** The statements of [handle_file_action] before its final [return]:
    [Some] is an early [return]. *)
Definition file_action_branches (file_action : string) (request : Request)
  : M Site (option page) :=
  if String.eqb file_action "upload"
     && bool_decide (is_Some (req_files request !! "file")) then
    match req_files request !! "file" with
    | None => raise (KeyError "file")
    | Some file =>
        if PyStr.truthy (upload_filename file) then
          if negb (allowed_file allowed (upload_filename file)) then
            flash "Invalid file type. Allowed: .py, .c, .html, .txt, .js, .css"
                  "error" >>
            ret (Some (Redirect "index"))
          else
            try_except
              (let* content :=
                 match upload_text file with
                 | Ok text => ret text
                 | Raise e => raise e
                 end in
               site_session_set "code" content >>
               site_session_set "language"
                 (get_language_from_filename (upload_filename file)) >>
               flash "File uploaded successfully!" "success")
              (fun e =>
                 logger_error ("File upload error: " +:+ str_exn e) >>
                 flash "Error reading file. Please try again." "error") >>
            ret None
        else ret None
    end
  else if String.eqb file_action "new" then
    site_session_set "code" "" >>
    site_session_set "language" "python" >>
    flash "New file created!" "success" >>
    ret None
  else if String.eqb file_action "download" then
    let code := default "" (req_form request !! "code") in
    if PyStr.truthy code then ret (Some (Attachment code download_headers))
    else ret None
  else ret None.

Definition handle_file_action (file_action : string) (request : Request)
  : M Site page :=
  let* early := file_action_branches file_action request in
  match early with
  | Some response => ret response
  | None => ret (Redirect "index")
  end.

(** The body of the [/ide] view; [inl] is a [return] from inside the
    [try], [inr] the value of [error] when control falls through. *)
Definition index (request : Request) : M Site page :=
  let* s := get in
  let theme := default "light" (site_session s !! "theme") in
  let code := default "" (site_session s !! "code") in
  let language := default "python" (site_session s !! "language") in
  let* outcome :=
    if String.eqb (req_method request) "POST" then
      try_except
        (if bool_decide (req_form request !! "theme_only" = Some "1") then
           let theme := default "light" (req_form request !! "theme") in
           site_session_set "theme" theme >>
           ret (inl (Redirect "index"))
         else
           let file_action := req_form request !! "file_action" in
           if PyStr.truthy (default "" file_action) then
             let* response :=
               handle_file_action (default "" file_action) request in
             ret (inl response)
           else
             let* response :=
               with_session
                 (handle_code_execution cfg env (req_form request)
                    theme code language) in
             ret (inl (Page response)))
        (fun e =>
           logger_error ("Error in IDE: " +:+ str_exn e) >>
           ret (inr (Some "An unexpected error occurred. Please try again.")))
    else ret (inr None) in
  match outcome with
  | inl response => ret response
  | inr error =>
      ret (Page (Render "index.html"
                   {| arg_output := None; arg_error := error;
                      arg_html_preview := None; arg_theme := theme;
                      arg_code := code; arg_language := language |}))
  end.

End IdePage.

(** ** The rate limiter of app.py *)

Record Limits := {
  TESTING : bool;
  RATE_LIMIT_REQUESTS : Z;
  RATE_LIMIT_WINDOW : Z
}.

Definition default_limits : Limits :=
  {| TESTING := false; RATE_LIMIT_REQUESTS := 50; RATE_LIMIT_WINDOW := 3600 |}.

(** [timedelta(seconds=n)]; points in time and durations are counted in
    microseconds, the resolution of [datetime]. *)
Definition timedelta_seconds (n : Z) : Z := n * 1000000.

(** The state behind a decorated view: the state of the view,
    [rate_limit_storage] (client address to request count and start of
    the window) and the warnings logged by the limiter. *)
Record Limited (S : Type) := {
  served : S;
  rate_limit_storage : gmap string (Z * Z);
  rate_warnings : list string
}.
Arguments served {S} _.
Arguments rate_limit_storage {S} _.
Arguments rate_warnings {S} _.

Definition msg_rate_limited : page :=
  Page (Jsonify [("error", JStr "Rate limit exceeded. Please try again later.")]
                429).

Section RateLimit.
Context {S : Type} (limits : Limits).

(** The call of the decorated view, [return f(...)]. *)
Definition call_view (f : M S page) : M (Limited S) page :=
  fun st => match f (served st) with
            | (r, s') => (r, {| served := s';
                                rate_limit_storage := rate_limit_storage st;
                                rate_warnings := rate_warnings st |})
            end.

Definition storage_set (client_ip : string) (entry : Z * Z)
  : M (Limited S) unit :=
  modify (fun st => {| served := served st;
                       rate_limit_storage :=
                         <[client_ip := entry]> (rate_limit_storage st);
                       rate_warnings := rate_warnings st |}).

Definition logger_warning (msg : string) : M (Limited S) unit :=
  modify (fun st => {| served := served st;
                       rate_limit_storage := rate_limit_storage st;
                       rate_warnings := rate_warnings st ++ [msg] |}).

(** [decorated_function] for a request from [client_ip] at time [now];
    [Some] is the early [return] of the refusal. *)
Definition rate_limit (f : M S page) (client_ip : string) (now : Z)
  : M (Limited S) page :=
  if TESTING limits then call_view f
  else
    let* st := get in
    let* refused :=
      match rate_limit_storage st !! client_ip with
      | Some (requests, window_start) =>
          if now - window_start >? timedelta_seconds (RATE_LIMIT_WINDOW limits)
          then storage_set client_ip (1, now) >> ret None
          else if requests >=? RATE_LIMIT_REQUESTS limits then
            logger_warning ("Rate limit exceeded for IP: " +:+ client_ip) >>
            ret (Some msg_rate_limited)
          else storage_set client_ip (requests + 1, window_start) >> ret None
      | None => storage_set client_ip (1, now) >> ret None
      end in
    match refused with
    | Some response => ret response
    | None => call_view f
    end.

End RateLimit.

(** The two decorated routes. *)
Definition ide_route (cfg : Config) (env : Env) (allowed : gset string)
    (limits : Limits) (request : Request) (client_ip : string) (now : Z)
  : M (Limited Site) page :=
  rate_limit limits (index cfg env allowed request) client_ip now.

Definition api_route (cfg : Config) (env : Env) (limits : Limits)
    (req : json_request) (client_ip : string) (now : Z)
  : M (Limited World) page :=
  rate_limit limits (let* r := api_execute cfg env req in ret (Page r))
             client_ip now.

(** A view that only counts how often it is called. *)
Definition counting_view : M Z page :=
  modify (fun n => n + 1) >> ret (Redirect "index").

(** Serving the requests of one client that arrive at the given times. *)
Fixpoint serve_all {S} (limits : Limits) (f : M S page) (client_ip : string)
    (times : list Z) (st : Limited S) : Limited S :=
  match times with
  | [] => st
  | now :: later =>
      serve_all limits f client_ip later
                (rate_limit limits f client_ip now st).2
  end.

Definition fresh_site : Site :=
  {| site_world := no_files; site_session := ∅; site_flashes := [] |}.

Definition get_request : Request :=
  {| req_method := "GET"; req_form := ∅; req_files := ∅ |}.

Definition post_request (form : gmap string string) : Request :=
  {| req_method := "POST"; req_form := form; req_files := ∅ |}.

Definition upload_request (file : Upload) : Request :=
  {| req_method := "POST"; req_form := <["file_action" := "upload"]> ∅;
     req_files := <["file" := file]> ∅ |}.

(** Nothing can be started: every launch fails with FileNotFoundError. *)
Definition no_tools_env : Env :=
  make_env (LaunchFails (FileNotFoundError "[Errno 2] No such file or directory: 'gcc'"))
    (LaunchFails (FileNotFoundError "[Errno 2] No such file or directory"))
    None (fun _ => None).

(** [gcc] works, but the binary it leaves cannot be started. *)
Definition lost_binary_env : Env :=
  make_env gcc_ok
    (LaunchFails (FileNotFoundError "[Errno 2] No such file or directory"))
    None (fun _ => None).

(** * Properties *)

(** ** Strings *)

Module PyStrFacts.
Import PyStr.

Lemma prefix_occurs (p s : string) :
  String.prefix p s = true <-> exists post, s = p +:+ post.
Proof.
  unfold String.app. revert s.
  induction p as [|a p IH]; intros s.
  - split; [intros _; exists s; reflexivity | intros _; now destruct s].
  - destruct s as [|b s]; cbn [String.prefix String.append].
    + split; [discriminate | intros [post H]; discriminate].
    + destruct (ascii_dec a b) as [->|Hne].
      * rewrite IH. split; intros [post H]; exists post.
        -- now rewrite H.
        -- now inversion H.
      * split; [discriminate|]. intros [post H]. inversion H. congruence.
Qed.

Lemma contains_occurs (p s : string) :
  contains p s = true <-> occurs_in p s.
Proof.
  unfold occurs_in. induction s as [|c s IH].
  - cbn [contains]. rewrite orb_false_r, prefix_occurs. split.
    + intros [post H]. exists EmptyString, post. exact H.
    + intros [[|a pre] [post H]].
      * exists post. exact H.
      * unfold String.app in H. simpl in H. discriminate.
  - cbn [contains]. rewrite orb_true_iff, prefix_occurs, IH. split.
    + intros [[post H]|[pre [post H]]].
      * exists EmptyString, post. exact H.
      * exists (String c pre), post. unfold String.app in *. simpl.
        now rewrite H.
    + intros [[|a pre] [post H]].
      * left. exists post. exact H.
      * right. exists pre, post. unfold String.app in *. simpl in H.
        now inversion H.
Qed.

Lemma all_space_app (a b : string) :
  all_space (a +:+ b) = all_space a && all_space b.
Proof.
  unfold String.app.
  induction a as [|c a IH]; simpl; [reflexivity|].
  now rewrite IH, andb_assoc.
Qed.

Lemma all_space_occurs (p s : string) :
  all_space s = true -> occurs_in p s -> all_space p = true.
Proof.
  intros Hs (pre & post & ->).
  rewrite !all_space_app, !andb_true_iff in Hs. tauto.
Qed.

Lemma isspace_lower_char (c : ascii) :
  isspace c = true -> lower_char c = c.
Proof.
  destruct c as [[] [] [] [] [] [] [] []]; vm_compute; congruence.
Qed.

Lemma all_space_lower (s : string) :
  all_space s = true -> lower s = s.
Proof.
  induction s as [|c s IH]; simpl; [reflexivity|].
  rewrite andb_true_iff. intros [Hc Hs].
  now rewrite isspace_lower_char, IH.
Qed.

Lemma lstrip_empty (s : string) :
  lstrip s = EmptyString <-> all_space s = true.
Proof.
  induction s as [|c s IH]; simpl; [tauto|].
  destruct (isspace c); simpl; [exact IH|]. split; discriminate.
Qed.

Lemma rstrip_empty (s : string) :
  rstrip s = EmptyString <-> all_space s = true.
Proof.
  induction s as [|c s IH]; simpl; [tauto|].
  destruct (rstrip s) eqn:Hr.
  - destruct (isspace c); simpl.
    + rewrite <- IH. tauto.
    + split; discriminate.
  - split; [discriminate|]. rewrite andb_true_iff, <- IH.
    intros [_ H]. discriminate.
Qed.

Lemma all_space_lstrip (s : string) :
  all_space (lstrip s) = all_space s.
Proof.
  induction s as [|c s IH]; simpl; [reflexivity|].
  destruct (isspace c) eqn:Hc; simpl; [exact IH|]. now rewrite Hc.
Qed.

(** [code.strip()] is empty exactly for a string of white space. *)
Lemma strip_empty (s : string) :
  strip s = EmptyString <-> all_space s = true.
Proof. unfold strip. now rewrite rstrip_empty, all_space_lstrip. Qed.

Lemma truthy_true (s : string) : truthy s = true <-> s <> EmptyString.
Proof. destruct s; simpl; split; congruence. Qed.

Lemma length_app (a b : string) :
  String.length (a +:+ b) = (String.length a + String.length b)%nat.
Proof.
  unfold String.app. induction a as [|c a IH]; simpl; [reflexivity|].
  now rewrite IH.
Qed.

Lemma substring_app (a b : string) :
  String.substring 0 (String.length a) (a +:+ b) = a.
Proof.
  unfold String.app. induction a as [|c a IH]; simpl.
  - now destruct b.
  - now rewrite IH.
Qed.

(** [(stem + suffix)[:-2]] for a suffix of two characters. *)
Lemma drop_last2_suffix (stem : string) (a b : ascii) :
  drop_last2 (stem +:+ String a (String b EmptyString)) = stem.
Proof.
  unfold drop_last2. rewrite length_app. simpl String.length.
  replace (String.length stem + 2 - 2)%nat with (String.length stem) by lia.
  apply substring_app.
Qed.

End PyStrFacts.

(** ** Validation *)

Section Validation.
Context (cfg : Config).
Import PyStr PyStrFacts.

Lemma first_dangerous_spec (patterns : list string) (s : string) :
  match first_dangerous patterns s with
  | Some p =>
      exists earlier later,
        patterns = earlier ++ p :: later /\ contains p s = true
        /\ Forall (fun q => contains q s = false) earlier
  | None => Forall (fun q => contains q s = false) patterns
  end.
Proof.
  induction patterns as [|q rest IH]; simpl; [constructor|].
  destruct (contains q s) eqn:Hq.
  - exists [], rest. repeat split; [exact Hq | constructor].
  - destruct (first_dangerous rest s) as [p|].
    + destruct IH as (earlier & later & -> & Hp & Hnone).
      exists (q :: earlier), later. repeat split; [exact Hp|].
      now constructor.
    + now constructor.
Qed.

(** The first check of [validate_code] fires exactly on blank code. *)
Lemma empty_check (code : string) :
  negb (truthy code) || negb (truthy (strip code)) = all_space code.
Proof.
  destruct (all_space code) eqn:Hs.
  - apply strip_empty in Hs. rewrite Hs. simpl. apply orb_true_r.
  - assert (Hne : strip code <> EmptyString).
    { intros H. apply strip_empty in H. congruence. }
    apply truthy_true in Hne. rewrite Hne.
    destruct code; [discriminate Hs | reflexivity].
Qed.

Lemma validate_code_eq (code language : string) :
  validate_code cfg code language =
    if all_space code then (false, Some msg_empty)
    else if len code >? MAX_CODE_LENGTH cfg then (false, Some (msg_too_long cfg))
    else match first_dangerous dangerous_patterns (lower code) with
         | Some pattern => (false, Some (msg_dangerous pattern))
         | None => (true, None)
         end.
Proof. unfold validate_code. now rewrite empty_check. Qed.

Lemma dangerous_patterns_visible :
  Forall (fun p => all_space p = false) dangerous_patterns.
Proof. repeat constructor. Qed.

(** Code whose lowercased form shows a denylisted pattern is not blank. *)
Lemma denied_not_blank (code pattern : string) :
  pattern ∈ dangerous_patterns -> occurs_in pattern (lower code) ->
  all_space code = false.
Proof.
  intros Hin Hocc. destruct (all_space code) eqn:Hs; [|reflexivity].
  rewrite (all_space_lower _ Hs) in Hocc.
  pose proof (all_space_occurs _ _ Hs Hocc) as Hp.
  pose proof dangerous_patterns_visible as Hvis.
  rewrite Forall_forall in Hvis. specialize (Hvis _ Hin). congruence.
Qed.

(** A rejection always carries a message. *)
Lemma validate_code_rejects_with_message (code language : string) error_msg :
  validate_code cfg code language = (false, error_msg) ->
  exists msg, error_msg = Some msg.
Proof.
  rewrite validate_code_eq.
  destruct (all_space code); [intros [= <-]; eauto|].
  destruct (len code >? MAX_CODE_LENGTH cfg); [intros [= <-]; eauto|].
  destruct (first_dangerous _ _); [intros [= <-]; eauto | discriminate].
Qed.

End Validation.

(** C5 (amended): for every code string of at most MAX_CODE_LENGTH
    characters whose lowercased form contains a denylisted substring,
    [validate_code] fails with the dangerous-code message naming the first
    pattern, in denylist order, that occurs in the lowercased code. *)
Theorem validate_code_denied_pattern (cfg : Config)
    (code language pattern : string) :
  pattern ∈ dangerous_patterns ->
  PyStr.occurs_in pattern (PyStr.lower code) ->
  PyStr.len code <= MAX_CODE_LENGTH cfg ->
  exists matched earlier later,
    dangerous_patterns = earlier ++ matched :: later
    /\ PyStr.occurs_in matched (PyStr.lower code)
    /\ Forall (fun q => ~ PyStr.occurs_in q (PyStr.lower code)) earlier
    /\ validate_code cfg code language = (false, Some (msg_dangerous matched)).
Proof.
  intros Hin Hocc Hlen.
  rewrite validate_code_eq, (denied_not_blank code pattern Hin Hocc).
  replace (PyStr.len code >? MAX_CODE_LENGTH cfg) with false
    by (symmetry; rewrite Z.gtb_ltb; apply Z.ltb_ge; exact Hlen).
  pose proof (first_dangerous_spec dangerous_patterns (PyStr.lower code)) as Hspec.
  destruct (first_dangerous dangerous_patterns (PyStr.lower code)) as [matched|].
  - destruct Hspec as (earlier & later & Heq & Hm & Hnone).
    exists matched, earlier, later. repeat split; try assumption.
    + now apply PyStrFacts.contains_occurs.
    + eapply Forall_impl; [exact Hnone|]. intros q Hq Hq'.
      apply PyStrFacts.contains_occurs in Hq'. congruence.
  - rewrite Forall_forall in Hspec. specialize (Hspec _ Hin).
    apply PyStrFacts.contains_occurs in Hocc. congruence.
Qed.

Lemma validate_code_denied_pattern_witness :
  exists matched earlier later,
    dangerous_patterns = earlier ++ matched :: later
    /\ PyStr.occurs_in matched (PyStr.lower "x = EVAL(y)")
    /\ Forall (fun q => ~ PyStr.occurs_in q (PyStr.lower "x = EVAL(y)")) earlier
    /\ validate_code default_config "x = EVAL(y)" "python"
       = (false, Some (msg_dangerous matched)).
Proof.
  apply (validate_code_denied_pattern default_config "x = EVAL(y)" "python" "eval(").
  - apply list_elem_of_In. simpl. tauto.
  - exists "x = ", "y)". reflexivity.
  - vm_compute. discriminate.
Defined.

(** C5 as stated fails: a submission of 50001 characters that contains
    [eval(] is refused for its length, not for the pattern. *)
Lemma validate_code_denied_pattern_counterexample :
  "eval(" ∈ dangerous_patterns
  /\ PyStr.occurs_in "eval(" (PyStr.lower long_eval_code)
  /\ validate_code default_config long_eval_code "python"
     = (false, Some "Code too long. Maximum 50000 characters allowed.")
  /\ forall pattern,
       validate_code default_config long_eval_code "python"
       <> (false, Some (msg_dangerous pattern)).
Proof.
  assert (H : validate_code default_config long_eval_code "python"
              = (false, Some "Code too long. Maximum 50000 characters allowed."))
    by (vm_compute; reflexivity).
  split; [|split; [|split]].
  - apply list_elem_of_In. simpl. tauto.
  - apply PyStrFacts.contains_occurs. vm_compute. reflexivity.
  - exact H.
  - intros pattern. rewrite H. unfold msg_dangerous. discriminate.
Qed.

(** C6 (amended): for every code string that is not blank (its stripped
    form is not empty) and is longer than MAX_CODE_LENGTH, [validate_code]
    fails with the too-long message. *)
Theorem validate_code_too_long (cfg : Config) (code language : string) :
  PyStr.strip code <> EmptyString ->
  PyStr.len code > MAX_CODE_LENGTH cfg ->
  validate_code cfg code language = (false, Some (msg_too_long cfg)).
Proof.
  intros Hstrip Hlen. rewrite validate_code_eq.
  destruct (PyStr.all_space code) eqn:Hs.
  - apply PyStrFacts.strip_empty in Hs. contradiction.
  - replace (PyStr.len code >? MAX_CODE_LENGTH cfg) with true; [reflexivity|].
    symmetry. rewrite Z.gtb_ltb. apply Z.ltb_lt. lia.
Qed.

Lemma validate_code_too_long_witness :
  validate_code {| EXECUTION_TIMEOUT := 10; MAX_CODE_LENGTH := 3 |} "abcd" "c"
  = (false, Some "Code too long. Maximum 3 characters allowed.").
Proof.
  apply (validate_code_too_long
           {| EXECUTION_TIMEOUT := 10; MAX_CODE_LENGTH := 3 |} "abcd" "c").
  - vm_compute. discriminate.
  - vm_compute. reflexivity.
Defined.

(** C6 as stated fails: 50001 spaces are longer than the default maximum
    of 50000 and are refused as empty code, not as too long. *)
Lemma validate_code_too_long_counterexample :
  PyStr.len blank_code > MAX_CODE_LENGTH default_config
  /\ validate_code default_config blank_code "python"
     = (false, Some "Code cannot be empty")
  /\ validate_code default_config blank_code "python"
     <> (false, Some (msg_too_long default_config)).
Proof.
  assert (H : validate_code default_config blank_code "python"
              = (false, Some "Code cannot be empty"))
    by (vm_compute; reflexivity).
  split; [|split].
  - vm_compute. reflexivity.
  - exact H.
  - rewrite H. vm_compute. discriminate.
Qed.

(** C10: the result of [validate_code] does not depend on its language
    argument; in particular code whose lowercased form contains a
    denylisted substring is rejected under every language, HTML and
    JavaScript included. *)
Theorem validate_code_ignores_language (cfg : Config) :
  (forall code language1 language2 : string,
      validate_code cfg code language1 = validate_code cfg code language2)
  /\ (forall code language pattern : string,
         pattern ∈ dangerous_patterns ->
         PyStr.occurs_in pattern (PyStr.lower code) ->
         exists msg, validate_code cfg code language = (false, Some msg)).
Proof.
  split.
  - intros code language1 language2. reflexivity.
  - intros code language pattern Hin Hocc.
    rewrite validate_code_eq, (denied_not_blank code pattern Hin Hocc).
    destruct (PyStr.len code >? MAX_CODE_LENGTH cfg); [eauto|].
    pose proof (first_dangerous_spec dangerous_patterns (PyStr.lower code)) as Hspec.
    destruct (first_dangerous dangerous_patterns (PyStr.lower code)); [eauto|].
    rewrite Forall_forall in Hspec. specialize (Hspec _ Hin).
    apply PyStrFacts.contains_occurs in Hocc. congruence.
Qed.

Lemma validate_code_ignores_language_witness :
  validate_code default_config "<a onclick=window.open(u)>" "html"
  = validate_code default_config "<a onclick=window.open(u)>" "javascript"
  /\ exists msg,
      validate_code default_config "<a onclick=window.open(u)>" "html"
      = (false, Some msg).
Proof.
  destruct (validate_code_ignores_language default_config) as [Hindep Hreject].
  split.
  - apply Hindep.
  - apply (Hreject _ "html" "open(").
    + apply list_elem_of_In. simpl. tauto.
    + exists "<a onclick=window.", "u)>". reflexivity.
Defined.

(** ** The dispatchers *)

(** The endpoint on a body that is a non-empty object. *)
Ltac api_object Hne :=
  unfold api_execute, try_except, bind, get_json, data_get, decoded_truth, ret;
  rewrite (bool_decide_eq_false_2 _ Hne); cbn [negb]; cbv beta iota.

Section Dispatch.
Context (cfg : Config) (env : Env).

Lemma handle_code_execution_invalid (form : gmap string string)
    (theme code language : string) (s : Web) error_msg :
  validate_code cfg (default code (form !! "code"))
                    (default language (form !! "language"))
    = (false, error_msg) ->
  handle_code_execution cfg env form theme code language s
    = (Ok (Render "index.html"
             {| arg_output := None; arg_error := error_msg;
                arg_html_preview := None; arg_theme := theme;
                arg_code := default code (form !! "code");
                arg_language := default language (form !! "language") |}),
       {| web_world := web_world s;
          session := <["code" := default code (form !! "code")]>
                       (<["language" := default language (form !! "language")]>
                          (session s)) |}).
Proof.
  intros Hv. unfold handle_code_execution, bind, session_set, modify, ret.
  simpl. now rewrite Hv.
Qed.

Lemma api_execute_invalid (data : gmap string pyvalue) (code language : string)
    (w : World) error_msg :
  data <> ∅ ->
  default (VStr "") (data !! "code") = VStr code ->
  default (VStr "python") (data !! "language") = VStr language ->
  validate_code cfg code language = (false, error_msg) ->
  api_execute cfg env (JsonObject data) w
    = (Ok (Jsonify [("error", jopt error_msg)] 400), w).
Proof.
  intros Hne Hcode Hlang Hv. api_object Hne.
  rewrite Hcode, Hlang. simpl. now rewrite Hv.
Qed.

(** A [code] that is not a string: a falsy one ([null], 0, [false], an
    empty list or object) is refused as empty code and nothing is run; a
    truthy one has no [strip], and the endpoint answers with the server
    error after logging the exception. *)
Lemma api_execute_code_not_str (data : gmap string pyvalue)
    (type_name : string) (truth : bool) (text : string) (w : World) :
  data <> ∅ ->
  default (VStr "") (data !! "code") = VOther type_name truth text ->
  api_execute cfg env (JsonObject data) w
  = if truth then
      (Ok (Jsonify [("error", JStr "Internal server error")] 500),
       log_event (EvLogError ("API execution error: "
                              +:+ no_attribute type_name "strip")) w)
    else (Ok (Jsonify [("error", JStr msg_empty)] 400), w).
Proof.
  intros Hne Hcode. api_object Hne. rewrite Hcode.
  destruct (default (VStr "python") (data !! "language")), truth; reflexivity.
Qed.

End Dispatch.

(** C1: when validation of the submitted code fails, both dispatchers (the
    form handler and the JSON endpoint) answer with the validation message
    and leave the world as it was: no file is created and no process is
    started. *)
Theorem validation_failure_short_circuits (cfg : Config) (env : Env)
    (code language : string) :
  (validate_code cfg code language).1 = false ->
  exists msg,
    validate_code cfg code language = (false, Some msg)
    /\ (forall (form : gmap string string) theme code0 language0 (s : Web),
           default code0 (form !! "code") = code ->
           default language0 (form !! "language") = language ->
           exists s',
             handle_code_execution cfg env form theme code0 language0 s
             = (Ok (Render "index.html"
                      {| arg_output := None; arg_error := Some msg;
                         arg_html_preview := None; arg_theme := theme;
                         arg_code := code; arg_language := language |}), s')
             /\ web_world s' = web_world s)
    /\ (forall (data : gmap string pyvalue) (w : World),
           data <> ∅ ->
           default (VStr "") (data !! "code") = VStr code ->
           default (VStr "python") (data !! "language") = VStr language ->
           api_execute cfg env (JsonObject data) w
           = (Ok (Jsonify [("error", JStr msg)] 400), w)).
Proof.
  intros Hfalse.
  destruct (validate_code cfg code language) as [valid error_msg] eqn:Hv.
  simpl in Hfalse. subst valid.
  destruct (validate_code_rejects_with_message cfg _ _ _ Hv) as [msg ->].
  exists msg. split; [reflexivity|]. split.
  - intros form theme code0 language0 s Hcode Hlang.
    eexists. split.
    + rewrite (handle_code_execution_invalid cfg env form theme code0 language0 s (Some msg)).
      * rewrite Hcode, Hlang. reflexivity.
      * now rewrite Hcode, Hlang.
    + reflexivity.
  - intros data w Hne Hcode Hlang.
    now rewrite (api_execute_invalid cfg env data code language w (Some msg)
                   Hne Hcode Hlang).
Qed.

Lemma validation_failure_short_circuits_witness :
  exists msg,
    validate_code default_config "import os" "python" = (false, Some msg)
    /\ (forall (form : gmap string string) theme code0 language0 (s : Web),
           default code0 (form !! "code") = "import os" ->
           default language0 (form !! "language") = "python" ->
           exists s',
             handle_code_execution default_config (plain_env (Some 1) "")
               form theme code0 language0 s
             = (Ok (Render "index.html"
                      {| arg_output := None; arg_error := Some msg;
                         arg_html_preview := None; arg_theme := theme;
                         arg_code := "import os"; arg_language := "python" |}), s')
             /\ web_world s' = web_world s)
    /\ (forall (data : gmap string pyvalue) (w : World),
           data <> ∅ ->
           default (VStr "") (data !! "code") = VStr "import os" ->
           default (VStr "python") (data !! "language") = VStr "python" ->
           api_execute default_config (plain_env (Some 1) "") (JsonObject data) w
           = (Ok (Jsonify [("error", JStr msg)] 400), w)).
Proof.
  apply (validation_failure_short_circuits default_config
           (plain_env (Some 1) "") "import os" "python").
  reflexivity.
Defined.

(** ** The runners *)

Section RunnerFacts.
Context (cfg : Config) (env : Env).

Ltac run_os :=
  unfold os_unlink, subprocess_run, NamedTemporaryFile, file_write,
    file_close, logger_error, os_do, os_get, assign, load, in_locals,
    locals_getitem, try_except, try_finally, bind, ret, raise, modify;
  simpl.

Lemma unlink_ignoring_OSError (path : string) (f : Frame) :
  try_except (os_unlink env path)
             (fun e => if is_OSError e then ret tt else raise e) f
  = (Ok tt, {| world := unlinked env path (world f); locals := locals f |}).
Proof.
  unfold unlinked. run_os.
  destruct (decide (path ∈ fs (world f))); [|reflexivity].
  destruct (unlink_error env path); reflexivity.
Qed.

Lemma python_finally_bound (f : Frame) (path : string) :
  locals f !! "temp_file" = Some path ->
  python_finally env f
  = (Ok tt, {| world := unlinked env path (world f); locals := locals f |}).
Proof.
  intros Hb. unfold python_finally, bind, in_locals, load.
  rewrite Hb. simpl. rewrite Hb. apply unlink_ignoring_OSError.
Qed.

Lemma python_finally_unbound (f : Frame) :
  locals f !! "temp_file" = None -> python_finally env f = (Ok tt, f).
Proof.
  intros Hb. unfold python_finally, bind, in_locals. now rewrite Hb.
Qed.

Lemma unlink_local_bound (file_path path : string) (f : Frame) :
  locals f !! file_path = Some path ->
  unlink_local env file_path f
  = (Ok tt, {| world := unlinked env path (world f); locals := locals f |}).
Proof.
  intros Hb. unfold unlink_local, unlinked. run_os. rewrite Hb. simpl.
  rewrite Hb.
  destruct (decide (path ∈ fs (world f))); [|reflexivity].
  destruct (unlink_error env path); reflexivity.
Qed.

Lemma unlink_local_unbound (file_path : string) (f : Frame) :
  locals f !! file_path = None -> unlink_local env file_path f = (Ok tt, f).
Proof. intros Hb. unfold unlink_local. run_os. now rewrite Hb. Qed.

Lemma c_finally_both (f : Frame) (c_file exe_file : string) :
  locals f !! "c_file" = Some c_file ->
  locals f !! "exe_file" = Some exe_file ->
  c_finally env f
  = (Ok tt, {| world := unlinked env exe_file (unlinked env c_file (world f));
               locals := locals f |}).
Proof.
  intros Hc He. unfold c_finally, for_each, bind.
  rewrite (unlink_local_bound _ _ _ Hc).
  rewrite (unlink_local_bound "exe_file" exe_file); [reflexivity | exact He].
Qed.

Lemma c_finally_source_only (f : Frame) (c_file : string) :
  locals f !! "c_file" = Some c_file ->
  locals f !! "exe_file" = None ->
  c_finally env f
  = (Ok tt, {| world := unlinked env c_file (world f); locals := locals f |}).
Proof.
  intros Hc He. unfold c_finally, for_each, bind.
  rewrite (unlink_local_bound _ _ _ Hc).
  rewrite unlink_local_unbound; [reflexivity | exact He].
Qed.

Lemma write_scratch_run (suffix code var : string) (w : World) (name : string) :
  scratch_written env suffix code w name ->
  write_scratch env suffix code var {| world := w; locals := ∅ |}
  = match close_error env name with
    | None => (Ok tt, {| world := after_scratch name code w;
                         locals := <[var := name]> ∅ |})
    | Some e =>
        (Raise e,
         {| world := log_event (EvWrite name code)
                       (log_event (EvCreate name) (add_file name w));
            locals := <[var := name]> ∅ |})
    end.
Proof.
  intros [Hname Hwrite]. unfold scratch_name in Hname.
  unfold write_scratch. run_os.
  destruct (tmp_stem env suffix (fs w)) as [stem|]; [|discriminate].
  injection Hname as <-. simpl. rewrite Hwrite. simpl.
  destruct (close_error env (stem +:+ suffix)); reflexivity.
Qed.
Lemma subprocess_run_frame (argv : list string) (t : Z) (f : Frame) :
  subprocess_run env argv t f
  = match child env argv (fs (world f)) with
    | LaunchFails e => (Raise e, f)
    | Runs duration finished created removed =>
        let w1 := after_child argv t created removed (world f) in
        if exceeds duration t then
          (Raise (TimeoutExpired (timeout_str env argv t)),
           {| world := log_event (EvKill argv) w1; locals := locals f |})
        else
          match finished with
          | Decoded p => (Ok p, {| world := w1; locals := locals f |})
          | Undecodable msg =>
              (Raise (UnicodeDecodeError msg),
               {| world := w1; locals := locals f |})
          end
    end.
Proof.
  run_os. destruct (child env argv (fs (world f))) as [e|d cp created removed].
  - now destruct f.
  - simpl. destruct (exceeds d t); [reflexivity|]. now destruct cp.
Qed.

Lemma python_except_returns (e : exn) (f : Frame) :
  exists v w1,
    python_except e f = (Ok v, {| world := w1; locals := locals f |})
    /\ fs w1 = fs (world f).
Proof. destruct e, f; run_os; do 2 eexists; split; reflexivity. Qed.

Lemma c_except_returns (e : exn) (f : Frame) :
  exists v w1,
    c_except e f = (Ok v, {| world := w1; locals := locals f |})
    /\ fs w1 = fs (world f).
Proof. destruct e, f; run_os; do 2 eexists; split; reflexivity. Qed.

(** Once the code is written to the scratch file, the guarded part of
    the Python runner returns with [temp_file] bound to its name. *)
Lemma python_guarded_returns (code : string) (w : World) (name : string) :
  scratch_written env ".py" code w name ->
  exists v w1,
    try_except (python_try cfg env code) python_except
               {| world := w; locals := ∅ |}
    = (Ok v, {| world := w1; locals := <["temp_file" := name]> ∅ |}).
Proof.
  intros Hw. unfold try_except, python_try, bind.
  rewrite (write_scratch_run _ _ _ _ _ Hw).
  destruct (close_error env name) as [e|].
  { destruct (python_except_returns e
                {| world := log_event (EvWrite name code)
                              (log_event (EvCreate name) (add_file name w));
                   locals := <["temp_file" := name]> ∅ |})
      as (v & w1 & -> & _). eauto. }
  unfold load at 1. simpl locals. rewrite lookup_insert_eq.
  rewrite subprocess_run_frame. simpl world.
  destruct (child env _ _) as [e|d cp created removed].
  { edestruct python_except_returns as (v & w1 & -> & _). simpl. eauto. }
  cbv zeta. destruct (exceeds d (EXECUTION_TIMEOUT cfg)).
  { edestruct python_except_returns as (v & w1 & -> & _). simpl. eauto. }
  destruct cp as [p|msg].
  - unfold ret. eauto.
  - edestruct python_except_returns as (v & w1 & -> & _). simpl. eauto.
Qed.

Lemma c_guarded_returns (code : string) (w : World) (c_file : string) :
  scratch_written env ".c" code w c_file ->
  exists v w1 vars,
    try_except (c_try cfg env code) c_except {| world := w; locals := ∅ |}
    = (Ok v, {| world := w1; locals := vars |})
    /\ match close_error env c_file with
       | None => vars = <["exe_file" := exe_name env c_file]>
                         (<["c_file" := c_file]> ∅)
       | Some _ => vars = <["c_file" := c_file]> ∅
                   /\ fs w1 = {[c_file]} ∪ fs w
       end.
Proof.
  intros Hw. unfold try_except, c_try, bind.
  rewrite (write_scratch_run _ _ _ _ _ Hw).
  destruct (close_error env c_file) as [e|].
  { edestruct c_except_returns as (v & w1 & -> & Hfs).
    do 3 eexists. split; [reflexivity|]. split; [reflexivity|]. exact Hfs. }
  unfold load at 1. simpl locals. rewrite lookup_insert_eq.
  unfold assign at 1, modify. simpl locals. simpl world.
  unfold load at 1. simpl locals. rewrite lookup_insert_eq.
  fold (exe_name env c_file).
  rewrite subprocess_run_frame. simpl world. simpl locals.
  destruct (child env _ _) as [e|d cp created removed].
  { edestruct c_except_returns as (v & w1 & -> & _). simpl. eauto. }
  cbv zeta. destruct (exceeds d (EXECUTION_TIMEOUT cfg)).
  { edestruct c_except_returns as (v & w1 & -> & _). simpl. eauto. }
  destruct cp as [p|msg].
  2:{ edestruct c_except_returns as (v & w1 & -> & _). simpl. eauto. }
  destruct (negb (returncode p =? 0)); [unfold ret; eauto|].
  rewrite subprocess_run_frame. simpl world. simpl locals.
  destruct (child env _ _) as [e|d2 cp2 created2 removed2].
  { edestruct c_except_returns as (v & w1 & -> & _). simpl. eauto. }
  cbv zeta. destruct (exceeds d2 (EXECUTION_TIMEOUT cfg)).
  { edestruct c_except_returns as (v & w1 & -> & _). simpl. eauto. }
  destruct cp2 as [p2|msg2].
  - unfold ret. eauto.
  - edestruct c_except_returns as (v & w1 & -> & _). simpl. eauto.
Qed.

Lemma unlinked_trace (path : string) (w : World) :
  exists deleted, trace (unlinked env path w) = trace w ++ [EvUnlink path deleted].
Proof.
  unfold unlinked. destruct (decide (path ∈ fs w)); [|simpl; eauto].
  destruct (unlink_error env path); simpl; eauto.
Qed.

Lemma unlinked_gone (path : string) (w : World) :
  unlink_error env path = None -> path ∉ fs (unlinked env path w).
Proof.
  intros Hok. unfold unlinked. rewrite Hok.
  destruct (decide (path ∈ fs w)) as [Hin|Hout]; simpl.
  - rewrite elem_of_difference, elem_of_singleton. tauto.
  - exact Hout.
Qed.

Lemma unlinked_subseteq (path : string) (w : World) :
  fs (unlinked env path w) ⊆ fs w.
Proof.
  unfold unlinked. destruct (decide (path ∈ fs w)); [|reflexivity].
  destruct (unlink_error env path); simpl; [reflexivity|].
  intros q. rewrite elem_of_difference. tauto.
Qed.

Lemma exe_name_differs (stem : string) :
  exe_name env (stem +:+ ".c") <> stem +:+ ".c".
Proof.
  unfold exe_name. rewrite PyStrFacts.drop_last2_suffix.
  intros H. apply (f_equal String.length) in H.
  destruct (String.eqb (os_name env) "nt");
    rewrite ?PyStrFacts.length_app in H; simpl in H; lia.
Qed.
End RunnerFacts.

(** C2 (amended): in every invocation of the Python runner and of the C
    runner in which the code was written to the scratch source, on every
    exit path the runner returns a result and, before returning, attempts
    to delete the scratch source and, for C once the source is closed, the
    scratch binary; the second attempt is made whatever the outcome of the
    first. A file whose deletion the platform does not refuse does not
    exist afterwards. *)
Theorem scratch_files_removed (cfg : Config) (env : Env) (code : string)
    (w : World) :
  (forall name,
      scratch_written env ".py" code w name ->
      exists v w' earlier deleted,
        execute_python_code cfg env code w = (Ok v, w')
        /\ trace w' = earlier ++ [EvUnlink name deleted]
        /\ (unlink_error env name = None -> name ∉ fs w'))
  /\ (forall c_file,
         scratch_written env ".c" code w c_file ->
         exists v w',
           execute_c_code cfg env code w = (Ok v, w')
           /\ (exists deleted, EvUnlink c_file deleted ∈ trace w')
           /\ (close_error env c_file = None ->
               exists earlier deleted1 deleted2,
                 trace w' = earlier ++ [EvUnlink c_file deleted1;
                                        EvUnlink (exe_name env c_file) deleted2])
           /\ (unlink_error env c_file = None -> c_file ∉ fs w')
           /\ (unlink_error env (exe_name env c_file) = None ->
               exe_name env c_file ∉ fs w ->
               exe_name env c_file ∉ fs w')).
Proof.
  split.
  - intros name Hw.
    destruct (python_guarded_returns cfg env code w name Hw) as (v & w1 & Hrun).
    unfold execute_python_code, call, try_finally. rewrite Hrun.
    rewrite (python_finally_bound env _ name) by apply lookup_insert_eq.
    simpl world.
    destruct (unlinked_trace env name w1) as [deleted Htrace].
    exists v, (unlinked env name w1), (trace w1), deleted.
    split; [reflexivity|]. split; [exact Htrace|]. apply unlinked_gone.
  - intros c_file Hw.
    destruct (c_guarded_returns cfg env code w c_file Hw)
      as (v & w1 & vars & Hrun & Hvars).
    unfold execute_c_code, call, try_finally. rewrite Hrun.
    destruct (unlinked_trace env c_file w1) as [deleted1 Htrace1].
    destruct (close_error env c_file) as [e|].
    + destruct Hvars as [-> Hfs].
      rewrite (c_finally_source_only env _ c_file) by done.
      simpl world. exists v, (unlinked env c_file w1).
      split; [reflexivity|]. split; [|split; [discriminate|split]].
      * exists deleted1. rewrite Htrace1. apply elem_of_app. right. left.
      * apply unlinked_gone.
      * intros _ Hfresh Hin. apply unlinked_subseteq in Hin.
        rewrite Hfs in Hin. apply elem_of_union in Hin as [Hin|Hin]; [|auto].
        apply elem_of_singleton in Hin. destruct Hw as [Hname _].
        unfold scratch_name in Hname.
        destruct (tmp_stem env ".c" (fs w)) as [stem|]; [|discriminate].
        injection Hname as <-. now apply exe_name_differs in Hin.
    + subst vars.
      rewrite (c_finally_both env _ c_file (exe_name env c_file)) by done.
      simpl world.
      destruct (unlinked_trace env (exe_name env c_file) (unlinked env c_file w1))
        as [deleted2 Htrace2].
      exists v, (unlinked env (exe_name env c_file) (unlinked env c_file w1)).
      split; [reflexivity|]. split; [|split; [|split]].
      * exists deleted1. rewrite Htrace2, Htrace1.
        apply elem_of_app. left. apply elem_of_app. right. left.
      * intros _. exists (trace w1), deleted1, deleted2.
        rewrite Htrace2, Htrace1, <- app_assoc. reflexivity.
      * intros Hok Hin. apply unlinked_subseteq in Hin.
        now apply (unlinked_gone env c_file w1 Hok).
      * intros Hok _. now apply unlinked_gone.
Qed.

Lemma scratch_files_removed_witness :
  (exists v w' earlier deleted,
      execute_python_code default_config source_refusing_env "main(){}" no_files
      = (Ok v, w')
      /\ trace w' = earlier ++ [EvUnlink "/tmp/tmpk3x9qz.py" deleted]
      /\ (unlink_error source_refusing_env "/tmp/tmpk3x9qz.py" = None ->
          "/tmp/tmpk3x9qz.py" ∉ fs w'))
  /\ (exists v w',
         execute_c_code default_config source_refusing_env "main(){}" no_files
         = (Ok v, w')
         /\ (exists deleted, EvUnlink "/tmp/tmpk3x9qz.c" deleted ∈ trace w')
         /\ (close_error source_refusing_env "/tmp/tmpk3x9qz.c" = None ->
             exists earlier deleted1 deleted2,
               trace w' = earlier ++ [EvUnlink "/tmp/tmpk3x9qz.c" deleted1;
                                      EvUnlink "/tmp/tmpk3x9qz" deleted2])
         /\ (unlink_error source_refusing_env "/tmp/tmpk3x9qz.c" = None ->
             "/tmp/tmpk3x9qz.c" ∉ fs w')
         /\ (unlink_error source_refusing_env "/tmp/tmpk3x9qz" = None ->
             "/tmp/tmpk3x9qz" ∉ fs no_files ->
             "/tmp/tmpk3x9qz" ∉ fs w')).
Proof.
  destruct (scratch_files_removed default_config source_refusing_env
              "main(){}" no_files) as [Hpy Hc].
  split.
  - apply Hpy. split; reflexivity.
  - apply (Hc "/tmp/tmpk3x9qz.c"). split; reflexivity.
Defined.

(** The second deletion is attempted although the first one is refused. *)
Example c_deletions_independent :
  trace (execute_c_code default_config source_refusing_env "main(){}" no_files).2
  = [EvCreate "/tmp/tmpk3x9qz.c"; EvWrite "/tmp/tmpk3x9qz.c" "main(){}";
     EvClose "/tmp/tmpk3x9qz.c";
     EvSpawn ["gcc"; "/tmp/tmpk3x9qz.c"; "-o"; "/tmp/tmpk3x9qz"; "-Wall"; "-Wextra"] 10;
     EvSpawn ["/tmp/tmpk3x9qz"] 10;
     EvUnlink "/tmp/tmpk3x9qz.c" false; EvUnlink "/tmp/tmpk3x9qz" true].
Proof. vm_compute. reflexivity. Qed.

(** C2 as stated fails. When the platform refuses the deletion, the
    scratch source is still there after the Python runner has returned;
    and when writing the code raises, the file has been created but its
    name was never recorded, so no deletion is even attempted. *)
Lemma scratch_files_removed_counterexample :
  (let '(r, w') :=
     execute_python_code default_config refusing_env "print(1)" no_files in
   r = Ok (Some "Hi", None)
   /\ elements (fs w') = ["/tmp/tmpk3x9qz.py"])
  /\ (let '(r, w') :=
        execute_python_code default_config unwritable_env "print(1)" no_files in
      r = Ok (None, Some "Execution error: 'utf-8' codec can't encode character: surrogates not allowed")
      /\ elements (fs w') = ["/tmp/tmpk3x9qz.py"]
      /\ forall deleted, EvUnlink "/tmp/tmpk3x9qz.py" deleted ∉ trace w').
Proof.
  split.
  - vm_compute. split; reflexivity.
  - vm_compute. split; [reflexivity|]. split; [reflexivity|].
    intros deleted Hin. apply list_elem_of_In in Hin. simpl in Hin.
    intuition discriminate.
Qed.

(** In general: when [f.write(code)] raises in the Python runner, the
    scratch file exists but [temp_file] was never bound, and the runner
    returns without attempting to delete it. *)
Lemma python_write_failure_leaks (cfg : Config) (env : Env) (code : string)
    (w : World) (name : string) (e : exn) :
  scratch_name env ".py" w = Ok name ->
  write_error env name code = Some e ->
  exists v w' new,
    execute_python_code cfg env code w = (Ok v, w')
    /\ name ∈ fs w'
    /\ trace w' = trace w ++ new
    /\ forall deleted, EvUnlink name deleted ∉ new.
Proof.
  intros Hname Hwrite. unfold scratch_name in Hname.
  unfold execute_python_code, call, try_finally, try_except, python_try,
    write_scratch, NamedTemporaryFile, file_write, file_close, os_get, os_do,
    modify, bind, ret, raise.
  simpl. destruct (tmp_stem env ".py" (fs w)) as [stem|]; [|discriminate].
  injection Hname as <-. simpl. rewrite Hwrite. simpl.
  assert (Hin : forall (x : string) (X : gset string), x ∈ {[x]} ∪ X).
  { intros x X. apply elem_of_union. left. now apply elem_of_singleton. }
  assert (Hnot : forall (evs : list event),
             Forall (fun ev => match ev with EvUnlink _ _ => False | _ => True end) evs ->
             forall deleted, EvUnlink (stem +:+ ".py") deleted ∉ evs).
  { intros evs Hall deleted Hd. rewrite Forall_forall in Hall.
    now apply Hall in Hd. }
  destruct (close_error env (stem +:+ ".py")) as [e'|]; simpl.
  - destruct e'; simpl;
      rewrite python_finally_unbound by apply lookup_empty; simpl;
      do 3 eexists; (split; [reflexivity|]); simpl;
      (split; [apply Hin|]); rewrite <- ?app_assoc;
      (split; [reflexivity|]); apply Hnot; repeat constructor.
  - destruct e; simpl;
      rewrite python_finally_unbound by apply lookup_empty; simpl;
      do 3 eexists; (split; [reflexivity|]); simpl;
      (split; [apply Hin|]); rewrite <- ?app_assoc;
      (split; [reflexivity|]); apply Hnot; repeat constructor.
Qed.

Lemma fs_after_scratch (name code : string) (w : World) :
  fs (after_scratch name code w) = {[name]} ∪ fs w.
Proof. reflexivity. Qed.

(** C3: when the child process of a runner (the Python interpreter, the
    compiler, or the compiled binary) is still running when
    EXECUTION_TIMEOUT (10 by default) expires, the child is killed and the
    runner returns stdout = None and stderr = "Execution timed out". *)
Theorem timeout_reported (cfg : Config) (env : Env) (code : string) (w : World) :
  (forall name duration finished created removed,
      scratch_written env ".py" code w name ->
      close_error env name = None ->
      child env ["python"; name] ({[name]} ∪ fs w)
        = Runs duration finished created removed ->
      exceeds duration (EXECUTION_TIMEOUT cfg) = true ->
      exists w' deleted,
        execute_python_code cfg env code w
        = (Ok (None, Some "Execution timed out"), w')
        /\ trace w' = trace w ++
             [EvCreate name; EvWrite name code; EvClose name;
              EvSpawn ["python"; name] (EXECUTION_TIMEOUT cfg);
              EvKill ["python"; name]; EvUnlink name deleted])
  /\ (forall c_file duration finished created removed,
         scratch_written env ".c" code w c_file ->
         close_error env c_file = None ->
         child env (gcc_argv env c_file) ({[c_file]} ∪ fs w)
           = Runs duration finished created removed ->
         exceeds duration (EXECUTION_TIMEOUT cfg) = true ->
         exists w' deleted1 deleted2,
           execute_c_code cfg env code w
           = (Ok (None, Some "Execution timed out"), w')
           /\ trace w' = trace w ++
                [EvCreate c_file; EvWrite c_file code; EvClose c_file;
                 EvSpawn (gcc_argv env c_file) (EXECUTION_TIMEOUT cfg);
                 EvKill (gcc_argv env c_file);
                 EvUnlink c_file deleted1;
                 EvUnlink (exe_name env c_file) deleted2])
  /\ (forall c_file compile_time compiled created removed
             duration finished created' removed',
         scratch_written env ".c" code w c_file ->
         close_error env c_file = None ->
         child env (gcc_argv env c_file) ({[c_file]} ∪ fs w)
           = Runs compile_time (Decoded compiled) created removed ->
         exceeds compile_time (EXECUTION_TIMEOUT cfg) = false ->
         returncode compiled = 0 ->
         child env [exe_name env c_file]
               ((list_to_set created ∪ ({[c_file]} ∪ fs w)) ∖ list_to_set removed)
           = Runs duration finished created' removed' ->
         exceeds duration (EXECUTION_TIMEOUT cfg) = true ->
         exists w' deleted1 deleted2,
           execute_c_code cfg env code w
           = (Ok (None, Some "Execution timed out"), w')
           /\ trace w' = trace w ++
                [EvCreate c_file; EvWrite c_file code; EvClose c_file;
                 EvSpawn (gcc_argv env c_file) (EXECUTION_TIMEOUT cfg);
                 EvSpawn [exe_name env c_file] (EXECUTION_TIMEOUT cfg);
                 EvKill [exe_name env c_file];
                 EvUnlink c_file deleted1;
                 EvUnlink (exe_name env c_file) deleted2]).
Proof.
  split; [|split].
  - intros name d cp created removed Hw Hclose Hchild Hex.
    unfold execute_python_code, call, try_finally, try_except, python_try, bind.
    rewrite (write_scratch_run _ _ _ _ _ _ Hw), Hclose.
    unfold load at 1. simpl locals. rewrite lookup_insert_eq.
    rewrite subprocess_run_frame. simpl world.
    rewrite fs_after_scratch, Hchild. cbv zeta. rewrite Hex.
    simpl python_except. unfold ret.
    rewrite (python_finally_bound env _ name) by apply lookup_insert_eq.
    simpl world.
    match goal with |- context [unlinked env name ?w1] =>
      destruct (unlinked_trace env name w1) as [deleted Htrace] end.
    do 2 eexists. split; [reflexivity|]. rewrite Htrace. unfold after_scratch, after_child. simpl.
    rewrite <- !app_assoc. reflexivity.
  - intros c_file d cp created removed Hw Hclose Hchild Hex.
    unfold execute_c_code, call, try_finally, try_except, c_try, bind.
    rewrite (write_scratch_run _ _ _ _ _ _ Hw), Hclose.
    unfold load at 1. simpl locals. rewrite lookup_insert_eq.
    unfold assign at 1, modify. simpl locals. simpl world.
    unfold load at 1. simpl locals. rewrite lookup_insert_eq.
    fold (exe_name env c_file). fold (gcc_argv env c_file).
    rewrite subprocess_run_frame. simpl world. simpl locals.
    rewrite fs_after_scratch, Hchild. cbv zeta. rewrite Hex.
    simpl c_except. unfold ret.
    rewrite (c_finally_both env _ c_file (exe_name env c_file)) by done.
    simpl world.
    match goal with |- context [unlinked env (exe_name env c_file) (unlinked env c_file ?w1)] =>
      destruct (unlinked_trace env c_file w1) as [deleted1 Htrace1];
      destruct (unlinked_trace env (exe_name env c_file) (unlinked env c_file w1))
        as [deleted2 Htrace2] end.
    do 3 eexists. split; [reflexivity|]. rewrite Htrace2, Htrace1. unfold after_scratch, after_child. simpl.
    rewrite <- !app_assoc. reflexivity.
  - intros c_file d1 cp1 created1 removed1 d cp created removed
      Hw Hclose Hgcc Hfast Hzero Hchild Hex.
    unfold execute_c_code, call, try_finally, try_except, c_try, bind.
    rewrite (write_scratch_run _ _ _ _ _ _ Hw), Hclose.
    unfold load at 1. simpl locals. rewrite lookup_insert_eq.
    unfold assign at 1, modify. simpl locals. simpl world.
    unfold load at 1. simpl locals. rewrite lookup_insert_eq.
    fold (exe_name env c_file). fold (gcc_argv env c_file).
    rewrite subprocess_run_frame. simpl world. simpl locals.
    rewrite fs_after_scratch, Hgcc. cbv zeta. rewrite Hfast, Hzero.
    rewrite Z.eqb_refl. cbn [negb]. cbv beta iota.
    rewrite subprocess_run_frame. simpl world. simpl locals. simpl fs.
    rewrite Hchild. cbv zeta. rewrite Hex.
    simpl c_except. unfold ret.
    rewrite (c_finally_both env _ c_file (exe_name env c_file)) by done.
    simpl world.
    match goal with |- context [unlinked env (exe_name env c_file) (unlinked env c_file ?w1)] =>
      destruct (unlinked_trace env c_file w1) as [deleted1 Htrace1];
      destruct (unlinked_trace env (exe_name env c_file) (unlinked env c_file w1))
        as [deleted2 Htrace2] end.
    do 3 eexists. split; [reflexivity|]. rewrite Htrace2, Htrace1. unfold after_scratch, after_child. simpl.
    rewrite <- !app_assoc. reflexivity.
Qed.

Lemma timeout_reported_witness :
  (exists w' deleted,
      execute_python_code default_config (plain_env None "") "while True: pass" no_files
      = (Ok (None, Some "Execution timed out"), w')
      /\ trace w' = trace no_files ++
           [EvCreate "/tmp/tmpk3x9qz.py";
            EvWrite "/tmp/tmpk3x9qz.py" "while True: pass";
            EvClose "/tmp/tmpk3x9qz.py";
            EvSpawn ["python"; "/tmp/tmpk3x9qz.py"] 10;
            EvKill ["python"; "/tmp/tmpk3x9qz.py"];
            EvUnlink "/tmp/tmpk3x9qz.py" deleted])
  /\ (exists w' deleted1 deleted2,
         execute_c_code default_config hanging_gcc_env "int main(){for(;;);}" no_files
         = (Ok (None, Some "Execution timed out"), w')
         /\ trace w' = trace no_files ++
              [EvCreate "/tmp/tmpk3x9qz.c";
               EvWrite "/tmp/tmpk3x9qz.c" "int main(){for(;;);}";
               EvClose "/tmp/tmpk3x9qz.c";
               EvSpawn (gcc_argv hanging_gcc_env "/tmp/tmpk3x9qz.c") 10;
               EvKill (gcc_argv hanging_gcc_env "/tmp/tmpk3x9qz.c");
               EvUnlink "/tmp/tmpk3x9qz.c" deleted1;
               EvUnlink (exe_name hanging_gcc_env "/tmp/tmpk3x9qz.c") deleted2])
  /\ (exists w' deleted1 deleted2,
         execute_c_code default_config (plain_env None "") "int main(){for(;;);}" no_files
         = (Ok (None, Some "Execution timed out"), w')
         /\ trace w' = trace no_files ++
              [EvCreate "/tmp/tmpk3x9qz.c";
               EvWrite "/tmp/tmpk3x9qz.c" "int main(){for(;;);}";
               EvClose "/tmp/tmpk3x9qz.c";
               EvSpawn (gcc_argv (plain_env None "") "/tmp/tmpk3x9qz.c") 10;
               EvSpawn [exe_name (plain_env None "") "/tmp/tmpk3x9qz.c"] 10;
               EvKill [exe_name (plain_env None "") "/tmp/tmpk3x9qz.c"];
               EvUnlink "/tmp/tmpk3x9qz.c" deleted1;
               EvUnlink (exe_name (plain_env None "") "/tmp/tmpk3x9qz.c") deleted2]).
Proof.
  split; [|split].
  - apply (proj1 (timeout_reported default_config (plain_env None "")
                    "while True: pass" no_files)
             "/tmp/tmpk3x9qz.py" None (prints 0 "" "") [] []);
      [split; reflexivity | reflexivity..].
  - apply (proj1 (proj2 (timeout_reported default_config hanging_gcc_env
                           "int main(){for(;;);}" no_files))
             "/tmp/tmpk3x9qz.c" None (prints 0 "" "") [] []);
      [split; reflexivity | reflexivity..].
  - apply (proj2 (proj2 (timeout_reported default_config (plain_env None "")
                           "int main(){for(;;);}" no_files))
             "/tmp/tmpk3x9qz.c" (Some 1) (exited 0 "" "") ["/tmp/tmpk3x9qz"] []
             None (prints 0 "" "") [] []);
      [split; reflexivity | reflexivity..].
Defined.



(** ** The JSON endpoint *)

(** C8 (amended): in every answer of the JSON endpoint that has a
    [success] field, the body is [{output, error, success}] with status
    200 and [success] is true exactly when [error] is absent (null);
    an [error] that is a string, empty or not, comes with
    [success] = false. *)
Theorem success_iff_error_absent (cfg : Config) (env : Env)
    (req : json_request) (w w' : World) body status (success : bool) :
  api_execute cfg env req w = (Ok (Jsonify body status), w') ->
  ("success", JBool success) ∈ body ->
  exists output error,
    body = [("output", jopt output); ("error", jopt error);
            ("success", JBool success)]
    /\ status = 200
    /\ (success = true <-> error = None).
Proof.
  assert (Hfinish : forall (output error : option string) (w1 : World),
             (Ok (Jsonify [("output", jopt output); ("error", jopt error);
                           ("success", JBool (bool_decide (error = None)))] 200),
              w1) = (Ok (Jsonify body status), w') ->
             ("success", JBool success) ∈ body ->
             exists output error,
               body = [("output", jopt output); ("error", jopt error);
                       ("success", JBool success)]
               /\ status = 200 /\ (success = true <-> error = None)).
  { intros output error w1 [= <- <- <-] Hin.
    apply list_elem_of_In in Hin. simpl in Hin.
    destruct Hin as [[=]|[[=]|[[= <-]|[]]]].
    exists output, error. split; [reflexivity|]. split; [reflexivity|].
    apply bool_decide_eq_true. }
  assert (Hnone : forall (key : string) (v : jvalue) (code1 : Z) (w1 : World),
             key <> "success" ->
             (Ok (Jsonify [(key, v)] code1), w1) = (Ok (Jsonify body status), w') ->
             ("success", JBool success) ∈ body -> False).
  { intros key v code1 w1 Hkey [= <- <- <-] Hin.
    apply list_elem_of_In in Hin. simpl in Hin.
    destruct Hin as [[= Hk _]|[]]. congruence. }
  unfold api_execute, try_except, bind, get_json, data_get, decoded_truth,
    logger_error, os_do, modify, ret, raise.
  destruct req as [e| |data|v]; simpl.
  - intros H Hin. now apply Hnone in H.
  - intros H Hin. now apply Hnone in H.
  - destruct (bool_decide (data = ∅)); simpl.
    { intros H Hin. now apply Hnone in H. }
    destruct (default (VStr "") (data !! "code")) as [code|type_name [|] text].
    2,3: intros H Hin; now apply Hnone in H.
    destruct (validate_code cfg _ _) as [[|] error_msg].
    2:{ intros H Hin. now apply Hnone in H. }
    destruct (value_is _ "python").
    { destruct (execute_python_code cfg env _ w) as [[[output error]|e] w1].
      - apply Hfinish.
      - intros H Hin. now apply Hnone in H. }
    destruct (value_is _ "c").
    { destruct (execute_c_code cfg env _ w) as [[[output error]|e] w1].
      - apply Hfinish.
      - intros H Hin. now apply Hnone in H. }
    destruct (value_is _ "html");
      intros H Hin; now apply Hnone in H.
  - destruct (truth_of v); simpl; intros H Hin; now apply Hnone in H.
Qed.

Lemma success_iff_error_absent_witness :
  exists output error,
    [("output", JStr "Hi"); ("error", JNull); ("success", JBool true)]
    = [("output", jopt output); ("error", jopt error); ("success", JBool true)]
    /\ 200 = 200
    /\ (true = true <-> error = None).
Proof.
  apply (success_iff_error_absent default_config (plain_env (Some 1) "Hi")
           (json_body "print('Hi')" "python") no_files
           {| fs := ∅; trace :=
                [EvCreate "/tmp/tmpk3x9qz.py";
                 EvWrite "/tmp/tmpk3x9qz.py" "print('Hi')";
                 EvClose "/tmp/tmpk3x9qz.py";
                 EvSpawn ["python"; "/tmp/tmpk3x9qz.py"] 10;
                 EvUnlink "/tmp/tmpk3x9qz.py" true] |}).
  - vm_compute. reflexivity.
  - apply list_elem_of_In. simpl. tauto.
Defined.

(** C8 as stated fails: when the compiler exits with a non-zero status
    and prints nothing, the [error] field is the empty string and
    [success] is false. *)
Lemma success_iff_error_absent_counterexample :
  (api_execute default_config killed_gcc_env (json_body "int main(){}" "c")
               no_files).1
  = Ok (Jsonify [("output", JNull); ("error", JStr ""); ("success", JBool false)]
                200).
Proof. vm_compute. reflexivity. Qed.

(** C7 (what the code does): for JavaScript code that passes validation
    the form handler starts nothing and echoes the code back as the
    output text, while the JSON endpoint answers the same request with
    status 400 and "Unsupported language: javascript". *)
Theorem javascript_echoed_by_form_only (cfg : Config) (env : Env)
    (code : string) :
  (validate_code cfg code "javascript").1 = true ->
  (forall (form : gmap string string) theme code0 language0 (s : Web),
      default code0 (form !! "code") = code ->
      default language0 (form !! "language") = "javascript" ->
      exists s',
        handle_code_execution cfg env form theme code0 language0 s
        = (Ok (Render "index.html"
                 {| arg_output := Some (msg_javascript code);
                    arg_error := None; arg_html_preview := None;
                    arg_theme := theme; arg_code := code;
                    arg_language := "javascript" |}), s')
        /\ web_world s' = web_world s)
  /\ (forall (data : gmap string pyvalue) (w : World),
         data <> ∅ ->
         default (VStr "") (data !! "code") = VStr code ->
         default (VStr "python") (data !! "language") = VStr "javascript" ->
         api_execute cfg env (JsonObject data) w
         = (Ok (Jsonify [("error", JStr "Unsupported language: javascript")] 400),
            w)).
Proof.
  intros Hvalid.
  destruct (validate_code cfg code "javascript") as [valid error_msg] eqn:Hv.
  simpl in Hvalid. subst valid. split.
  - intros form theme code0 language0 s Hcode Hlang.
    unfold handle_code_execution, bind, session_set, modify, ret. simpl.
    rewrite Hcode, Hlang, Hv. simpl. eexists. split; reflexivity.
  - intros data w Hne Hcode Hlang. api_object Hne.
    rewrite Hcode, Hlang. simpl. rewrite Hv. reflexivity.
Qed.

Lemma javascript_echoed_by_form_only_witness :
  (exists s',
      handle_code_execution default_config (plain_env (Some 1) "")
        (form_fields "console.log(1)" "javascript") "light" "" "python"
        fresh_session
      = (Ok (Render "index.html"
               {| arg_output := Some (msg_javascript "console.log(1)");
                  arg_error := None; arg_html_preview := None;
                  arg_theme := "light"; arg_code := "console.log(1)";
                  arg_language := "javascript" |}), s')
      /\ web_world s' = web_world fresh_session)
  /\ api_execute default_config (plain_env (Some 1) "")
       (json_body "console.log(1)" "javascript") no_files
     = (Ok (Jsonify [("error", JStr "Unsupported language: javascript")] 400),
        no_files).
Proof.
  destruct (javascript_echoed_by_form_only default_config (plain_env (Some 1) "")
              "console.log(1)") as [Hform Hapi].
  - reflexivity.
  - split.
    + apply Hform; reflexivity.
    + apply Hapi; [|reflexivity..].
      intros H. apply (f_equal (fun m : gmap string pyvalue => m !! "code")) in H.
      vm_compute in H. discriminate.
Defined.

(** ** The desktop Run action *)

Section DesktopFacts.
Context (env : Env).
Import Desktop.









Lemma growing_try_finally {A} (m : M Window A) (fin : M Window unit) :
  growing m -> growing fin -> growing (try_finally m fin).
Proof.
  intros Hm Hf g. unfold try_finally. destruct (Hm g) as [rest1 H1].
  destruct (m g) as [r g1]; simpl in *.
  destruct (Hf g1) as [rest2 H2].
  destruct (fin g1) as [[[]|e] g2]; simpl in *; exists (rest1 ++ rest2);
    now rewrite H2, H1, app_assoc.
Qed.









End DesktopFacts.




(** * Further properties *)

(** ** Validation *)

Lemma lower_app (a b : string) :
  PyStr.lower (a +:+ b) = PyStr.lower a +:+ PyStr.lower b.
Proof.
  unfold String.app. induction a as [|c a IH]; simpl; [reflexivity|].
  now rewrite IH.
Qed.

Lemma occurs_in_lower (frag code : string) :
  PyStr.occurs_in frag code ->
  PyStr.occurs_in (PyStr.lower frag) (PyStr.lower code).
Proof.
  intros (pre & post & ->). exists (PyStr.lower pre), (PyStr.lower post).
  now rewrite !lower_app.
Qed.

Lemma append_assoc (a b c : string) : (a +:+ b) +:+ c = a +:+ b +:+ c.
Proof.
  unfold String.app. induction a as [|x a IH]; simpl; [reflexivity|].
  now rewrite IH.
Qed.

Lemma occurs_in_trans (a b c : string) :
  PyStr.occurs_in a b -> PyStr.occurs_in b c -> PyStr.occurs_in a c.
Proof.
  intros (pre1 & post1 & ->) (pre2 & post2 & ->).
  exists (pre2 +:+ pre1), (post1 +:+ post2).
  now rewrite !append_assoc.
Qed.

Lemma denied_rejected (cfg : Config) (code language pattern : string) :
  pattern ∈ dangerous_patterns ->
  PyStr.occurs_in pattern (PyStr.lower code) ->
  (validate_code cfg code language).1 = false.
Proof.
  intros Hin Hocc.
  rewrite validate_code_eq, (denied_not_blank code pattern Hin Hocc).
  destruct (PyStr.len code >? MAX_CODE_LENGTH cfg); [reflexivity|].
  pose proof (first_dangerous_spec dangerous_patterns (PyStr.lower code)) as Hspec.
  destruct (first_dangerous dangerous_patterns (PyStr.lower code)); [reflexivity|].
  rewrite Forall_forall in Hspec. specialize (Hspec _ Hin).
  apply PyStrFacts.contains_occurs in Hocc. congruence.
Qed.

(** X1: [validate_code] accepts a submission exactly when it is not blank,
    has at most MAX_CODE_LENGTH characters and its lowercased form
    contains no denylisted pattern. *)
Theorem validate_code_accepts_iff (cfg : Config) (code language : string) :
  validate_code cfg code language = (true, None)
  <-> PyStr.strip code <> EmptyString
      /\ PyStr.len code <= MAX_CODE_LENGTH cfg
      /\ forall pattern, pattern ∈ dangerous_patterns ->
                         ~ PyStr.occurs_in pattern (PyStr.lower code).
Proof.
  rewrite validate_code_eq.
  pose proof (first_dangerous_spec dangerous_patterns (PyStr.lower code)) as Hspec.
  destruct (PyStr.all_space code) eqn:Hs.
  { split; [discriminate|]. intros [Hne _].
    apply PyStrFacts.strip_empty in Hs. contradiction. }
  assert (Hstrip : PyStr.strip code <> EmptyString).
  { intros H. apply PyStrFacts.strip_empty in H. congruence. }
  destruct (PyStr.len code >? MAX_CODE_LENGTH cfg) eqn:Hlen.
  { split; [discriminate|]. intros (_ & Hle & _).
    rewrite Z.gtb_ltb in Hlen. apply Z.ltb_lt in Hlen. lia. }
  rewrite Z.gtb_ltb in Hlen. apply Z.ltb_ge in Hlen.
  destruct (first_dangerous dangerous_patterns (PyStr.lower code)) as [p|].
  - split; [discriminate|]. intros (_ & _ & Hnone).
    destruct Hspec as (earlier & later & Heq & Hp & _).
    exfalso. apply (Hnone p).
    + rewrite Heq. apply elem_of_app. right. left.
    + now apply PyStrFacts.contains_occurs.
  - split; [|reflexivity]. intros _. split; [exact Hstrip|]. split; [exact Hlen|].
    intros pattern Hin Hocc. rewrite Forall_forall in Hspec.
    specialize (Hspec _ Hin). apply PyStrFacts.contains_occurs in Hocc.
    congruence.
Qed.

(** X2: the denylist cannot be evaded by padding: a submission that
    contains, anywhere, a fragment whose lowercased form shows a
    denylisted pattern is rejected, whatever surrounds the fragment. *)
Theorem validate_code_rejects_any_embedding (cfg : Config)
    (fragment code language pattern : string) :
  pattern ∈ dangerous_patterns ->
  PyStr.occurs_in pattern (PyStr.lower fragment) ->
  PyStr.occurs_in fragment code ->
  (validate_code cfg code language).1 = false.
Proof.
  intros Hin Hpat Hfrag. apply (denied_rejected cfg code language pattern Hin).
  eapply occurs_in_trans; [exact Hpat|]. now apply occurs_in_lower.
Qed.

Lemma validate_code_rejects_any_embedding_witness :
  (validate_code default_config "x = 1; OS.System('ls') # harmless" "python").1
  = false.
Proof.
  apply (validate_code_rejects_any_embedding default_config
           "OS.System('ls')" _ "python" "system(").
  - apply list_elem_of_In. simpl. tauto.
  - exists "os.", "'ls')". reflexivity.
  - exists "x = 1; ", " # harmless". reflexivity.
Defined.

(** ** File names *)

Section PathFacts.
Import PyStr PyPath.

Lemma lower_char_idem (c : ascii) : lower_char (lower_char c) = lower_char c.
Proof. destruct c as [[] [] [] [] [] [] [] []]; vm_compute; reflexivity. Qed.

Lemma lower_char_slash (c : ascii) :
  Ascii.eqb (lower_char c) "/" = Ascii.eqb c "/".
Proof. destruct c as [[] [] [] [] [] [] [] []]; vm_compute; reflexivity. Qed.

Lemma lower_char_dot (c : ascii) :
  Ascii.eqb (lower_char c) "." = Ascii.eqb c ".".
Proof. destruct c as [[] [] [] [] [] [] [] []]; vm_compute; reflexivity. Qed.

Lemma lower_idem (s : string) : lower (lower s) = lower s.
Proof.
  induction s as [|c s IH]; simpl; [reflexivity|].
  now rewrite lower_char_idem, IH.
Qed.

Lemma len_lower (s : string) : len (lower s) = len s.
Proof.
  unfold len. f_equal. induction s as [|c s IH]; simpl; [reflexivity|].
  now rewrite IH.
Qed.

Lemma split_slash_lower (s : string) :
  split_slash (lower s) = List.map lower (split_slash s).
Proof.
  induction s as [|c s IH]; simpl; [reflexivity|].
  rewrite lower_char_slash. destruct (Ascii.eqb c "/").
  - simpl. now rewrite IH.
  - rewrite IH. now destruct (split_slash s).
Qed.

Lemma eqb_lower_empty (s : string) :
  String.eqb (lower s) "" = String.eqb s "".
Proof. now destruct s. Qed.

Lemma eqb_lower_dot (s : string) :
  String.eqb (lower s) "." = String.eqb s ".".
Proof.
  destruct s as [|c [|d s]]; simpl; try reflexivity.
  - now rewrite lower_char_dot.
  - destruct (Ascii.eqb (lower_char c) "."), (Ascii.eqb c "."); reflexivity.
Qed.

Lemma parts_lower (s : string) : parts (lower s) = List.map lower (parts s).
Proof.
  unfold parts. rewrite split_slash_lower.
  induction (split_slash s) as [|x l IH]; simpl; [reflexivity|].
  rewrite eqb_lower_empty, eqb_lower_dot.
  destruct (negb (String.eqb x "") && negb (String.eqb x ".")); simpl;
    now rewrite IH.
Qed.

Lemma last_map_lower (l : list string) :
  List.last (List.map lower l) "" = lower (List.last l "").
Proof.
  induction l as [|x [|y l] IH]; simpl in *; [reflexivity..|exact IH].
Qed.

Lemma name_lower (s : string) : name (lower s) = lower (name s).
Proof. unfold name. now rewrite parts_lower, last_map_lower. Qed.

Lemma rfind_from_lower (s : string) (k : Z) :
  rfind_from "." (lower s) k = rfind_from "." s k.
Proof.
  revert k. induction s as [|c s IH]; intros k; simpl; [reflexivity|].
  now rewrite IH, lower_char_dot.
Qed.

Lemma slice_from_lower (i : nat) (s : string) :
  slice_from i (lower s) = lower (slice_from i s).
Proof.
  revert s. induction i as [|i IH]; intros s; [reflexivity|].
  destruct s; simpl; [reflexivity|apply IH].
Qed.

(** The suffix of the lowercased name is the lowercased suffix. *)
Lemma suffix_lower (s : string) : suffix (lower s) = lower (suffix s).
Proof.
  unfold suffix, rfind. cbv zeta.
  rewrite name_lower, rfind_from_lower, len_lower, slice_from_lower.
  now destruct (_ && _).
Qed.

End PathFacts.

(** X3: File names that differ only in the case of their letters are treated
    alike: [allowed_file] gives them the same verdict and
    [get_language_from_filename] the same language. *)
Theorem file_checks_ignore_case (allowed : gset string)
    (filename1 filename2 : string) :
  PyStr.lower filename1 = PyStr.lower filename2 ->
  allowed_file allowed filename1 = allowed_file allowed filename2
  /\ get_language_from_filename filename1 = get_language_from_filename filename2.
Proof.
  intros Hcase.
  assert (Hext : PyStr.lower (PyPath.suffix filename1)
                 = PyStr.lower (PyPath.suffix filename2))
    by now rewrite <- !suffix_lower, Hcase.
  unfold allowed_file, get_language_from_filename. cbv zeta.
  now rewrite Hext.
Qed.

Lemma file_checks_ignore_case_witness :
  allowed_file ALLOWED_EXTENSIONS "Main.PY" = allowed_file ALLOWED_EXTENSIONS "main.py"
  /\ get_language_from_filename "Main.PY" = get_language_from_filename "main.py".
Proof.
  apply (file_checks_ignore_case ALLOWED_EXTENSIONS "Main.PY" "main.py").
  reflexivity.
Defined.

Section SuffixFacts.
Import PyStr PyPath.

Lemma no_slash_cons (c : ascii) (s : string) :
  ~ occurs_in "/" (String c s) -> c <> "/"%char /\ ~ occurs_in "/" s.
Proof.
  intros Hno. split.
  - intros ->. apply Hno. exists EmptyString, s. reflexivity.
  - intros (pre & post & ->). apply Hno. exists (String c pre), post.
    reflexivity.
Qed.

Lemma split_slash_app (stem ext : string) :
  ~ occurs_in "/" stem -> split_slash ext = [ext] ->
  split_slash (stem +:+ ext) = [stem +:+ ext].
Proof.
  intros Hno Hext. unfold String.app.
  induction stem as [|c stem IH]; simpl; [exact Hext|].
  apply no_slash_cons in Hno as [Hc Hno].
  destruct (Ascii.eqb_spec c "/"); [contradiction|].
  now rewrite (IH Hno).
Qed.

Lemma rfind_from_shift (c : ascii) (s : string) (k : Z) :
  0 <= k ->
  rfind_from c s k = if 0 <=? rfind c s then k + rfind c s else -1.
Proof.
  unfold rfind. revert k. induction s as [|a s IH]; intros k Hk; simpl.
  - reflexivity.
  - rewrite (IH (k + 1)), (IH (0 + 1)) by lia.
    destruct (Z.leb_spec 0 (rfind_from c s 0)) as [Hr|Hr].
    + destruct (Z.leb_spec 0 (k + 1 + rfind_from c s 0)); [|lia].
      destruct (Z.leb_spec 0 (0 + 1 + rfind_from c s 0)); [|lia].
      destruct (Z.leb_spec 0 (0 + 1 + rfind_from c s 0)); lia.
    + simpl. destruct (Ascii.eqb a c); simpl; lia.
Qed.

Lemma rfind_from_app (c : ascii) (stem ext : string) (k : Z) :
  0 <= k -> 0 <= rfind c ext ->
  rfind_from c (stem +:+ ext) k = k + len stem + rfind c ext.
Proof.
  intros Hk Hext. unfold String.app. revert k Hk.
  induction stem as [|a stem IH]; intros k Hk.
  - simpl. rewrite rfind_from_shift by exact Hk.
    destruct (Z.leb_spec 0 (rfind c ext)); unfold len; simpl; lia.
  - cbn [String.append rfind_from]. rewrite IH by lia. cbv zeta.
    destruct (Z.leb_spec 0 (k + 1 + len stem + rfind c ext)).
    + unfold len. cbn [String.length]. lia.
    + unfold len in *. lia.
Qed.

Lemma slice_from_app (stem ext : string) :
  slice_from (String.length stem) (stem +:+ ext) = ext.
Proof.
  unfold String.app. induction stem as [|a stem IH]; simpl; [reflexivity|].
  exact IH.
Qed.

(** The suffix of a plain file name that ends in an extension. *)
Lemma suffix_app (stem ext : string) :
  stem <> EmptyString -> ~ occurs_in "/" stem ->
  split_slash ext = [ext] -> rfind "." ext = 0 -> 2 <= len ext ->
  suffix (stem +:+ ext) = ext.
Proof.
  intros Hstem Hno Hsplit Hdot Hlen.
  assert (Hname : name (stem +:+ ext) = stem +:+ ext).
  { assert (Hlong : (3 <= String.length (stem +:+ ext))%nat).
    { rewrite PyStrFacts.length_app. unfold len in Hlen.
      destruct stem; [contradiction|]. simpl. lia. }
    assert (H1 : String.eqb (stem +:+ ext) "" = false).
    { apply String.eqb_neq. intros H. rewrite H in Hlong. simpl in Hlong. lia. }
    assert (H2 : String.eqb (stem +:+ ext) "." = false).
    { apply String.eqb_neq. intros H. rewrite H in Hlong. simpl in Hlong. lia. }
    unfold name, parts. rewrite (split_slash_app _ _ Hno Hsplit).
    cbn [List.filter]. rewrite H1, H2. reflexivity. }
  unfold suffix. cbv zeta. rewrite Hname. unfold rfind.
  rewrite rfind_from_app by lia. rewrite Hdot.
  assert (Hpos : 0 < len stem).
  { destruct stem; [contradiction|]. unfold len. simpl. lia. }
  assert (Htotal : len (stem +:+ ext) = len stem + len ext).
  { unfold len. rewrite PyStrFacts.length_app. lia. }
  rewrite Htotal.
  replace (0 <? 0 + len stem + 0) with true by (symmetry; apply Z.ltb_lt; lia).
  replace (0 + len stem + 0 <? len stem + len ext - 1) with true
    by (symmetry; apply Z.ltb_lt; lia).
  cbn [andb]. replace (0 + len stem + 0) with (len stem) by lia.
  unfold len. rewrite Nat2Z.id. apply slice_from_app.
Qed.

End SuffixFacts.

(** X4: Language detection agrees with the table of languages: the language
    found for a file name is always one of the keys of
    [get_language_info], and a plain file name that ends in the extension
    of an entry of the table is allowed for upload and is detected as
    that entry's language. *)
Theorem language_detection_consistent :
  (forall filename,
      get_language_from_filename filename ∈ List.map fst get_language_info)
  /\ (forall key info stem,
         (key, info) ∈ get_language_info ->
         stem <> EmptyString ->
         ~ PyStr.occurs_in "/" stem ->
         allowed_file ALLOWED_EXTENSIONS (stem +:+ info_extension info) = true
         /\ get_language_from_filename (stem +:+ info_extension info) = key).
Proof.
  split.
  - intros filename. unfold get_language_from_filename. cbv zeta.
    destruct (language_map !! _) as [l|] eqn:Hl; simpl.
    + unfold language_map in Hl.
      repeat (apply lookup_insert_Some in Hl as [[_ <-]|[_ Hl]];
              [apply list_elem_of_In; simpl; tauto|]).
      now rewrite lookup_empty in Hl.
    + apply list_elem_of_In. simpl. tauto.
  - intros key info stem Hin Hstem Hno.
    assert (Hsuffix : PyPath.suffix (stem +:+ info_extension info)
                      = info_extension info
                      /\ bool_decide (PyStr.lower (info_extension info)
                                        ∈ ALLOWED_EXTENSIONS) = true
                      /\ default "python"
                           (language_map !! PyStr.lower (info_extension info)) = key).
    { apply list_elem_of_In in Hin. simpl in Hin.
      destruct Hin as [[= <- <-]|[[= <- <-]|[[= <- <-]|[[= <- <-]|[]]]]];
        (split; [apply suffix_app; try assumption; vm_compute; congruence|]);
        split; vm_compute; reflexivity. }
    destruct Hsuffix as (Hs & Hallowed & Hlang).
    unfold allowed_file, get_language_from_filename. cbv zeta.
    rewrite Hs. split; assumption.
Qed.

Lemma language_detection_consistent_witness :
  get_language_from_filename "notes.txt" ∈ List.map fst get_language_info
  /\ allowed_file ALLOWED_EXTENSIONS ("hello" +:+ ".js") = true
  /\ get_language_from_filename ("hello" +:+ ".js") = "javascript".
Proof.
  destruct language_detection_consistent as [Hkey Hext].
  split; [apply Hkey|].
  apply (Hext "javascript"
           {| info_name := "JavaScript"; info_extension := ".js";
              info_syntax := "javascript";
              info_template :=
                "console.log(" +:+ dquote +:+ "Hello, World!" +:+ dquote +:+ ");" |}
           "hello").
  - apply list_elem_of_In. simpl. tauto.
  - discriminate.
  - intros H. apply PyStrFacts.contains_occurs in H. vm_compute in H.
    discriminate.
Defined.

(** ** The rate limiter *)

Section RateLimitFacts.
Context (limits : Limits).

Lemma rate_limit_counting_step (client_ip : string) (now : Z) (st : Limited Z) :
  TESTING limits = false ->
  (rate_limit limits counting_view client_ip now st).2
  = match rate_limit_storage st !! client_ip with
    | Some (requests, window_start) =>
        if now - window_start >? timedelta_seconds (RATE_LIMIT_WINDOW limits)
        then {| served := served st + 1;
                rate_limit_storage := <[client_ip := (1, now)]> (rate_limit_storage st);
                rate_warnings := rate_warnings st |}
        else if requests >=? RATE_LIMIT_REQUESTS limits then
          {| served := served st;
             rate_limit_storage := rate_limit_storage st;
             rate_warnings := rate_warnings st
                              ++ ["Rate limit exceeded for IP: " +:+ client_ip] |}
        else
          {| served := served st + 1;
             rate_limit_storage :=
               <[client_ip := (requests + 1, window_start)]> (rate_limit_storage st);
             rate_warnings := rate_warnings st |}
    | None =>
        {| served := served st + 1;
           rate_limit_storage := <[client_ip := (1, now)]> (rate_limit_storage st);
           rate_warnings := rate_warnings st |}
    end.
Proof.
  intros Htest.
  unfold rate_limit, counting_view, call_view, storage_set, logger_warning,
    bind, get, modify, ret.
  rewrite Htest. simpl.
  destruct (rate_limit_storage st !! client_ip) as [[requests window_start]|];
    [|reflexivity].
  destruct (now - window_start >? _); [reflexivity|].
  destruct (requests >=? _); reflexivity.
Qed.

(** Within one window, a client that has been served [used] requests is
    served the same number of further ones as are left of the quota. *)
Lemma serve_all_within_window (client_ip : string) (start used : Z)
    (times : list Z) (st : Limited Z) :
  TESTING limits = false ->
  rate_limit_storage st !! client_ip = Some (used, start) ->
  used <= RATE_LIMIT_REQUESTS limits ->
  Forall (fun now => now - start <= timedelta_seconds (RATE_LIMIT_WINDOW limits))
         times ->
  let st' := serve_all limits counting_view client_ip times st in
  served st'
  = served st + Z.min (Z.of_nat (length times)) (RATE_LIMIT_REQUESTS limits - used)
  /\ rate_limit_storage st' !! client_ip
     = Some (used + Z.min (Z.of_nat (length times))
                          (RATE_LIMIT_REQUESTS limits - used), start).
Proof.
  intros Htest. revert used st.
  induction times as [|now times IH]; intros used st Hentry Hused Hwithin.
  - simpl. split; [lia|]. rewrite Hentry. do 2 f_equal. lia.
  - inversion Hwithin as [|? ? Hnow Hrest]; subst.
    cbn [serve_all]. rewrite rate_limit_counting_step by exact Htest.
    rewrite Hentry.
    replace (now - start >? timedelta_seconds (RATE_LIMIT_WINDOW limits))
      with false by (symmetry; rewrite Z.gtb_ltb; apply Z.ltb_ge; lia).
    destruct (Z.geb_spec used (RATE_LIMIT_REQUESTS limits)) as [Hfull|Hroom].
    + destruct (IH used
                  {| served := served st;
                     rate_limit_storage := rate_limit_storage st;
                     rate_warnings := rate_warnings st
                       ++ ["Rate limit exceeded for IP: " +:+ client_ip] |}
                  Hentry Hused Hrest) as [IH1 IH2].
      cbv zeta in *. rewrite IH1, IH2. simpl served.
      split; [|do 2 f_equal]; cbn [length]; rewrite Nat2Z.inj_succ; lia.
    + destruct (IH (used + 1)
                  {| served := served st + 1;
                     rate_limit_storage :=
                       <[client_ip := (used + 1, start)]> (rate_limit_storage st);
                     rate_warnings := rate_warnings st |}) as [IH1 IH2];
        [apply lookup_insert_eq | lia | exact Hrest |].
      cbv zeta in *. rewrite IH1, IH2. simpl served.
      split; [|do 2 f_equal]; cbn [length]; rewrite Nat2Z.inj_succ; lia.
Qed.

End RateLimitFacts.

(** X5: The quota of the rate limiter: of the requests of a client without an
    entry that arrive within one window (none later than RATE_LIMIT_WINDOW
    seconds after the first), exactly the first RATE_LIMIT_REQUESTS reach
    the view. *)
Theorem rate_limit_quota (limits : Limits) (client_ip : string) (first : Z)
    (later : list Z) (st : Limited Z) :
  TESTING limits = false ->
  1 <= RATE_LIMIT_REQUESTS limits ->
  rate_limit_storage st !! client_ip = None ->
  Forall (fun now => now - first <= timedelta_seconds (RATE_LIMIT_WINDOW limits))
         later ->
  served (serve_all limits counting_view client_ip (first :: later) st)
  = served st + Z.min (Z.of_nat (length (first :: later)))
                      (RATE_LIMIT_REQUESTS limits).
Proof.
  intros Htest Hlimit Hnone Hwithin.
  cbn [serve_all]. rewrite rate_limit_counting_step by exact Htest.
  rewrite Hnone.
  destruct (serve_all_within_window limits client_ip first 1 later
              {| served := served st + 1;
                 rate_limit_storage :=
                   <[client_ip := (1, first)]> (rate_limit_storage st);
                 rate_warnings := rate_warnings st |}) as [Hserved _];
    [exact Htest | apply lookup_insert_eq | lia | exact Hwithin |].
  cbv zeta in Hserved. rewrite Hserved. simpl served.
  cbn [length]. rewrite Nat2Z.inj_succ. lia.
Qed.

Lemma rate_limit_quota_witness :
  served (serve_all {| TESTING := false; RATE_LIMIT_REQUESTS := 2;
                       RATE_LIMIT_WINDOW := 60 |}
            counting_view "10.0.0.7" [0; 1000000; 2000000; 60000000]
            {| served := 0; rate_limit_storage := ∅; rate_warnings := [] |})
  = 0 + Z.min (Z.of_nat (length [0; 1000000; 2000000; 60000000])) 2.
Proof.
  apply (rate_limit_quota
           {| TESTING := false; RATE_LIMIT_REQUESTS := 2; RATE_LIMIT_WINDOW := 60 |}
           "10.0.0.7" 0 [1000000; 2000000; 60000000]).
  - reflexivity.
  - simpl. lia.
  - reflexivity.
  - repeat constructor; vm_compute; discriminate.
Defined.

Lemma serve_all_app {S} (limits : Limits) (f : M S page) (client_ip : string)
    (times1 times2 : list Z) (st : Limited S) :
  serve_all limits f client_ip (times1 ++ times2) st
  = serve_all limits f client_ip times2
      (serve_all limits f client_ip times1 st).
Proof.
  revert st. induction times1 as [|now times1 IH]; intros st; [reflexivity|].
  simpl. apply IH.
Qed.

(** X6: The window of the rate limiter reopens: however many requests of a
    client were refused within its window, the first request that
    arrives more than RATE_LIMIT_WINDOW seconds after the start of the
    window reaches the view and starts a new window with a count of 1. *)
Theorem rate_limit_window_reopens (limits : Limits) (client_ip : string)
    (first : Z) (later : list Z) (late : Z) (st : Limited Z) :
  TESTING limits = false ->
  1 <= RATE_LIMIT_REQUESTS limits ->
  rate_limit_storage st !! client_ip = None ->
  Forall (fun now => now - first <= timedelta_seconds (RATE_LIMIT_WINDOW limits))
         later ->
  late - first > timedelta_seconds (RATE_LIMIT_WINDOW limits) ->
  let st' := serve_all limits counting_view client_ip
               (first :: later ++ [late]) st in
  served st'
  = served st + Z.min (Z.of_nat (length (first :: later)))
                      (RATE_LIMIT_REQUESTS limits) + 1
  /\ rate_limit_storage st' !! client_ip = Some (1, late).
Proof.
  intros Htest Hlimit Hnone Hwithin Hlate.
  cbn [serve_all]. rewrite rate_limit_counting_step by exact Htest.
  rewrite Hnone, serve_all_app.
  destruct (serve_all_within_window limits client_ip first 1 later
              {| served := served st + 1;
                 rate_limit_storage :=
                   <[client_ip := (1, first)]> (rate_limit_storage st);
                 rate_warnings := rate_warnings st |}) as [Hserved Hentry];
    [exact Htest | apply lookup_insert_eq | lia | exact Hwithin |].
  cbv zeta in Hserved, Hentry. cbv zeta. cbn [serve_all].
  rewrite rate_limit_counting_step by exact Htest. rewrite Hentry.
  replace (late - first >? timedelta_seconds (RATE_LIMIT_WINDOW limits))
    with true by (symmetry; rewrite Z.gtb_ltb; apply Z.ltb_lt; lia).
  simpl served. simpl rate_limit_storage. rewrite Hserved. simpl served.
  split; [|apply lookup_insert_eq].
  cbn [length]. rewrite Nat2Z.inj_succ. lia.
Qed.

Lemma rate_limit_window_reopens_witness :
  let st' := serve_all {| TESTING := false; RATE_LIMIT_REQUESTS := 1;
                          RATE_LIMIT_WINDOW := 60 |}
               counting_view "10.0.0.7" (0 :: [5; 7] ++ [60000001])
               {| served := 0; rate_limit_storage := ∅; rate_warnings := [] |} in
  served st' = 0 + Z.min (Z.of_nat (length (0 :: [5; 7]))) 1 + 1
  /\ rate_limit_storage st' !! "10.0.0.7" = Some (1, 60000001).
Proof.
  apply (rate_limit_window_reopens
           {| TESTING := false; RATE_LIMIT_REQUESTS := 1; RATE_LIMIT_WINDOW := 60 |}
           "10.0.0.7" 0 [5; 7] 60000001).
  - reflexivity.
  - simpl. lia.
  - reflexivity.
  - repeat constructor; vm_compute; discriminate.
  - vm_compute. reflexivity.
Defined.

(** X7: The counters of the rate limiter are kept per client: whatever the
    view does and whether the request is served or refused, a request of
    one client leaves the entry of every other client as it was. *)
Theorem rate_limit_isolated {S} (limits : Limits) (f : M S page)
    (client_ip other : string) (now : Z) (st : Limited S) :
  other <> client_ip ->
  rate_limit_storage (rate_limit limits f client_ip now st).2 !! other
  = rate_limit_storage st !! other.
Proof.
  intros Hother.
  unfold rate_limit, call_view, storage_set, logger_warning, bind, get, modify,
    ret.
  destruct (TESTING limits).
  { now destruct (f (served st)). }
  simpl.
  destruct (rate_limit_storage st !! client_ip) as [[requests window_start]|].
  - destruct (now - window_start >? _); simpl.
    + destruct (f (served st)). simpl. now apply lookup_insert_ne.
    + destruct (requests >=? _); simpl; [reflexivity|].
      destruct (f (served st)). simpl. now apply lookup_insert_ne.
  - simpl. destruct (f (served st)). simpl. now apply lookup_insert_ne.
Qed.

Lemma rate_limit_isolated_witness :
  rate_limit_storage
    (rate_limit default_limits counting_view "10.0.0.7" 5
       {| served := 0; rate_limit_storage := <["10.0.0.8" := (50, 0)]> ∅;
          rate_warnings := [] |}).2 !! "10.0.0.8"
  = rate_limit_storage
      {| served := 0; rate_limit_storage := <["10.0.0.8" := (50, 0)]> ∅;
         rate_warnings := [] |} !! "10.0.0.8".
Proof.
  apply (rate_limit_isolated default_limits counting_view "10.0.0.7" "10.0.0.8" 5
           {| served := 0; rate_limit_storage := <["10.0.0.8" := (50, 0)]> ∅;
              rate_warnings := [] |}).
  discriminate.
Defined.

(** ** The IDE page *)

Section IdePageFacts.
Context (cfg : Config) (env : Env) (allowed : gset string).

(** Whatever the outcome, [handle_code_execution] leaves the submitted
    language and code in the session and touches nothing else of it. *)
Lemma handle_code_execution_session (form : gmap string string)
    (theme code language : string) (s : Web) :
  session (handle_code_execution cfg env form theme code language s).2
  = <["code" := default code (form !! "code")]>
      (<["language" := default language (form !! "language")]> (session s)).
Proof.
  unfold handle_code_execution, bind, session_set, modify, ret, run_core.
  simpl. destruct (validate_code cfg _ _) as [[|] error_msg]; [|reflexivity].
  destruct (String.eqb _ "python").
  { simpl. destruct (execute_python_code cfg env _ _) as [[[output error]|e] w1];
      reflexivity. }
  destruct (String.eqb _ "c").
  { simpl. destruct (execute_c_code cfg env _ _) as [[[output error]|e] w1];
      reflexivity. }
  destruct (String.eqb _ "html"); [reflexivity|].
  destruct (String.eqb _ "javascript"); reflexivity.
Qed.

(** A GET of the page shows the session and changes nothing. *)
Lemma index_get (request : Request) (s : Site) :
  req_method request <> "POST" ->
  index cfg env allowed request s
  = (Ok (Page (Render "index.html"
                 {| arg_output := None; arg_error := None;
                    arg_html_preview := None;
                    arg_theme := default "light" (site_session s !! "theme");
                    arg_code := default "" (site_session s !! "code");
                    arg_language := default "python" (site_session s !! "language") |})),
     s).
Proof.
  intros Hget. apply String.eqb_neq in Hget.
  unfold index, bind, get, ret. now rewrite Hget.
Qed.

End IdePageFacts.

(** X8: Switching the theme: a POST with [theme_only=1] stores the chosen
    theme (light when none is given) in the session, leaves the code,
    the language and the world alone and redirects to the page; the GET
    that follows renders the page in the new theme with the code and
    language it had. *)
Theorem theme_switch_round_trip (cfg : Config) (env : Env) (allowed : gset string)
    (request : Request) (s : Site) :
  req_method request = "POST" ->
  req_form request !! "theme_only" = Some "1" ->
  exists s',
    index cfg env allowed request s = (Ok (Redirect "index"), s')
    /\ site_world s' = site_world s
    /\ site_flashes s' = site_flashes s
    /\ site_session s'
       = <["theme" := default "light" (req_form request !! "theme")]> (site_session s)
    /\ index cfg env allowed get_request s'
       = (Ok (Page (Render "index.html"
                      {| arg_output := None; arg_error := None;
                         arg_html_preview := None;
                         arg_theme := default "light" (req_form request !! "theme");
                         arg_code := default "" (site_session s !! "code");
                         arg_language :=
                           default "python" (site_session s !! "language") |})),
          s').
Proof.
  intros Hpost Htheme.
  unfold index at 1.
  unfold bind, get, try_except, site_session_set, modify, ret.
  rewrite Hpost, Htheme. simpl.
  eexists. split; [reflexivity|]. simpl. repeat split.
  rewrite index_get by discriminate. simpl.
  rewrite lookup_insert_eq, !lookup_insert_ne by discriminate. reflexivity.
Qed.

Lemma theme_switch_round_trip_witness :
  exists s',
    index default_config (plain_env (Some 1) "") ALLOWED_EXTENSIONS
      (post_request (<["theme_only" := "1"]> (<["theme" := "dark"]> ∅))) fresh_site
    = (Ok (Redirect "index"), s')
    /\ site_world s' = site_world fresh_site
    /\ site_flashes s' = site_flashes fresh_site
    /\ site_session s'
       = <["theme" := default "light"
             (req_form (post_request (<["theme_only" := "1"]> (<["theme" := "dark"]> ∅)))
                !! "theme")]> (site_session fresh_site)
    /\ index default_config (plain_env (Some 1) "") ALLOWED_EXTENSIONS
         get_request s'
       = (Ok (Page (Render "index.html"
                      {| arg_output := None; arg_error := None;
                         arg_html_preview := None;
                         arg_theme :=
                           default "light"
                             (req_form (post_request (<["theme_only" := "1"]>
                                                        (<["theme" := "dark"]> ∅)))
                                !! "theme");
                         arg_code := default "" (site_session fresh_site !! "code");
                         arg_language :=
                           default "python" (site_session fresh_site !! "language") |})),
          s').
Proof.
  apply (theme_switch_round_trip default_config (plain_env (Some 1) "")
           ALLOWED_EXTENSIONS
           (post_request (<["theme_only" := "1"]> (<["theme" := "dark"]> ∅)))
           fresh_site); reflexivity.
Defined.

Section IdeDispatchFacts.
Context (cfg : Config) (env : Env) (allowed : gset string).

(** A POST that is neither a theme switch nor a file action goes to
    [handle_code_execution]. *)
Lemma index_post_execute (request : Request) (s : Site) :
  req_method request = "POST" ->
  req_form request !! "theme_only" <> Some "1" ->
  PyStr.truthy (default "" (req_form request !! "file_action")) = false ->
  index cfg env allowed request s
  = match handle_code_execution cfg env (req_form request)
            (default "light" (site_session s !! "theme"))
            (default "" (site_session s !! "code"))
            (default "python" (site_session s !! "language"))
            {| web_world := site_world s; session := site_session s |} with
    | (Ok response, s') =>
        (Ok (Page response),
         {| site_world := web_world s'; site_session := session s';
            site_flashes := site_flashes s |})
    | (Raise e, s') =>
        (Ok (Page (Render "index.html"
                     {| arg_output := None;
                        arg_error :=
                          Some "An unexpected error occurred. Please try again.";
                        arg_html_preview := None;
                        arg_theme := default "light" (site_session s !! "theme");
                        arg_code := default "" (site_session s !! "code");
                        arg_language :=
                          default "python" (site_session s !! "language") |})),
         {| site_world :=
              log_event (EvLogError ("Error in IDE: " +:+ str_exn e)) (web_world s');
            site_session := session s'; site_flashes := site_flashes s |})
    end.
Proof.
  intros Hpost Htheme Haction.
  unfold index, bind, get, try_except, with_session, logger_error, os_do,
    modify, ret.
  rewrite Hpost. simpl. rewrite bool_decide_eq_false_2 by exact Htheme.
  rewrite Haction.
  destruct (handle_code_execution _ _ _ _ _ _ _) as [[response|e] s'];
    reflexivity.
Qed.

(** A POST with a file action goes to [handle_file_action], whose
    exceptions end in the error page. *)
Lemma index_post_file_action (request : Request) (s : Site) (file_action : string) :
  req_method request = "POST" ->
  req_form request !! "theme_only" <> Some "1" ->
  req_form request !! "file_action" = Some file_action ->
  file_action <> EmptyString ->
  forall response s',
    handle_file_action allowed file_action request s = (Ok response, s') ->
    index cfg env allowed request s = (Ok response, s').
Proof.
  intros Hpost Htheme Haction Hne response s' Hrun.
  unfold index, bind, get, try_except, ret.
  rewrite Hpost. simpl. rewrite bool_decide_eq_false_2 by exact Htheme.
  rewrite Haction. simpl.
  apply PyStrFacts.truthy_true in Hne. rewrite Hne, Hrun. reflexivity.
Qed.

End IdeDispatchFacts.

(** X9: Submitted code is remembered: after a POST that is neither a theme
    switch nor a file action, whatever the validation says and however
    the run ends, the session holds the submitted code and language, and
    the GET that follows shows them again. *)
Theorem submitted_code_round_trip (cfg : Config) (env : Env)
    (allowed : gset string) (request : Request) (s : Site) :
  req_method request = "POST" ->
  req_form request !! "theme_only" <> Some "1" ->
  PyStr.truthy (default "" (req_form request !! "file_action")) = false ->
  let code := default (default "" (site_session s !! "code"))
                      (req_form request !! "code") in
  let language := default (default "python" (site_session s !! "language"))
                          (req_form request !! "language") in
  let s' := (index cfg env allowed request s).2 in
  site_session s' = <["code" := code]> (<["language" := language]> (site_session s))
  /\ index cfg env allowed get_request s'
     = (Ok (Page (Render "index.html"
                    {| arg_output := None; arg_error := None;
                       arg_html_preview := None;
                       arg_theme := default "light" (site_session s !! "theme");
                       arg_code := code; arg_language := language |})),
        s').
Proof.
  intros Hpost Htheme Haction. cbv zeta.
  rewrite (index_post_execute cfg env allowed request s Hpost Htheme Haction).
  pose proof (handle_code_execution_session cfg env (req_form request)
                (default "light" (site_session s !! "theme"))
                (default "" (site_session s !! "code"))
                (default "python" (site_session s !! "language"))
                {| web_world := site_world s; session := site_session s |})
    as Hsession.
  destruct (handle_code_execution _ _ _ _ _ _ _) as [[response|e] s1];
    simpl in Hsession; simpl; rewrite Hsession;
    (split; [reflexivity|]); rewrite index_get by discriminate; simpl;
    repeat (rewrite lookup_insert_eq || rewrite lookup_insert_ne by discriminate);
    reflexivity.
Qed.

Lemma submitted_code_round_trip_witness :
  let request := post_request (form_fields "import os" "c") in
  let code := default (default "" (site_session fresh_site !! "code"))
                      (req_form request !! "code") in
  let language := default (default "python" (site_session fresh_site !! "language"))
                          (req_form request !! "language") in
  let s' := (index default_config (plain_env (Some 1) "") ALLOWED_EXTENSIONS
               request fresh_site).2 in
  site_session s'
  = <["code" := code]> (<["language" := language]> (site_session fresh_site))
  /\ index default_config (plain_env (Some 1) "") ALLOWED_EXTENSIONS get_request s'
     = (Ok (Page (Render "index.html"
                    {| arg_output := None; arg_error := None;
                       arg_html_preview := None;
                       arg_theme := default "light" (site_session fresh_site !! "theme");
                       arg_code := code; arg_language := language |})),
        s').
Proof.
  apply (submitted_code_round_trip default_config (plain_env (Some 1) "")
           ALLOWED_EXTENSIONS (post_request (form_fields "import os" "c"))
           fresh_site).
  - reflexivity.
  - vm_compute. discriminate.
  - reflexivity.
Defined.

Section FileActionFacts.
Context (cfg : Config) (env : Env) (allowed : gset string).

Ltac run_site :=
  unfold handle_file_action, file_action_branches, flash, site_session_set,
    logger_error, os_do, try_except, bind, ret, raise, modify;
  simpl.

(** A file action starts no process and creates or deletes no file: the
    only thing it can add to the world is a line of the log. *)
Lemma handle_file_action_world (file_action : string) (request : Request)
    (s : Site) :
  exists r s' logs,
    handle_file_action allowed file_action request s = (r, s')
    /\ fs (site_world s') = fs (site_world s)
    /\ trace (site_world s') = trace (site_world s) ++ List.map EvLogError logs.
Proof.
  assert (Hsame : forall (r : result page) (s' : Site),
             site_world s' = site_world s ->
             exists r0 s0 logs,
               (r, s') = (r0, s0)
               /\ fs (site_world s0) = fs (site_world s)
               /\ trace (site_world s0)
                  = trace (site_world s) ++ List.map EvLogError logs).
  { intros r s' Hw. exists r, s', []. rewrite Hw. simpl.
    now rewrite app_nil_r. }
  run_site.
  destruct (String.eqb file_action "upload").
  - destruct (req_files request !! "file") as [file|] eqn:Hfile; simpl.
    + destruct (PyStr.truthy (upload_filename file)); [|now apply Hsame].
      destruct (allowed_file allowed (upload_filename file)); simpl;
        [|now apply Hsame].
      destruct (upload_text file) as [text|e]; simpl; [now apply Hsame|].
      do 2 eexists. exists ["File upload error: " +:+ str_exn e].
      split; [reflexivity|]. simpl. split; reflexivity.
    + destruct (String.eqb file_action "new"); simpl; [now apply Hsame|].
      destruct (String.eqb file_action "download"); simpl; [|now apply Hsame].
      destruct (PyStr.truthy _); now apply Hsame.
  - simpl. destruct (String.eqb file_action "new"); simpl; [now apply Hsame|].
    destruct (String.eqb file_action "download"); simpl; [|now apply Hsame].
    destruct (PyStr.truthy _); now apply Hsame.
Qed.

End FileActionFacts.

(** X10: Only a code submission can run code: a GET of the page, a theme switch
    and every file action (upload, new, download or an unknown one) start
    no process and create or delete no file; at most they add lines to
    the log. *)
Theorem only_submissions_execute (cfg : Config) (env : Env)
    (allowed : gset string) (request : Request) (s : Site) :
  req_method request <> "POST"
  \/ req_form request !! "theme_only" = Some "1"
  \/ PyStr.truthy (default "" (req_form request !! "file_action")) = true ->
  exists response s' logs,
    index cfg env allowed request s = (Ok response, s')
    /\ fs (site_world s') = fs (site_world s)
    /\ trace (site_world s') = trace (site_world s) ++ List.map EvLogError logs.
Proof.
  intros [Hget|Hpost].
  { rewrite index_get by exact Hget. do 2 eexists. exists [].
    split; [reflexivity|]. simpl. now rewrite app_nil_r. }
  unfold index, bind, get, try_except, site_session_set, logger_error, os_do,
    modify, ret.
  destruct (String.eqb (req_method request) "POST").
  2:{ do 2 eexists. exists []. split; [reflexivity|]. simpl.
      now rewrite app_nil_r. }
  simpl. destruct (bool_decide (req_form request !! "theme_only" = Some "1"))
    eqn:Htheme.
  { simpl. do 2 eexists. exists []. split; [reflexivity|]. simpl.
    now rewrite app_nil_r. }
  destruct Hpost as [Hpost|Haction].
  { apply bool_decide_eq_false in Htheme. contradiction. }
  rewrite Haction.
  destruct (handle_file_action_world allowed
              (default "" (req_form request !! "file_action")) request s)
    as (r & s1 & logs & Hrun & Hfs & Htrace).
  rewrite Hrun. destruct r as [response|e]; simpl.
  - do 2 eexists. exists logs. split; [reflexivity|]. split; assumption.
  - do 2 eexists. exists (logs ++ ["Error in IDE: " +:+ str_exn e]).
    split; [reflexivity|]. simpl. split; [exact Hfs|].
    rewrite Htrace, map_app, app_assoc. reflexivity.
Qed.

Lemma only_submissions_execute_witness :
  exists response s' logs,
    index default_config (plain_env (Some 1) "") ALLOWED_EXTENSIONS
      (upload_request {| upload_filename := "run.py";
                         upload_text := Raise (OSError "read failed") |})
      fresh_site
    = (Ok response, s')
    /\ fs (site_world s') = fs (site_world fresh_site)
    /\ trace (site_world s')
       = trace (site_world fresh_site) ++ List.map EvLogError logs.
Proof.
  apply (only_submissions_execute default_config (plain_env (Some 1) "")
           ALLOWED_EXTENSIONS).
  right. right. reflexivity.
Defined.

(** X11: Uploading a file: when the file has a name with an allowed extension
    and its text can be read, the upload puts the text and the language
    detected from the name into the session, flashes a success message
    and redirects; the GET that follows shows the uploaded text under
    that language. *)
Theorem upload_round_trip (cfg : Config) (env : Env) (allowed : gset string)
    (request : Request) (s : Site) (file : Upload) (text : string) :
  req_method request = "POST" ->
  req_form request !! "theme_only" <> Some "1" ->
  req_form request !! "file_action" = Some "upload" ->
  req_files request !! "file" = Some file ->
  upload_filename file <> EmptyString ->
  allowed_file allowed (upload_filename file) = true ->
  upload_text file = Ok text ->
  exists s',
    index cfg env allowed request s = (Ok (Redirect "index"), s')
    /\ site_world s' = site_world s
    /\ site_flashes s'
       = site_flashes s ++ [("File uploaded successfully!", "success")]
    /\ index cfg env allowed get_request s'
       = (Ok (Page (Render "index.html"
                      {| arg_output := None; arg_error := None;
                         arg_html_preview := None;
                         arg_theme := default "light" (site_session s !! "theme");
                         arg_code := text;
                         arg_language :=
                           get_language_from_filename (upload_filename file) |})),
          s').
Proof.
  intros Hpost Htheme Haction Hfile Hname Hallowed Htext.
  eexists. split.
  - apply (index_post_file_action cfg env allowed request s "upload"
             Hpost Htheme Haction); [discriminate|].
    unfold handle_file_action, file_action_branches, flash, site_session_set,
      try_except, bind, ret, modify.
    rewrite Hfile. simpl. apply PyStrFacts.truthy_true in Hname.
    rewrite Hname, Hallowed, Htext. simpl. reflexivity.
  - simpl. split; [reflexivity|]. split; [reflexivity|].
    rewrite index_get by discriminate. simpl.
    repeat (rewrite lookup_insert_eq || rewrite lookup_insert_ne by discriminate).
    reflexivity.
Qed.

Lemma upload_round_trip_witness :
  exists s',
    index default_config (plain_env (Some 1) "") ALLOWED_EXTENSIONS
      (upload_request {| upload_filename := "demo/Hello.C";
                         upload_text := Ok "int main(){}" |}) fresh_site
    = (Ok (Redirect "index"), s')
    /\ site_world s' = site_world fresh_site
    /\ site_flashes s'
       = site_flashes fresh_site ++ [("File uploaded successfully!", "success")]
    /\ index default_config (plain_env (Some 1) "") ALLOWED_EXTENSIONS
         get_request s'
       = (Ok (Page (Render "index.html"
                      {| arg_output := None; arg_error := None;
                         arg_html_preview := None;
                         arg_theme := default "light" (site_session fresh_site !! "theme");
                         arg_code := "int main(){}";
                         arg_language :=
                           get_language_from_filename
                             (upload_filename
                                {| upload_filename := "demo/Hello.C";
                                   upload_text := Ok "int main(){}" |}) |})),
          s').
Proof.
  apply (upload_round_trip default_config (plain_env (Some 1) "")
           ALLOWED_EXTENSIONS
           (upload_request {| upload_filename := "demo/Hello.C";
                              upload_text := Ok "int main(){}" |})
           fresh_site
           {| upload_filename := "demo/Hello.C"; upload_text := Ok "int main(){}" |}
           "int main(){}").
  - reflexivity.
  - vm_compute. discriminate.
  - reflexivity.
  - reflexivity.
  - discriminate.
  - vm_compute. reflexivity.
  - reflexivity.
Defined.

(** X12: A refused upload changes nothing but the messages: when the extension
    of the uploaded file is not allowed, or reading its text raises, the
    session and the files are as before, an error message is flashed and
    the answer is the redirect to the page. *)
Theorem upload_refused_keeps_session (cfg : Config) (env : Env)
    (allowed : gset string) (request : Request) (s : Site) (file : Upload) :
  req_method request = "POST" ->
  req_form request !! "theme_only" <> Some "1" ->
  req_form request !! "file_action" = Some "upload" ->
  req_files request !! "file" = Some file ->
  upload_filename file <> EmptyString ->
  allowed_file allowed (upload_filename file) = false
  \/ (exists e, upload_text file = Raise e) ->
  exists s' message,
    index cfg env allowed request s = (Ok (Redirect "index"), s')
    /\ site_session s' = site_session s
    /\ fs (site_world s') = fs (site_world s)
    /\ site_flashes s' = site_flashes s ++ [(message, "error")].
Proof.
  intros Hpost Htheme Haction Hfile Hname Hrefused.
  apply PyStrFacts.truthy_true in Hname.
  destruct (allowed_file allowed (upload_filename file)) eqn:Hallowed.
  - destruct Hrefused as [|[e Htext]]; [discriminate|].
    do 2 eexists. split.
    + apply (index_post_file_action cfg env allowed request s "upload"
               Hpost Htheme Haction); [discriminate|].
      unfold handle_file_action, file_action_branches, flash, site_session_set,
        logger_error, os_do, try_except, bind, ret, raise, modify.
      rewrite Hfile. simpl. rewrite Hname, Hallowed, Htext. simpl. reflexivity.
    + simpl. repeat split.
  - do 2 eexists. split.
    + apply (index_post_file_action cfg env allowed request s "upload"
               Hpost Htheme Haction); [discriminate|].
      unfold handle_file_action, file_action_branches, flash, bind, ret, modify.
      rewrite Hfile. simpl. rewrite Hname, Hallowed. simpl. reflexivity.
    + simpl. repeat split.
Qed.

Lemma upload_refused_keeps_session_witness :
  exists s' message,
    index default_config (plain_env (Some 1) "") ALLOWED_EXTENSIONS
      (upload_request {| upload_filename := "setup.exe";
                         upload_text := Ok "MZ" |}) fresh_site
    = (Ok (Redirect "index"), s')
    /\ site_session s' = site_session fresh_site
    /\ fs (site_world s') = fs (site_world fresh_site)
    /\ site_flashes s' = site_flashes fresh_site ++ [(message, "error")].
Proof.
  apply (upload_refused_keeps_session default_config (plain_env (Some 1) "")
           ALLOWED_EXTENSIONS
           (upload_request {| upload_filename := "setup.exe"; upload_text := Ok "MZ" |})
           fresh_site
           {| upload_filename := "setup.exe"; upload_text := Ok "MZ" |}).
  - reflexivity.
  - vm_compute. discriminate.
  - reflexivity.
  - reflexivity.
  - discriminate.
  - left. vm_compute. reflexivity.
Defined.

(** X13: Downloading: the [download] action answers with the posted code as
    the body of an attachment named code.txt, and with the redirect to
    the page when no code or empty code is posted; either way the
    session, the messages and the world stay as they are (the posted code
    is not stored). *)
Theorem download_returns_posted_code (cfg : Config) (env : Env)
    (allowed : gset string) (request : Request) (s : Site) :
  req_method request = "POST" ->
  req_form request !! "theme_only" <> Some "1" ->
  req_form request !! "file_action" = Some "download" ->
  index cfg env allowed request s
  = (Ok (match req_form request !! "code" with
         | Some (String c rest) =>
             Attachment (String c rest)
               [("Content-Type", "text/plain");
                ("Content-Disposition", "attachment; filename=code.txt")]
         | _ => Redirect "index"
         end), s).
Proof.
  intros Hpost Htheme Haction.
  apply (index_post_file_action cfg env allowed request s "download"
           Hpost Htheme Haction); [discriminate|].
  unfold handle_file_action, file_action_branches, bind, ret. simpl.
  destruct (req_form request !! "code") as [[|c rest]|]; simpl;
    now destruct s.
Qed.

Lemma download_returns_posted_code_witness :
  index default_config (plain_env (Some 1) "") ALLOWED_EXTENSIONS
    (post_request (<["file_action" := "download"]> (<["code" := "print(1)"]> ∅)))
    fresh_site
  = (Ok (match req_form (post_request (<["file_action" := "download"]>
                                         (<["code" := "print(1)"]> ∅))) !! "code" with
         | Some (String c rest) =>
             Attachment (String c rest)
               [("Content-Type", "text/plain");
                ("Content-Disposition", "attachment; filename=code.txt")]
         | _ => Redirect "index"
         end), fresh_site).
Proof.
  apply (download_returns_posted_code default_config (plain_env (Some 1) "")
           ALLOWED_EXTENSIONS).
  - reflexivity.
  - vm_compute. discriminate.
  - reflexivity.
Defined.

(** X14: Starting a new file: the [new] action empties the code, sets the
    language to python, flashes a message and redirects; the GET that
    follows shows an empty Python page in the theme chosen before. *)
Theorem new_file_resets (cfg : Config) (env : Env) (allowed : gset string)
    (request : Request) (s : Site) :
  req_method request = "POST" ->
  req_form request !! "theme_only" <> Some "1" ->
  req_form request !! "file_action" = Some "new" ->
  exists s',
    index cfg env allowed request s = (Ok (Redirect "index"), s')
    /\ site_world s' = site_world s
    /\ site_flashes s' = site_flashes s ++ [("New file created!", "success")]
    /\ index cfg env allowed get_request s'
       = (Ok (Page (Render "index.html"
                      {| arg_output := None; arg_error := None;
                         arg_html_preview := None;
                         arg_theme := default "light" (site_session s !! "theme");
                         arg_code := ""; arg_language := "python" |})),
          s').
Proof.
  intros Hpost Htheme Haction.
  eexists. split.
  - apply (index_post_file_action cfg env allowed request s "new"
             Hpost Htheme Haction); [discriminate|].
    unfold handle_file_action, file_action_branches, flash, site_session_set,
      bind, ret, modify. simpl. reflexivity.
  - simpl. split; [reflexivity|]. split; [reflexivity|].
    rewrite index_get by discriminate. simpl.
    repeat (rewrite lookup_insert_eq || rewrite lookup_insert_ne by discriminate).
    reflexivity.
Qed.

Lemma new_file_resets_witness :
  exists s',
    index default_config (plain_env (Some 1) "") ALLOWED_EXTENSIONS
      (post_request (<["file_action" := "new"]> ∅)) fresh_site
    = (Ok (Redirect "index"), s')
    /\ site_world s' = site_world fresh_site
    /\ site_flashes s' = site_flashes fresh_site ++ [("New file created!", "success")]
    /\ index default_config (plain_env (Some 1) "") ALLOWED_EXTENSIONS
         get_request s'
       = (Ok (Page (Render "index.html"
                      {| arg_output := None; arg_error := None;
                         arg_html_preview := None;
                         arg_theme := default "light" (site_session fresh_site !! "theme");
                         arg_code := ""; arg_language := "python" |})),
          s').
Proof.
  apply (new_file_resets default_config (plain_env (Some 1) "") ALLOWED_EXTENSIONS).
  - reflexivity.
  - vm_compute. discriminate.
  - reflexivity.
Defined.

(** ** The runners on every platform *)

Section RunnerTotality.
Context (cfg : Config) (env : Env).

Lemma quiet_refl (w : World) : quiet env w w.
Proof.
  split; [auto|]. exists []. split; [now rewrite app_nil_r | constructor].
Qed.

Lemma quiet_log (ev : event) (w w1 : World) :
  is_unlink ev = false -> quiet env w w1 -> quiet env w (log_event ev w1).
Proof.
  intros Hev [Hfs (evs & Ht & Hall)]. split; [exact Hfs|].
  exists (evs ++ [ev]). simpl. rewrite Ht, app_assoc. split; [reflexivity|].
  apply Forall_app. split; [exact Hall | now constructor].
Qed.

Lemma quiet_add_file (path : string) (w w1 : World) :
  quiet env w w1 -> quiet env w (add_file path w1).
Proof.
  intros [Hfs Ht]. split; [|exact Ht].
  intros p Hs Hin. simpl. apply elem_of_union. right. auto.
Qed.

Lemma quiet_after_scratch (name code : string) (w w1 : World) :
  quiet env w w1 -> quiet env w (after_scratch name code w1).
Proof.
  intros Hq. unfold after_scratch.
  repeat (apply quiet_log; [reflexivity|]). now apply quiet_add_file.
Qed.

Lemma quiet_after_child (argv : list string) (t : Z) (files : gset string)
    d f c r (w w1 : World) :
  child env argv files = Runs d f c r ->
  quiet env w w1 -> quiet env w (after_child argv t c r w1).
Proof.
  intros Hchild [Hfs (evs & Ht & Hall)]. split.
  - intros p Hs Hin. simpl. apply elem_of_difference. split.
    + apply elem_of_union. right. auto.
    + rewrite elem_of_list_to_set. eapply Hs. exact Hchild.
  - exists (evs ++ [EvSpawn argv t]). simpl. rewrite Ht, app_assoc.
    split; [reflexivity|]. apply Forall_app. split; [exact Hall|].
    now repeat constructor.
Qed.

Lemma write_scratch_no_file (suffix code var : string) (w : World) (e : exn) :
  scratch_name env suffix w = Raise e ->
  write_scratch env suffix code var {| world := w; locals := ∅ |}
  = (Raise e, {| world := w; locals := ∅ |}).
Proof.
  unfold scratch_name, write_scratch, NamedTemporaryFile, os_get, bind, raise.
  simpl. destruct (tmp_stem env suffix (fs w)); [discriminate|].
  now intros [= ->].
Qed.

Lemma write_scratch_write_fails (suffix code var : string) (w : World)
    (name : string) (e : exn) :
  scratch_name env suffix w = Ok name ->
  write_error env name code = Some e ->
  exists e' w1,
    write_scratch env suffix code var {| world := w; locals := ∅ |}
    = (Raise e', {| world := w1; locals := ∅ |})
    /\ quiet env w w1.
Proof.
  unfold scratch_name, write_scratch, NamedTemporaryFile, file_write, file_close,
    os_get, os_do, try_finally, bind, raise, ret, modify.
  simpl. destruct (tmp_stem env suffix (fs w)) as [stem|]; [|discriminate].
  intros [= <-] Hwrite. simpl. rewrite Hwrite. simpl.
  destruct (close_error env (stem +:+ suffix)); simpl;
    do 2 eexists; (split; [reflexivity|]);
    repeat (apply quiet_log; [reflexivity|]);
    apply quiet_add_file, quiet_refl.
Qed.

Lemma python_except_shape (e : exn) (f : Frame) (w : World) :
  quiet env w (world f) ->
  exists msg w1,
    python_except e f = (Ok (None, Some msg), {| world := w1; locals := locals f |})
    /\ msg <> EmptyString /\ quiet env w w1.
Proof.
  intros Hq.
  destruct e, f; unfold python_except, logger_error, os_do, bind, ret, modify;
    simpl in *; do 2 eexists; (split; [reflexivity|]);
    (split; [discriminate|]);
    first [exact Hq | apply quiet_log; [reflexivity | exact Hq]].
Qed.

Lemma c_except_shape (e : exn) (f : Frame) (w : World) :
  quiet env w (world f) ->
  exists msg w1,
    c_except e f = (Ok (None, Some msg), {| world := w1; locals := locals f |})
    /\ msg <> EmptyString /\ quiet env w w1.
Proof.
  intros Hq.
  destruct e, f; unfold c_except, logger_error, os_do, bind, ret, modify;
    simpl in *; do 2 eexists; (split; [reflexivity|]);
    (split; [discriminate|]);
    first [exact Hq | apply quiet_log; [reflexivity | exact Hq]].
Qed.

Lemma none_if_empty_shape (s : string) : none_if_empty s <> Some EmptyString.
Proof. unfold none_if_empty. destruct s; discriminate. Qed.

(** What the guarded part of the Python runner leaves behind on every
    platform. *)
Lemma python_guarded_total (code : string) (w : World) :
  exists output error w1 vars,
    try_except (python_try cfg env code) python_except
               {| world := w; locals := ∅ |}
    = (Ok (output, error), {| world := w1; locals := vars |})
    /\ error <> Some EmptyString
    /\ (output = None -> error <> None)
    /\ quiet env w w1
    /\ (vars = ∅
        \/ exists name, scratch_name env ".py" w = Ok name
                        /\ vars = <["temp_file" := name]> ∅).
Proof.
  assert (Hhandled : forall e w1 vars,
             quiet env w w1 ->
             (vars = ∅ \/ exists name, scratch_name env ".py" w = Ok name
                                       /\ vars = <["temp_file" := name]> ∅) ->
             exists output error w2 vars2,
               python_except e {| world := w1; locals := vars |}
               = (Ok (output, error), {| world := w2; locals := vars2 |})
               /\ error <> Some EmptyString
               /\ (output = None -> error <> None)
               /\ quiet env w w2
               /\ (vars2 = ∅
                   \/ exists name, scratch_name env ".py" w = Ok name
                                   /\ vars2 = <["temp_file" := name]> ∅)).
  { intros e w1 vars Hq Hvars.
    destruct (python_except_shape e {| world := w1; locals := vars |} w Hq)
      as (msg & w2 & -> & Hmsg & Hq2).
    exists None, (Some msg), w2, vars. split; [reflexivity|].
    split; [congruence|]. split; [discriminate|]. split; assumption. }
  unfold try_except, python_try, bind.
  destruct (scratch_name env ".py" w) as [name|e] eqn:Hname.
  2:{ rewrite (write_scratch_no_file _ _ _ _ _ Hname).
      apply Hhandled; [apply quiet_refl | now left]. }
  destruct (write_error env name code) as [e|] eqn:Hwrite.
  { destruct (write_scratch_write_fails ".py" code "temp_file" w name e Hname Hwrite)
      as (e' & w1 & -> & Hq).
    apply Hhandled; [exact Hq | now left]. }
  rewrite (write_scratch_run env ".py" code "temp_file" w name (conj Hname Hwrite)).
  destruct (close_error env name) as [e|].
  { apply Hhandled; [|right; eauto].
    repeat (apply quiet_log; [reflexivity|]). apply quiet_add_file, quiet_refl. }
  unfold load at 1. simpl locals. rewrite lookup_insert_eq.
  rewrite subprocess_run_frame. simpl world.
  pose proof (quiet_after_scratch name code w w (quiet_refl w)) as Hq0.
  destruct (child env _ _) as [e|d cp created removed] eqn:Hchild.
  { apply Hhandled; [exact Hq0 | right; eauto]. }
  pose proof (quiet_after_child _ (EXECUTION_TIMEOUT cfg) _ _ _ _ _ _ _ Hchild Hq0)
    as Hq1.
  cbv zeta. destruct (exceeds d (EXECUTION_TIMEOUT cfg)).
  { apply Hhandled; [|right; eauto]. apply quiet_log; [reflexivity | exact Hq1]. }
  destruct cp as [p|msg].
  2:{ apply Hhandled; [exact Hq1 | right; eauto]. }
  unfold ret. do 4 eexists. split; [reflexivity|].
  split; [apply none_if_empty_shape|]. split; [discriminate|].
  split; [exact Hq1 | right; eauto].
Qed.

(** The same for the C runner. *)
Lemma c_guarded_total (code : string) (w : World) :
  exists output error w1 vars,
    try_except (c_try cfg env code) c_except {| world := w; locals := ∅ |}
    = (Ok (output, error), {| world := w1; locals := vars |})
    /\ (output = None -> error <> None)
    /\ quiet env w w1
    /\ (vars = ∅
        \/ exists c_file,
             scratch_name env ".c" w = Ok c_file
             /\ (vars = <["c_file" := c_file]> ∅
                 \/ vars = <["exe_file" := exe_name env c_file]>
                             (<["c_file" := c_file]> ∅))).
Proof.
  assert (Hhandled : forall e w1 vars,
             quiet env w w1 ->
             (vars = ∅
              \/ exists c_file,
                   scratch_name env ".c" w = Ok c_file
                   /\ (vars = <["c_file" := c_file]> ∅
                       \/ vars = <["exe_file" := exe_name env c_file]>
                                   (<["c_file" := c_file]> ∅))) ->
             exists output error w2 vars2,
               c_except e {| world := w1; locals := vars |}
               = (Ok (output, error), {| world := w2; locals := vars2 |})
               /\ (output = None -> error <> None)
               /\ quiet env w w2
               /\ (vars2 = ∅
                   \/ exists c_file,
                        scratch_name env ".c" w = Ok c_file
                        /\ (vars2 = <["c_file" := c_file]> ∅
                            \/ vars2 = <["exe_file" := exe_name env c_file]>
                                         (<["c_file" := c_file]> ∅)))).
  { intros e w1 vars Hq Hvars.
    destruct (c_except_shape e {| world := w1; locals := vars |} w Hq)
      as (msg & w2 & -> & Hmsg & Hq2).
    exists None, (Some msg), w2, vars. split; [reflexivity|].
    split; [discriminate|]. split; assumption. }
  unfold try_except, c_try, bind.
  destruct (scratch_name env ".c" w) as [c_file|e] eqn:Hname.
  2:{ rewrite (write_scratch_no_file _ _ _ _ _ Hname).
      apply Hhandled; [apply quiet_refl | now left]. }
  destruct (write_error env c_file code) as [e|] eqn:Hwrite.
  { destruct (write_scratch_write_fails ".c" code "c_file" w c_file e Hname Hwrite)
      as (e' & w1 & -> & Hq).
    apply Hhandled; [exact Hq | now left]. }
  rewrite (write_scratch_run env ".c" code "c_file" w c_file (conj Hname Hwrite)).
  destruct (close_error env c_file) as [e|].
  { apply Hhandled; [|right; eauto].
    repeat (apply quiet_log; [reflexivity|]). apply quiet_add_file, quiet_refl. }
  unfold load at 1. simpl locals. rewrite lookup_insert_eq.
  unfold assign at 1, modify. simpl locals. simpl world.
  unfold load at 1. simpl locals. rewrite lookup_insert_eq.
  fold (exe_name env c_file).
  rewrite subprocess_run_frame. simpl world. simpl locals.
  pose proof (quiet_after_scratch c_file code w w (quiet_refl w)) as Hq0.
  destruct (child env _ _) as [e|d cp created removed] eqn:Hchild.
  { apply Hhandled; [exact Hq0 | right; eauto]. }
  pose proof (quiet_after_child _ (EXECUTION_TIMEOUT cfg) _ _ _ _ _ _ _ Hchild Hq0)
    as Hq1.
  cbv zeta. destruct (exceeds d (EXECUTION_TIMEOUT cfg)).
  { apply Hhandled; [|right; eauto]. apply quiet_log; [reflexivity | exact Hq1]. }
  destruct cp as [p|msg].
  2:{ apply Hhandled; [exact Hq1 | right; eauto]. }
  destruct (negb (returncode p =? 0)).
  { unfold ret. do 4 eexists. split; [reflexivity|].
    split; [discriminate|]. split; [exact Hq1 | right; eauto]. }
  rewrite subprocess_run_frame. simpl world. simpl locals.
  destruct (child env [exe_name env c_file] _)
    as [e|d2 cp2 created2 removed2] eqn:Hchild2.
  { apply Hhandled; [exact Hq1 | right; eauto]. }
  pose proof (quiet_after_child _ (EXECUTION_TIMEOUT cfg) _ _ _ _ _ _ _ Hchild2 Hq1)
    as Hq2.
  cbv zeta. destruct (exceeds d2 (EXECUTION_TIMEOUT cfg)).
  { apply Hhandled; [|right; eauto]. apply quiet_log; [reflexivity | exact Hq2]. }
  destruct cp2 as [p2|msg2].
  2:{ apply Hhandled; [exact Hq2 | right; eauto]. }
  unfold ret. do 4 eexists. split; [reflexivity|].
  split; [discriminate|]. split; [exact Hq2 | right; eauto].
Qed.




End RunnerTotality.

Lemma execute_python_code_total (cfg : Config) (env : Env) (code : string)
    (w : World) :
  exists output error w',
    execute_python_code cfg env code w = (Ok (output, error), w')
    /\ error <> Some EmptyString
    /\ (output = None -> error <> None).
Proof.
  destruct (python_guarded_total cfg env code w)
    as (output & error & w1 & vars & Hrun & Hshape & Hnone & _ & Hvars).
  unfold execute_python_code, call, try_finally. rewrite Hrun.
  destruct Hvars as [->|(name & _ & ->)].
  - rewrite python_finally_unbound by apply lookup_empty. eauto 6.
  - rewrite (python_finally_bound env _ name) by apply lookup_insert_eq.
    eauto 6.
Qed.

Lemma execute_c_code_total (cfg : Config) (env : Env) (code : string)
    (w : World) :
  exists output error w',
    execute_c_code cfg env code w = (Ok (output, error), w')
    /\ (output = None -> error <> None).
Proof.
  destruct (c_guarded_total cfg env code w)
    as (output & error & w1 & vars & Hrun & Hnone & _ & Hvars).
  unfold execute_c_code, call, try_finally. rewrite Hrun.
  destruct Hvars as [->|(c_file & _ & [->| ->])].
  - unfold c_finally, for_each, bind.
    rewrite !unlink_local_unbound by apply lookup_empty. eauto 6.
  - rewrite (c_finally_source_only env _ c_file) by done. eauto 6.
  - rewrite (c_finally_both env _ c_file (exe_name env c_file)) by done.
    eauto 6.
Qed.




(** A submitted program can remove a file: on a platform where every
    program removes /tmp/draft.txt, the file is gone after the Python
    runner has returned, although the runner never asked for its
    deletion. *)
Example submitted_program_can_delete :
  elements (fs two_notes) = ["/tmp/notes.txt"; "/tmp/draft.txt"]
  /\ elements (fs (execute_python_code default_config shredding_env
                    "print(1)" two_notes).2)
     = ["/tmp/notes.txt"]
  /\ trace (execute_python_code default_config shredding_env
              "print(1)" two_notes).2
     = [EvCreate "/tmp/tmpk3x9qz.py"; EvWrite "/tmp/tmpk3x9qz.py" "print(1)";
        EvClose "/tmp/tmpk3x9qz.py";
        EvSpawn ["python"; "/tmp/tmpk3x9qz.py"] 10;
        EvUnlink "/tmp/tmpk3x9qz.py" true].
Proof. vm_compute. repeat split; reflexivity. Qed.





(** X19: Launch failures are reported, not raised. When the interpreter cannot
    be started the Python runner logs the failure and returns
    "Execution error: " followed by its text. When [gcc] is not found the
    C runner returns the GCC-not-found message; it returns the same
    message when the compilation succeeded and it is the compiled binary
    that is not found when it is started. *)
Theorem launch_failures_reported (cfg : Config) (env : Env) (code : string)
    (w : World) :
  (forall name e,
      scratch_written env ".py" code w name ->
      close_error env name = None ->
      child env ["python"; name] ({[name]} ∪ fs w) = LaunchFails e ->
      (forall msg, e <> TimeoutExpired msg) ->
      exists w' deleted,
        execute_python_code cfg env code w
        = (Ok (None, Some ("Execution error: " +:+ str_exn e)), w')
        /\ trace w' = trace w ++
             [EvCreate name; EvWrite name code; EvClose name;
              EvLogError ("Python execution error: " +:+ str_exn e);
              EvUnlink name deleted])
  /\ (forall c_file msg,
         scratch_written env ".c" code w c_file ->
         close_error env c_file = None ->
         child env (gcc_argv env c_file) ({[c_file]} ∪ fs w)
           = LaunchFails (FileNotFoundError msg) ->
         exists w',
           execute_c_code cfg env code w
           = (Ok (None, Some "GCC compiler not found. Please install GCC to run C code."),
              w'))
  /\ (forall c_file compile_time compiled created removed msg,
         scratch_written env ".c" code w c_file ->
         close_error env c_file = None ->
         child env (gcc_argv env c_file) ({[c_file]} ∪ fs w)
           = Runs compile_time (Decoded compiled) created removed ->
         exceeds compile_time (EXECUTION_TIMEOUT cfg) = false ->
         returncode compiled = 0 ->
         child env [exe_name env c_file]
               ((list_to_set created ∪ ({[c_file]} ∪ fs w)) ∖ list_to_set removed)
           = LaunchFails (FileNotFoundError msg) ->
         exists w',
           execute_c_code cfg env code w
           = (Ok (None, Some "GCC compiler not found. Please install GCC to run C code."),
              w')).
Proof.
  split; [|split].
  - intros name e Hw Hclose Hchild Hnot.
    unfold execute_python_code, call, try_finally, try_except, python_try, bind.
    rewrite (write_scratch_run _ _ _ _ _ _ Hw), Hclose.
    unfold load at 1. simpl locals. rewrite lookup_insert_eq.
    rewrite subprocess_run_frame. simpl world.
    rewrite fs_after_scratch, Hchild.
    assert (Hexcept : forall f,
               python_except e f
               = (Ok (None, Some ("Execution error: " +:+ str_exn e)),
                  {| world := log_event
                       (EvLogError ("Python execution error: " +:+ str_exn e))
                       (world f);
                     locals := locals f |})).
    { intros f. destruct e; try reflexivity. now destruct (Hnot msg). }
    rewrite Hexcept. simpl world. simpl locals.
    rewrite (python_finally_bound env _ name) by apply lookup_insert_eq.
    simpl world.
    match goal with |- context [unlinked env name ?w1] =>
      destruct (unlinked_trace env name w1) as [deleted Htrace] end.
    do 2 eexists. split; [reflexivity|]. rewrite Htrace. unfold after_scratch, after_child.
    simpl. rewrite <- !app_assoc. reflexivity.
  - intros c_file msg Hw Hclose Hgcc.
    unfold execute_c_code, call, try_finally, try_except, c_try, bind.
    rewrite (write_scratch_run _ _ _ _ _ _ Hw), Hclose.
    unfold load at 1. simpl locals. rewrite lookup_insert_eq.
    unfold assign at 1, modify. simpl locals. simpl world.
    unfold load at 1. simpl locals. rewrite lookup_insert_eq.
    fold (exe_name env c_file). fold (gcc_argv env c_file).
    rewrite subprocess_run_frame. simpl world. simpl locals.
    rewrite fs_after_scratch, Hgcc. simpl c_except. unfold ret.
    rewrite (c_finally_both env _ c_file (exe_name env c_file)) by done.
    eexists. reflexivity.
  - intros c_file d1 cp1 created1 removed1 msg Hw Hclose Hgcc Hfast Hzero Hchild.
    unfold execute_c_code, call, try_finally, try_except, c_try, bind.
    rewrite (write_scratch_run _ _ _ _ _ _ Hw), Hclose.
    unfold load at 1. simpl locals. rewrite lookup_insert_eq.
    unfold assign at 1, modify. simpl locals. simpl world.
    unfold load at 1. simpl locals. rewrite lookup_insert_eq.
    fold (exe_name env c_file). fold (gcc_argv env c_file).
    rewrite subprocess_run_frame. simpl world. simpl locals.
    rewrite fs_after_scratch, Hgcc. cbv zeta. rewrite Hfast, Hzero.
    rewrite Z.eqb_refl. cbn [negb]. cbv beta iota.
    rewrite subprocess_run_frame. simpl world. simpl locals. simpl fs.
    rewrite Hchild. simpl c_except. unfold ret.
    rewrite (c_finally_both env _ c_file (exe_name env c_file)) by done.
    eexists. reflexivity.
Qed.

Lemma launch_failures_reported_witness :
  (exists w' deleted,
      execute_python_code default_config no_tools_env "print(1)" no_files
      = (Ok (None, Some ("Execution error: "
                         +:+ str_exn (FileNotFoundError
                                        "[Errno 2] No such file or directory"))),
         w')
      /\ trace w' = trace no_files ++
           [EvCreate "/tmp/tmpk3x9qz.py"; EvWrite "/tmp/tmpk3x9qz.py" "print(1)";
            EvClose "/tmp/tmpk3x9qz.py";
            EvLogError ("Python execution error: "
                        +:+ str_exn (FileNotFoundError
                                       "[Errno 2] No such file or directory"));
            EvUnlink "/tmp/tmpk3x9qz.py" deleted])
  /\ (exists w',
         execute_c_code default_config no_tools_env "int main(){}" no_files
         = (Ok (None, Some "GCC compiler not found. Please install GCC to run C code."),
            w'))
  /\ (exists w',
         execute_c_code default_config lost_binary_env "int main(){}" no_files
         = (Ok (None, Some "GCC compiler not found. Please install GCC to run C code."),
            w')).
Proof.
  split; [|split].
  - apply (proj1 (launch_failures_reported default_config no_tools_env
                    "print(1)" no_files)
             "/tmp/tmpk3x9qz.py"
             (FileNotFoundError "[Errno 2] No such file or directory"));
      [split; reflexivity | reflexivity | reflexivity | discriminate].
  - apply (proj1 (proj2 (launch_failures_reported default_config no_tools_env
                           "int main(){}" no_files))
             "/tmp/tmpk3x9qz.c" "[Errno 2] No such file or directory: 'gcc'");
      [split; reflexivity | reflexivity..].
  - apply (proj2 (proj2 (launch_failures_reported default_config lost_binary_env
                           "int main(){}" no_files))
             "/tmp/tmpk3x9qz.c" (Some 1) (exited 0 "" "") ["/tmp/tmpk3x9qz"] []
             "[Errno 2] No such file or directory");
      [split; reflexivity | reflexivity..].
Defined.

(** ** The dispatchers, language by language *)

(** X20: Only python and c ever execute: for every other language value, and
    for every code, valid or not, the form handler and the JSON endpoint
    start no process and create no file. The form handler leaves the
    world as it is; so does the JSON endpoint, except that it logs the
    error when the code of the body is a truthy value that is not a
    string. *)
Theorem other_languages_never_execute (cfg : Config) (env : Env) :
  (forall (form : gmap string string) theme code0 language0 (s : Web),
      default language0 (form !! "language") <> "python" ->
      default language0 (form !! "language") <> "c" ->
      web_world (handle_code_execution cfg env form theme code0 language0 s).2
      = web_world s)
  /\ (forall (data : gmap string pyvalue) (w : World),
         default (VStr "python") (data !! "language") <> VStr "python" ->
         default (VStr "python") (data !! "language") <> VStr "c" ->
         (api_execute cfg env (JsonObject data) w).2
         = match default (VStr "") (data !! "code") with
           | VOther type_name true _ =>
               log_event
                 (EvLogError ("API execution error: "
                              +:+ no_attribute type_name "strip")) w
           | _ => w
           end).
Proof.
  split.
  - intros form theme code0 language0 s Hpy Hc.
    apply String.eqb_neq in Hpy, Hc.
    unfold handle_code_execution, bind, session_set, modify, ret. simpl.
    destruct (validate_code cfg _ _) as [[|] error_msg]; [|reflexivity].
    rewrite Hpy, Hc. destruct (String.eqb _ "html"); [reflexivity|].
    destruct (String.eqb _ "javascript"); reflexivity.
  - intros data w Hpy Hc.
    unfold api_execute, try_except, bind, get_json, data_get, decoded_truth,
      logger_error, os_do, modify, raise, ret.
    destruct (bool_decide (data = ∅)) eqn:Hempty; simpl.
    { apply bool_decide_eq_true in Hempty. subst data.
      rewrite lookup_empty. reflexivity. }
    destruct (default (VStr "") (data !! "code")) as [code|type_name [|] text];
      [|reflexivity..].
    destruct (validate_code cfg _ _) as [[|] error_msg]; [|reflexivity].
    destruct (default (VStr "python") (data !! "language")) as [language|? ? ?];
      simpl.
    + replace (String.eqb language "python") with false
        by (symmetry; apply String.eqb_neq; congruence).
      replace (String.eqb language "c") with false
        by (symmetry; apply String.eqb_neq; congruence).
      destruct (String.eqb language "html"); reflexivity.
    + reflexivity.
Qed.

Lemma other_languages_never_execute_witness :
  web_world (handle_code_execution default_config (plain_env (Some 1) "")
               (form_fields "puts 1" "ruby") "light" "" "python"
               fresh_session).2
  = web_world fresh_session
  /\ (api_execute default_config (plain_env (Some 1) "")
        (json_body "puts 1" "ruby") no_files).2
     = no_files
  /\ (api_execute default_config (plain_env (Some 1) "")
        (JsonObject (<["code" := py_int 123]> (<["language" := py_none]> ∅)))
        no_files).2
     = log_event
         (EvLogError "API execution error: 'int' object has no attribute 'strip'")
         no_files.
Proof.
  destruct (other_languages_never_execute default_config (plain_env (Some 1) ""))
    as [Hform Hapi].
  split; [|split].
  - apply Hform; vm_compute; discriminate.
  - etrans;
      [apply (Hapi (<["code" := VStr "puts 1"]> (<["language" := VStr "ruby"]> ∅)));
       vm_compute; discriminate|].
    vm_compute. reflexivity.
  - etrans;
      [apply (Hapi (<["code" := py_int 123]> (<["language" := py_none]> ∅)));
       vm_compute; discriminate|].
    vm_compute. reflexivity.
Defined.

(** X21: HTML is previewed, not run: for HTML code that passes validation the
    form handler renders the page with the code as its preview and
    neither output nor error, and the JSON endpoint answers 200 with the
    code as [html_preview]. *)
Theorem html_is_previewed (cfg : Config) (env : Env) (code : string) :
  (validate_code cfg code "html").1 = true ->
  (forall (form : gmap string string) theme code0 language0 (s : Web),
      default code0 (form !! "code") = code ->
      default language0 (form !! "language") = "html" ->
      (handle_code_execution cfg env form theme code0 language0 s).1
      = Ok (Render "index.html"
              {| arg_output := None; arg_error := None;
                 arg_html_preview := Some code; arg_theme := theme;
                 arg_code := code; arg_language := "html" |}))
  /\ (forall (data : gmap string pyvalue) (w : World),
         data <> ∅ ->
         default (VStr "") (data !! "code") = VStr code ->
         default (VStr "python") (data !! "language") = VStr "html" ->
         api_execute cfg env (JsonObject data) w
         = (Ok (Jsonify [("html_preview", JStr code)] 200), w)).
Proof.
  intros Hvalid.
  destruct (validate_code cfg code "html") as [valid error_msg] eqn:Hv.
  simpl in Hvalid. subst valid. split.
  - intros form theme code0 language0 s Hcode Hlang.
    unfold handle_code_execution, bind, session_set, modify, ret. simpl.
    rewrite Hcode, Hlang, Hv. reflexivity.
  - intros data w Hne Hcode Hlang. api_object Hne.
    rewrite Hcode, Hlang. simpl. rewrite Hv. reflexivity.
Qed.

Lemma html_is_previewed_witness :
  (forall (form : gmap string string) theme code0 language0 (s : Web),
      default code0 (form !! "code") = "<h1>Test</h1>" ->
      default language0 (form !! "language") = "html" ->
      (handle_code_execution default_config (plain_env (Some 1) "")
         form theme code0 language0 s).1
      = Ok (Render "index.html"
              {| arg_output := None; arg_error := None;
                 arg_html_preview := Some "<h1>Test</h1>"; arg_theme := theme;
                 arg_code := "<h1>Test</h1>"; arg_language := "html" |}))
  /\ (forall (data : gmap string pyvalue) (w : World),
         data <> ∅ ->
         default (VStr "") (data !! "code") = VStr "<h1>Test</h1>" ->
         default (VStr "python") (data !! "language") = VStr "html" ->
         api_execute default_config (plain_env (Some 1) "") (JsonObject data) w
         = (Ok (Jsonify [("html_preview", JStr "<h1>Test</h1>")] 200), w)).
Proof.
  apply (html_is_previewed default_config (plain_env (Some 1) "") "<h1>Test</h1>").
  reflexivity.
Defined.

(** X22: Unknown languages are refused by name: for code that passes
    validation and a language that is none of python, c, html and
    javascript, the form handler renders the error
    "Unsupported language: " followed by the language, and the JSON
    endpoint answers 400 with the same message. *)
Theorem unknown_language_refused (cfg : Config) (env : Env)
    (code language : string) :
  (validate_code cfg code language).1 = true ->
  language <> "python" -> language <> "c" ->
  language <> "html" -> language <> "javascript" ->
  (forall (form : gmap string string) theme code0 language0 (s : Web),
      default code0 (form !! "code") = code ->
      default language0 (form !! "language") = language ->
      (handle_code_execution cfg env form theme code0 language0 s).1
      = Ok (Render "index.html"
              {| arg_output := None;
                 arg_error := Some ("Unsupported language: " +:+ language);
                 arg_html_preview := None; arg_theme := theme;
                 arg_code := code; arg_language := language |}))
  /\ (forall (data : gmap string pyvalue) (w : World),
         data <> ∅ ->
         default (VStr "") (data !! "code") = VStr code ->
         default (VStr "python") (data !! "language") = VStr language ->
         api_execute cfg env (JsonObject data) w
         = (Ok (Jsonify [("error", JStr ("Unsupported language: " +:+ language))]
                        400), w)).
Proof.
  intros Hvalid Hpy Hc Hhtml Hjs.
  apply String.eqb_neq in Hpy, Hc, Hhtml, Hjs.
  destruct (validate_code cfg code language) as [valid error_msg] eqn:Hv.
  simpl in Hvalid. subst valid. split.
  - intros form theme code0 language0 s Hcode Hlang.
    unfold handle_code_execution, bind, session_set, modify, ret. simpl.
    rewrite Hcode, Hlang, Hv, Hpy, Hc, Hhtml, Hjs. reflexivity.
  - intros data w Hne Hcode Hlang. api_object Hne.
    rewrite Hcode, Hlang. simpl. rewrite Hv, Hpy, Hc, Hhtml. reflexivity.
Qed.

Lemma unknown_language_refused_witness :
  (forall (form : gmap string string) theme code0 language0 (s : Web),
      default code0 (form !! "code") = "puts 1" ->
      default language0 (form !! "language") = "ruby" ->
      (handle_code_execution default_config (plain_env (Some 1) "")
         form theme code0 language0 s).1
      = Ok (Render "index.html"
              {| arg_output := None;
                 arg_error := Some ("Unsupported language: " +:+ "ruby");
                 arg_html_preview := None; arg_theme := theme;
                 arg_code := "puts 1"; arg_language := "ruby" |}))
  /\ (forall (data : gmap string pyvalue) (w : World),
         data <> ∅ ->
         default (VStr "") (data !! "code") = VStr "puts 1" ->
         default (VStr "python") (data !! "language") = VStr "ruby" ->
         api_execute default_config (plain_env (Some 1) "") (JsonObject data) w
         = (Ok (Jsonify [("error", JStr ("Unsupported language: " +:+ "ruby"))]
                        400), w)).
Proof.
  apply (unknown_language_refused default_config (plain_env (Some 1) "")
           "puts 1" "ruby"); [reflexivity | discriminate..].
Defined.

(** X23: Results of a run are reported as they are: for code that passes
    validation and the language python or c, the JSON endpoint answers
    200 with the output and error the runner returned and with
    [success] telling whether the error is absent, and the form handler
    renders the same output and error; the world after the request is
    the world the runner left. *)
Theorem execution_results_reported (cfg : Config) (env : Env) (code : string) :
  (validate_code cfg code "python").1 = true ->
  (forall (data : gmap string pyvalue) (w : World),
      data <> ∅ ->
      default (VStr "") (data !! "code") = VStr code ->
      default (VStr "python") (data !! "language") = VStr "python" ->
      exists output error w',
        execute_python_code cfg env code w = (Ok (output, error), w')
        /\ api_execute cfg env (JsonObject data) w
           = (Ok (Jsonify [("output", jopt output); ("error", jopt error);
                           ("success", JBool (bool_decide (error = None)))] 200),
              w'))
  /\ (forall (data : gmap string pyvalue) (w : World),
         data <> ∅ ->
         default (VStr "") (data !! "code") = VStr code ->
         default (VStr "python") (data !! "language") = VStr "c" ->
         exists output error w',
           execute_c_code cfg env code w = (Ok (output, error), w')
           /\ api_execute cfg env (JsonObject data) w
              = (Ok (Jsonify [("output", jopt output); ("error", jopt error);
                              ("success", JBool (bool_decide (error = None)))] 200),
                 w'))
  /\ (forall (form : gmap string string) theme code0 language0 (s : Web),
         default code0 (form !! "code") = code ->
         default language0 (form !! "language") = "python" ->
         exists output error w',
           execute_python_code cfg env code (web_world s) = (Ok (output, error), w')
           /\ (handle_code_execution cfg env form theme code0 language0 s).1
              = Ok (Render "index.html"
                      {| arg_output := output; arg_error := error;
                         arg_html_preview := None; arg_theme := theme;
                         arg_code := code; arg_language := "python" |})
           /\ web_world (handle_code_execution cfg env form theme code0 language0 s).2
              = w')
  /\ (forall (form : gmap string string) theme code0 language0 (s : Web),
         default code0 (form !! "code") = code ->
         default language0 (form !! "language") = "c" ->
         exists output error w',
           execute_c_code cfg env code (web_world s) = (Ok (output, error), w')
           /\ (handle_code_execution cfg env form theme code0 language0 s).1
              = Ok (Render "index.html"
                      {| arg_output := output; arg_error := error;
                         arg_html_preview := None; arg_theme := theme;
                         arg_code := code; arg_language := "c" |})
           /\ web_world (handle_code_execution cfg env form theme code0 language0 s).2
              = w').
Proof.
  intros Hvalid.
  assert (Hv : forall language, validate_code cfg code language = (true, None)).
  { intros language. change (validate_code cfg code language)
      with (validate_code cfg code "python").
    revert Hvalid. rewrite validate_code_eq.
    destruct (PyStr.all_space code); [discriminate|].
    destruct (PyStr.len code >? MAX_CODE_LENGTH cfg); [discriminate|].
    destruct (first_dangerous _ _); [discriminate|reflexivity]. }
  split; [|split; [|split]].
  - intros data w Hne Hcode Hlang.
    destruct (execute_python_code_total cfg env code w)
      as (output & error & w' & Hrun & _).
    exists output, error, w'. split; [exact Hrun|]. api_object Hne.
    rewrite Hcode, Hlang. simpl. rewrite Hv. simpl. rewrite Hrun. reflexivity.
  - intros data w Hne Hcode Hlang.
    destruct (execute_c_code_total cfg env code w)
      as (output & error & w' & Hrun & _).
    exists output, error, w'. split; [exact Hrun|]. api_object Hne.
    rewrite Hcode, Hlang. simpl. rewrite Hv. simpl. rewrite Hrun. reflexivity.
  - intros form theme code0 language0 s Hcode Hlang.
    destruct (execute_python_code_total cfg env code (web_world s))
      as (output & error & w' & Hrun & _).
    exists output, error, w'. split; [exact Hrun|].
    unfold handle_code_execution, bind, session_set, modify, ret, run_core.
    simpl. rewrite Hcode, Hlang, Hv. simpl. rewrite Hrun. split; reflexivity.
  - intros form theme code0 language0 s Hcode Hlang.
    destruct (execute_c_code_total cfg env code (web_world s))
      as (output & error & w' & Hrun & _).
    exists output, error, w'. split; [exact Hrun|].
    unfold handle_code_execution, bind, session_set, modify, ret, run_core.
    simpl. rewrite Hcode, Hlang, Hv. simpl. rewrite Hrun. split; reflexivity.
Qed.

Lemma execution_results_reported_witness :
  exists output error w',
    execute_python_code default_config (plain_env (Some 1) "1") "print(1)" no_files
    = (Ok (output, error), w')
    /\ api_execute default_config (plain_env (Some 1) "1")
         (JsonObject (<["code" := VStr "print(1)"]>
                        (<["language" := VStr "python"]> ∅)))
         no_files
       = (Ok (Jsonify [("output", jopt output); ("error", jopt error);
                       ("success", JBool (bool_decide (error = None)))] 200),
          w').
Proof.
  apply (proj1 (execution_results_reported default_config (plain_env (Some 1) "1")
                  "print(1)" ltac:(reflexivity))
           (<["code" := VStr "print(1)"]> (<["language" := VStr "python"]> ∅))
           no_files).
  - intros H. apply (f_equal (fun m : gmap string pyvalue => m !! "code")) in H.
    vm_compute in H. discriminate.
  - reflexivity.
  - reflexivity.
Defined.

(** X24: The JSON endpoint always answers with JSON and a status of 200, 400
    or 500. The status is 500, with the body
    [{"error": "Internal server error"}], exactly in three cases: reading
    the JSON body of the request raises; the body is a truthy value that
    is not an object (a non-empty string or list, a non-zero number,
    true); or the body is a non-empty object whose [code] is a truthy
    value that is not a string. No failure of a run turns into a server
    error. *)
Theorem api_execute_status (cfg : Config) (env : Env) (req : json_request)
    (w : World) :
  exists body status w',
    api_execute cfg env req w = (Ok (Jsonify body status), w')
    /\ (status = 200 \/ status = 400 \/ status = 500)
    /\ (status = 500 -> body = [("error", JStr "Internal server error")])
    /\ (status = 500 <->
        (exists e, req = JsonRaises e)
        \/ (exists v, req = JsonValue v /\ truth_of v = true)
        \/ (exists data type_name text,
               req = JsonObject data /\ data <> ∅
               /\ default (VStr "") (data !! "code")
                  = VOther type_name true text)).
Proof.
  assert (Hfine : forall (body : list (string * jvalue)) (status : Z) (w' : World),
             status = 200 \/ status = 400 ->
             ~ ((exists e, req = JsonRaises e)
                \/ (exists v, req = JsonValue v /\ truth_of v = true)
                \/ (exists data type_name text,
                       req = JsonObject data /\ data <> ∅
                       /\ default (VStr "") (data !! "code")
                          = VOther type_name true text)) ->
             exists body0 status0 w0,
               (Ok (Jsonify body status), w') = (Ok (Jsonify body0 status0), w0)
               /\ (status0 = 200 \/ status0 = 400 \/ status0 = 500)
               /\ (status0 = 500 ->
                   body0 = [("error", JStr "Internal server error")])
               /\ (status0 = 500 <->
                   (exists e, req = JsonRaises e)
                   \/ (exists v, req = JsonValue v /\ truth_of v = true)
                   \/ (exists data type_name text,
                          req = JsonObject data /\ data <> ∅
                          /\ default (VStr "") (data !! "code")
                             = VOther type_name true text))).
  { intros body status w' Hstatus Hnot. exists body, status, w'.
    split; [reflexivity|]. split; [tauto|].
    split; [intros ->; destruct Hstatus; discriminate|].
    split; [intros ->; destruct Hstatus; discriminate | tauto]. }
  assert (Hfails : forall (w' : World),
             ((exists e, req = JsonRaises e)
              \/ (exists v, req = JsonValue v /\ truth_of v = true)
              \/ (exists data type_name text,
                     req = JsonObject data /\ data <> ∅
                     /\ default (VStr "") (data !! "code")
                        = VOther type_name true text)) ->
             exists body0 status0 w0,
               (Ok (Jsonify [("error", JStr "Internal server error")] 500), w')
               = (Ok (Jsonify body0 status0), w0)
               /\ (status0 = 200 \/ status0 = 400 \/ status0 = 500)
               /\ (status0 = 500 ->
                   body0 = [("error", JStr "Internal server error")])
               /\ (status0 = 500 <->
                   (exists e, req = JsonRaises e)
                   \/ (exists v, req = JsonValue v /\ truth_of v = true)
                   \/ (exists data type_name text,
                          req = JsonObject data /\ data <> ∅
                          /\ default (VStr "") (data !! "code")
                             = VOther type_name true text))).
  { intros w' Hcase. do 3 eexists. split; [reflexivity|]. tauto. }
  unfold api_execute, try_except, bind, get_json, data_get, decoded_truth,
    logger_error, os_do, modify, raise, ret.
  destruct req as [e| |data|v]; simpl.
  - apply Hfails. left. eauto.
  - apply Hfine; [auto|]. intros [[e He]|[(v & He & _)|(d & t & x & He & _)]];
      discriminate.
  - destruct (bool_decide (data = ∅)) eqn:Hempty; simpl.
    { apply bool_decide_eq_true in Hempty. apply Hfine; [auto|].
      intros [[e He]|[(v & He & _)|(d & t & x & [= <-] & Hne & _)]];
        [discriminate..|contradiction]. }
    apply bool_decide_eq_false in Hempty.
    destruct (default (VStr "") (data !! "code"))
      as [code|type_name [|] text] eqn:Hcode.
    2:{ apply Hfails. right. right. eauto 6. }
    2:{ apply Hfine; [auto|].
        intros [[e He]|[(v & He & _)|(d & t & x & [= <-] & _ & Hc)]];
          [discriminate..|]. rewrite Hcode in Hc. discriminate. }
    assert (Hstr : ~ ((exists e, JsonObject data = JsonRaises e)
                      \/ (exists v, JsonObject data = JsonValue v
                                    /\ truth_of v = true)
                      \/ (exists d type_name text,
                             JsonObject data = JsonObject d /\ d <> ∅
                             /\ default (VStr "") (d !! "code")
                                = VOther type_name true text))).
    { intros [[e He]|[(v & He & _)|(d & t & x & [= <-] & _ & Hc)]];
        [discriminate..|]. rewrite Hcode in Hc. discriminate. }
    destruct (validate_code cfg _ _) as [[|] error_msg].
    2:{ apply Hfine; [auto | exact Hstr]. }
    destruct (value_is _ "python").
    { destruct (execute_python_code_total cfg env code w)
        as (output & error & w' & -> & _).
      apply Hfine; [auto | exact Hstr]. }
    destruct (value_is _ "c").
    { destruct (execute_c_code_total cfg env code w)
        as (output & error & w' & -> & _).
      apply Hfine; [auto | exact Hstr]. }
    destruct (value_is _ "html"); (apply Hfine; [auto | exact Hstr]).
  - destruct (truth_of v) eqn:Htruth; simpl.
    + apply Hfails. right. left. eauto.
    + apply Hfine; [auto|].
      intros [[e He]|[(v' & [= <-] & Hv)|(d & t & x & He & _)]];
        [discriminate| |discriminate]. congruence.
Qed.

(** The JSON body [{"code": 123}] is answered with a server error: the
    integer has no [strip], and the exception is caught by the endpoint
    and logged. So are the body [[1, 2]] and, being falsy, not the body
    [0]. *)
Example api_execute_on_non_strings :
  api_execute default_config (plain_env (Some 1) "")
    (JsonObject (<["code" := py_int 123]> ∅)) no_files
  = (Ok (Jsonify [("error", JStr "Internal server error")] 500),
     log_event
       (EvLogError "API execution error: 'int' object has no attribute 'strip'")
       no_files)
  /\ api_execute default_config (plain_env (Some 1) "")
       (JsonValue (VOther "list" true "[1, 2]")) no_files
     = (Ok (Jsonify [("error", JStr "Internal server error")] 500),
        log_event
          (EvLogError "API execution error: 'list' object has no attribute 'get'")
          no_files)
  /\ api_execute default_config (plain_env (Some 1) "")
       (JsonValue (py_int 0)) no_files
     = (Ok (Jsonify [("error", JStr "No JSON data provided")] 400), no_files)
  /\ api_execute default_config (plain_env (Some 1) "")
       (JsonObject (<["code" := py_int 0]> ∅)) no_files
     = (Ok (Jsonify [("error", JStr "Code cannot be empty")] 400), no_files).
Proof. vm_compute. repeat split; reflexivity. Qed.

(** ** The C tab of the desktop window *)

Section DesktopCFacts.
Context (env : Env).
Import Desktop.




End DesktopCFacts.



(** ** The decorated routes *)

(** X26: A refused request runs nothing: when a client has used up its quota
    and the window has not elapsed, both decorated routes answer 429
    without calling the view; the session, the world and the counters
    stay as they are and a warning is logged. *)
Theorem refused_request_runs_nothing (cfg : Config) (env : Env)
    (allowed : gset string) (limits : Limits) (client_ip : string) (now : Z)
    (requests window_start : Z) :
  TESTING limits = false ->
  now - window_start <= timedelta_seconds (RATE_LIMIT_WINDOW limits) ->
  RATE_LIMIT_REQUESTS limits <= requests ->
  (forall (request : Request) (st : Limited Site),
      rate_limit_storage st !! client_ip = Some (requests, window_start) ->
      ide_route cfg env allowed limits request client_ip now st
      = (Ok msg_rate_limited,
         {| served := served st; rate_limit_storage := rate_limit_storage st;
            rate_warnings := rate_warnings st
                             ++ ["Rate limit exceeded for IP: " +:+ client_ip] |}))
  /\ (forall (req : json_request) (st : Limited World),
         rate_limit_storage st !! client_ip = Some (requests, window_start) ->
         api_route cfg env limits req client_ip now st
         = (Ok msg_rate_limited,
            {| served := served st; rate_limit_storage := rate_limit_storage st;
               rate_warnings := rate_warnings st
                                ++ ["Rate limit exceeded for IP: " +:+ client_ip] |})).
Proof.
  intros Htest Hwindow Hquota.
  assert (Hrefuse : forall S (f : M S page) (st : Limited S),
             rate_limit_storage st !! client_ip = Some (requests, window_start) ->
             rate_limit limits f client_ip now st
             = (Ok msg_rate_limited,
                {| served := served st;
                   rate_limit_storage := rate_limit_storage st;
                   rate_warnings := rate_warnings st
                     ++ ["Rate limit exceeded for IP: " +:+ client_ip] |})).
  { intros S f st Hentry.
    unfold rate_limit, logger_warning, bind, get, modify, ret.
    rewrite Htest. simpl. rewrite Hentry.
    replace (now - window_start >? timedelta_seconds (RATE_LIMIT_WINDOW limits))
      with false by (symmetry; rewrite Z.gtb_ltb; apply Z.ltb_ge; lia).
    replace (requests >=? RATE_LIMIT_REQUESTS limits) with true
      by (symmetry; rewrite Z.geb_leb; apply Z.leb_le; lia).
    reflexivity. }
  split; intros ? st Hentry; apply Hrefuse, Hentry.
Qed.

Lemma refused_request_runs_nothing_witness :
  (forall (request : Request) (st : Limited Site),
      rate_limit_storage st !! "10.0.0.7" = Some (50, 0) ->
      ide_route default_config (plain_env (Some 1) "") ALLOWED_EXTENSIONS
        default_limits request "10.0.0.7" 3600000000 st
      = (Ok msg_rate_limited,
         {| served := served st; rate_limit_storage := rate_limit_storage st;
            rate_warnings := rate_warnings st
                             ++ ["Rate limit exceeded for IP: " +:+ "10.0.0.7"] |}))
  /\ (forall (req : json_request) (st : Limited World),
         rate_limit_storage st !! "10.0.0.7" = Some (50, 0) ->
         api_route default_config (plain_env (Some 1) "") default_limits req
           "10.0.0.7" 3600000000 st
         = (Ok msg_rate_limited,
            {| served := served st; rate_limit_storage := rate_limit_storage st;
               rate_warnings := rate_warnings st
                                ++ ["Rate limit exceeded for IP: " +:+ "10.0.0.7"] |})).
Proof.
  apply (refused_request_runs_nothing default_config (plain_env (Some 1) "")
           ALLOWED_EXTENSIONS default_limits "10.0.0.7" 3600000000 50 0).
  - reflexivity.
  - vm_compute. discriminate.
  - simpl. lia.
Defined.
